(** * The VFS metadata layer of the kernel (src/kernel/vfs.c)

    A shallow embedding of the in-memory part of the virtual filesystem:
    the superblock registry, the dentry cache with its LFU eviction, the
    reference-counted vnode cache, path lookup and the mount / unmount
    protocol, followed by the properties the specification states about
    them.

    Conventions of the embedding.
    - A C pointer is an [option]: [None] is [NULL].  A pointer into the
      static array [vfs_dentries] is the index of the slot; a pointer to a
      [kalloc]'ed superblock or vnode is the address of its block, and the
      blocks live in the finite maps [sb_mem] and [vn_mem]; a pointer to a
      filesystem type is its position in [vfs_fs_types] (registration is
      not part of this development and [vfs_mount] never adds or removes a
      type).
    - The globals of vfs.c are the fields of [vfs_state]; every function of
      the file is a state transformer in the monad [vfs], whose second
      outcome [Fault] stands for undefined behaviour of the C code: a
      dereference of [NULL] or of a freed block, a call through a [NULL]
      function pointer.
    - A function pointer is a code address ([fnptr]); what the code at an
      address does is given by the [backend], which also decides which
      [kalloc] requests succeed.  A callback receives the structures that
      the C function receives by pointer and returns their new contents.
    - The fields grouped under [ro] in the C structures keep their names
      ([d_parent], [sb_mnt], [v_count], ...) and are fields of the same
      record.
    - C [int]s are kept in [Z].  The two counters that the code increments
      and decrements, [d_count] and [v_count], wrap around as the 32-bit
      two's complement integers of the compiled kernel do: see [int_incr]
      and [int_decr]. *)

From stdpp Require Import gmap strings list.
From Stdlib Require Import ZArith Lia Ascii.

Open Scope Z_scope.

(** ** Error numbers (errors.h) *)

(** Modelled from the spec: errors.h is not part of the sources; the error
    kinds are the names that vfs.c passes to [set_errno]. *)
Inductive errno_t : Type :=
  | E_OK | E_NOMEM | E_EXIST | E_IO | E_CORRUPT | E_LIMIT | E_NODIR
  | E_NOROOT | E_NOENT | E_ACCESS | E_NOTIMP | E_NOKOBJ | E_MOUNTED
  | E_INVFS | E_NOTMOUNTED | E_BUSY | E_BACKEND (code : Z).

Global Instance errno_eq_dec : EqDecision errno_t.
Proof. solve_decision. Defined.

(** ** Data model (vfs.h) *)

(** A code address, [None] for a [NULL] function pointer. *)
Definition fnptr : Type := option nat.

(** Modelled from the spec: vfs.h is not part of the sources; the flag of
    a superblock is one of [unused] and [mounted], and
    [VFS_SB_IS_MOUNTED] tests for the second. *)
Inductive sb_flag : Type := VFS_SB_F_UNUSED | VFS_SB_F_MOUNTED.

Global Instance sb_flag_eq_dec : EqDecision sb_flag.
Proof. solve_decision. Defined.

Record vfs_sb_ops : Type := mk_sb_ops {
  op_delete_vnode : fnptr;
  op_read_vnode : fnptr;
  op_write_vnode : fnptr;
  op_destroy_vnode : fnptr;
  op_mount : fnptr;
  op_unmount : fnptr
}.

Record vfs_sb : Type := mk_sb {
  sb_blocksize : Z;
  sb_blocks : Z;
  sb_max_bytes : Z;
  sb_flags : sb_flag;
  sb_ops : vfs_sb_ops;
  sb_root_vno : Z;
  sb_private_data : Z;
  sb_devid : Z;                (* ro *)
  sb_fs_type : option nat;     (* ro: the filesystem type *)
  sb_mnt : option nat          (* ro: the dentry it is mounted on *)
}.

Record vfs_fs_type : Type := mk_fs_type {
  ft_name : string;
  ft_get_sb : fnptr;
  ft_kill_sb : fnptr
}.

Record vfs_dentry : Type := mk_dentry {
  d_name : option string;      (* NULL marks a free slot *)
  d_vno : Z;
  d_parent : option nat;       (* ro *)
  d_count : Z;                 (* ro *)
  d_sb : option nat;           (* ro: the superblock it belongs to *)
  d_mnt_sb : option nat        (* ro: the superblock mounted on it *)
}.

Record vfs_inode_ops : Type := mk_iops {
  iop_lookup : fnptr;
  iop_create : fnptr;
  iop_mkdir : fnptr;
  iop_mknod : fnptr
}.

Record vfs_file_ops : Type := mk_fops {
  fop_open : fnptr;
  fop_release : fnptr;
  fop_flush : fnptr;
  fop_read : fnptr;
  fop_write : fnptr;
  fop_lseek : fnptr;
  fop_ioctl : fnptr
}.

Record vfs_vnode : Type := mk_vnode {
  v_no : Z;
  v_mode : Z;
  v_size : Z;
  v_dev : Z;
  v_iops : vfs_inode_ops;
  v_fops : vfs_file_ops;
  v_sb : option nat;           (* ro *)
  v_count : Z;                 (* ro *)
  v_private_data : Z
}.

Global Instance vfs_dentry_eq_dec : EqDecision vfs_dentry.
Proof. solve_decision. Defined.

(** Calls into the backend, in the order they are made. *)
Inductive call : Type :=
  | CallGetSb (sb : nat)
  | CallKillSb (sb : nat)
  | CallMount (sb : nat)
  | CallUnmount (sb : nat)
  | CallReadVnode (sb node : nat)
  | CallDestroyVnode (sb node : nat)
  | CallLookup (node dentry : nat).

Global Instance call_eq_dec : EqDecision call.
Proof. solve_decision. Defined.

(** ** The environment of the core *)

Record backend : Type := mk_backend {
  (** whether the n-th [kalloc] (or list-node allocation) succeeds *)
  kalloc_ok : nat -> bool;
  (** the bytes, up to the first NUL, found in the n-th block when it is
      handed out: [kalloc] does not clear memory *)
  kalloc_fill : nat -> string;
  (** the function pointer found in a field that was never assigned *)
  kalloc_fn : nat -> fnptr;
  (** Modelled from the spec: the macros [FILE_TYPE], [FILE_TYPE_DIRECTORY]
      and [FILE_NODEV] of the missing headers. *)
  FILE_TYPE : Z -> Z;
  FILE_TYPE_DIRECTORY : Z;
  FILE_NODEV : Z;
  (** [int f(vfs_sb_t * )]: probe, kill, mount and unmount *)
  sb_fn : nat -> vfs_sb -> Z * vfs_sb;
  (** [int f(vfs_sb_t *, vfs_vnode_t * )]: read_vnode and destroy_vnode *)
  vnode_fn : nat -> vfs_sb -> vfs_vnode -> Z * (vfs_sb * vfs_vnode);
  (** [int f(vfs_vnode_t *, vfs_dentry_t * )]: the directory lookup; it may
      set errno *)
  lookup_fn : nat -> vfs_vnode -> vfs_dentry -> errno_t ->
              Z * (vfs_vnode * vfs_dentry * errno_t)
}.

(** ** The globals of vfs.c *)

Definition VFS_MAX_DENTRIES : nat := 100.
Definition VFS_DEFAULT_BLK_SIZE : Z := 1024.

Record vfs_state : Type := mk_state {
  vfs_fs_types : list vfs_fs_type;
  sb_mem : gmap nat vfs_sb;
  vfs_sbs : list nat;
  vfs_dentries : list vfs_dentry;
  vn_mem : gmap nat vfs_vnode;
  vfs_vnodes : list nat;
  vfs_root_dentry : option nat;
  errno : errno_t;
  brk : nat;                   (* allocation requests made so far *)
  trace : list call            (* backend calls made so far *)
}.

Definition with_sb_mem (m : gmap nat vfs_sb) (s : vfs_state) : vfs_state :=
  mk_state (vfs_fs_types s) m (vfs_sbs s) (vfs_dentries s) (vn_mem s)
           (vfs_vnodes s) (vfs_root_dentry s) (errno s) (brk s) (trace s).
Definition with_sbs (l : list nat) (s : vfs_state) : vfs_state :=
  mk_state (vfs_fs_types s) (sb_mem s) l (vfs_dentries s) (vn_mem s)
           (vfs_vnodes s) (vfs_root_dentry s) (errno s) (brk s) (trace s).
Definition with_dentries (t : list vfs_dentry) (s : vfs_state) : vfs_state :=
  mk_state (vfs_fs_types s) (sb_mem s) (vfs_sbs s) t (vn_mem s)
           (vfs_vnodes s) (vfs_root_dentry s) (errno s) (brk s) (trace s).
Definition with_vn_mem (m : gmap nat vfs_vnode) (s : vfs_state) : vfs_state :=
  mk_state (vfs_fs_types s) (sb_mem s) (vfs_sbs s) (vfs_dentries s) m
           (vfs_vnodes s) (vfs_root_dentry s) (errno s) (brk s) (trace s).
Definition with_vnodes (l : list nat) (s : vfs_state) : vfs_state :=
  mk_state (vfs_fs_types s) (sb_mem s) (vfs_sbs s) (vfs_dentries s) (vn_mem s)
           l (vfs_root_dentry s) (errno s) (brk s) (trace s).
Definition with_root (r : option nat) (s : vfs_state) : vfs_state :=
  mk_state (vfs_fs_types s) (sb_mem s) (vfs_sbs s) (vfs_dentries s) (vn_mem s)
           (vfs_vnodes s) r (errno s) (brk s) (trace s).
Definition set_errno (e : errno_t) (s : vfs_state) : vfs_state :=
  mk_state (vfs_fs_types s) (sb_mem s) (vfs_sbs s) (vfs_dentries s) (vn_mem s)
           (vfs_vnodes s) (vfs_root_dentry s) e (brk s) (trace s).
Definition with_brk (n : nat) (s : vfs_state) : vfs_state :=
  mk_state (vfs_fs_types s) (sb_mem s) (vfs_sbs s) (vfs_dentries s) (vn_mem s)
           (vfs_vnodes s) (vfs_root_dentry s) (errno s) n (trace s).
Definition log_call (c : call) (s : vfs_state) : vfs_state :=
  mk_state (vfs_fs_types s) (sb_mem s) (vfs_sbs s) (vfs_dentries s) (vn_mem s)
           (vfs_vnodes s) (vfs_root_dentry s) (errno s) (brk s)
           (trace s ++ [c]).

(** ** The monad of the core: state, and [Fault] for undefined behaviour *)

Inductive outcome (A : Type) : Type :=
  | Done (a : A) (s : vfs_state)
  | Fault.
Arguments Done {A} a s.
Arguments Fault {A}.

Definition vfs (A : Type) : Type := vfs_state -> outcome A.

Global Instance vfs_ret : MRet vfs := fun A a s => Done a s.
Global Instance vfs_bind : MBind vfs := fun A B f m s =>
  match m s with
  | Done a s' => f a s'
  | Fault => Fault
  end.

Definition get_state : vfs vfs_state := fun s => Done s s.
Definition modify (f : vfs_state -> vfs_state) : vfs unit :=
  fun s => Done tt (f s).
Definition fault {A : Type} : vfs A := fun _ => Fault.
(** Dereference of a pointer held in an [option]. *)
Definition deref {A : Type} (o : option A) : vfs A :=
  match o with Some a => mret a | None => fault end.

(** The result of a call that the C code compares with -1. *)
Definition failed (r : Z) : bool := bool_decide (r = -1).

(** ** Machine integers *)

(** The frequency counter of a dentry and the reference count of a vnode
    are C [int]s ([vfs_dentry_get] keeps a [d_count] in its
    [int lowest_count]), 32 bits wide on the machine the kernel is built
    for.  [c ++] and [c --] as the compiled code performs them: the
    successor of [INT_MAX] is [INT_MIN], the predecessor of [INT_MIN] is
    [INT_MAX]. *)
Definition INT_MAX : Z := 2147483647.
Definition INT_MIN : Z := -2147483648.

Definition int_incr (c : Z) : Z :=
  if bool_decide (c = INT_MAX) then INT_MIN else c + 1.
Definition int_decr (c : Z) : Z :=
  if bool_decide (c = INT_MIN) then INT_MAX else c - 1.

(** ** Allocation (mem.h) *)

Section Core.

Variable B : backend.

(** [kalloc]: the request is counted and the backend tells whether it is
    served.  When it is, the address of the block is the number of the
    request, so that no two live blocks share an address. *)
Definition kalloc : vfs (option nat) := fun s =>
  let n := brk s in
  Done (if kalloc_ok B n then Some n else None) (with_brk (S n) s).

(** Modelled from the spec: list.h is not part of the sources.  [list_add]
    appends a pointer to a list and fails (-1) when the node cannot be
    allocated; [list_find] returns the first item that the comparison
    accepts and [list_find_del] also unlinks it. *)
Definition list_add (l : list nat) (p : nat) : vfs (option (list nat)) :=
  n ← kalloc;
  mret (match n with Some _ => Some (l ++ [p]) | None => None end).

Fixpoint list_find (cmp : nat -> bool) (l : list nat) : option nat :=
  match l with
  | [] => None
  | p :: r => if cmp p then Some p else list_find cmp r
  end.

Fixpoint list_find_del (cmp : nat -> bool) (l : list nat)
  : option nat * list nat :=
  match l with
  | [] => (None, [])
  | p :: r =>
      if cmp p then (Some p, r)
      else let '(o, r') := list_find_del cmp r in (o, p :: r')
  end.

(** ** Dentries *)

Definition empty_dentry : vfs_dentry := mk_dentry None 0 None 0 None None.

Definition set_d_name (n : option string) (d : vfs_dentry) : vfs_dentry :=
  mk_dentry n (d_vno d) (d_parent d) (d_count d) (d_sb d) (d_mnt_sb d).
Definition set_d_parent (p : option nat) (d : vfs_dentry) : vfs_dentry :=
  mk_dentry (d_name d) (d_vno d) p (d_count d) (d_sb d) (d_mnt_sb d).
Definition set_d_count (c : Z) (d : vfs_dentry) : vfs_dentry :=
  mk_dentry (d_name d) (d_vno d) (d_parent d) c (d_sb d) (d_mnt_sb d).
Definition set_d_sb (sb : option nat) (d : vfs_dentry) : vfs_dentry :=
  mk_dentry (d_name d) (d_vno d) (d_parent d) (d_count d) sb (d_mnt_sb d).
Definition set_d_mnt_sb (sb : option nat) (d : vfs_dentry) : vfs_dentry :=
  mk_dentry (d_name d) (d_vno d) (d_parent d) (d_count d) (d_sb d) sb.

(** Read and write of the slot behind a dentry pointer. *)
Definition load_dentry (i : nat) : vfs vfs_dentry := fun s =>
  deref (vfs_dentries s !! i) s.
Definition store_dentry (i : nat) (d : vfs_dentry) : vfs unit := fun s =>
  if decide (i < length (vfs_dentries s))%nat
  then Done tt (with_dentries (<[i := d]> (vfs_dentries s)) s)
  else Fault.

(** [vfs_dentry_reset]: the name is freed and the slot zeroed. *)
Definition vfs_dentry_reset (i : nat) : vfs unit :=
  store_dentry i empty_dentry.

(** The scan of [vfs_dentry_get]: either the wanted dentry is found at an
    index, or the loop ends with [lowest_index] ([None] for -1) and
    [lowest_count].  [lowest_count] is read only when [lowest_index] is
    not -1, as in the C condition. *)
Inductive scan_result : Type :=
  | Hit (i : nat)
  | Miss (lowest_index : option nat) (lowest_count : Z).

Fixpoint dentry_scan (parent : option nat) (name : string)
    (slots : list vfs_dentry) (i : nat)
    (lowest_index : option nat) (lowest_count : Z) : scan_result :=
  match slots with
  | [] => Miss lowest_index lowest_count
  | d :: rest =>
      match d_name d with
      | None => dentry_scan parent name rest (S i) (Some i) 0
      | Some n =>
          if bool_decide (d_parent d = parent) && bool_decide (n = name)
          then Hit i
          else if bool_decide (d_mnt_sb d <> None)
          then dentry_scan parent name rest (S i) lowest_index lowest_count
          else if bool_decide (lowest_index = None)
                  || bool_decide (d_count d < lowest_count)
          then dentry_scan parent name rest (S i) (Some i) (d_count d)
          else dentry_scan parent name rest (S i) lowest_index lowest_count
      end
  end.

(** [vfs_dentry_get]. *)
Definition vfs_dentry_get (parent : option nat) (name : string)
  : vfs (option nat) :=
  s ← get_state;
  match dentry_scan parent name (vfs_dentries s) 0 None 0 with
  | Hit i =>
      d ← load_dentry i;
      store_dentry i (set_d_count (int_incr (d_count d)) d);;
      mret (Some i)
  | Miss None _ =>
      modify (set_errno E_LIMIT);;
      mret None
  | Miss (Some v) _ =>
      vfs_dentry_reset v;;
      buf ← kalloc;
      match buf with
      | None =>
          modify (set_errno E_NOMEM);;
          mret None
      | Some _ =>
          d ← load_dentry v;
          store_dentry v (set_d_parent parent (set_d_name (Some name) d));;
          match parent with
          | None =>
              d ← load_dentry v;
              store_dentry v (set_d_sb None d)
          | Some p =>
              pd ← load_dentry p;
              d ← load_dentry v;
              match d_mnt_sb pd with
              | None => store_dentry v (set_d_sb (d_sb pd) d)
              | Some m => store_dentry v (set_d_sb (Some m) d)
              end
          end;;
          d ← load_dentry v;
          store_dentry v (set_d_count 1 d);;
          mret (Some v)
      end
  end.

(** [vfs_dentry_unmount_sb]: the check, then the reset of every named slot
    that belongs to [sb]. *)
Definition dentry_pins (sb : nat) (d : vfs_dentry) : bool :=
  bool_decide (d_name d <> None)
  && bool_decide (d_mnt_sb d <> None) && bool_decide (d_sb d = Some sb).

Definition dentry_owned (sb : nat) (d : vfs_dentry) : bool :=
  bool_decide (d_name d <> None) && bool_decide (d_sb d = Some sb).

Definition vfs_dentry_unmount_sb (sb : nat) : vfs Z := fun s =>
  if existsb (dentry_pins sb) (vfs_dentries s)
  then Done (-1) s
  else Done 0
         (with_dentries
            (map (fun d => if dentry_owned sb d then empty_dentry else d)
                 (vfs_dentries s)) s).

(** ** Superblocks *)

Definition set_sb_flags (f : sb_flag) (b : vfs_sb) : vfs_sb :=
  mk_sb (sb_blocksize b) (sb_blocks b) (sb_max_bytes b) f (sb_ops b)
        (sb_root_vno b) (sb_private_data b) (sb_devid b) (sb_fs_type b)
        (sb_mnt b).
Definition set_sb_fs_type (t : option nat) (b : vfs_sb) : vfs_sb :=
  mk_sb (sb_blocksize b) (sb_blocks b) (sb_max_bytes b) (sb_flags b)
        (sb_ops b) (sb_root_vno b) (sb_private_data b) (sb_devid b) t
        (sb_mnt b).
Definition set_sb_mnt (m : option nat) (b : vfs_sb) : vfs_sb :=
  mk_sb (sb_blocksize b) (sb_blocks b) (sb_max_bytes b) (sb_flags b)
        (sb_ops b) (sb_root_vno b) (sb_private_data b) (sb_devid b)
        (sb_fs_type b) m.

Definition load_sb (p : nat) : vfs vfs_sb := fun s =>
  deref (sb_mem s !! p) s.
Definition store_sb (p : nat) (b : vfs_sb) : vfs unit := fun s =>
  match sb_mem s !! p with
  | Some _ => Done tt (with_sb_mem (<[p := b]> (sb_mem s)) s)
  | None => Fault
  end.

(** A call [f(sb)] through a function pointer. *)
Definition call_sb_fn (f : fnptr) (p : nat) (c : call) : vfs Z :=
  a ← deref f;
  b ← load_sb p;
  let '(r, b') := sb_fn B a b in
  store_sb p b';;
  modify (log_call c);;
  mret r.

(** [vfs_fs_type_lookup]: the first registered type of that name. *)
Fixpoint fs_type_find (name : string) (l : list vfs_fs_type) (i : nat)
  : option nat :=
  match l with
  | [] => None
  | t :: r =>
      if bool_decide (ft_name t = name) then Some i
      else fs_type_find name r (S i)
  end.

Definition vfs_fs_type_lookup (name : string) : vfs (option nat) :=
  s ← get_state;
  mret (fs_type_find name (vfs_fs_types s) 0%nat).

Definition load_fs_type (i : nat) : vfs vfs_fs_type := fun s =>
  deref (vfs_fs_types s !! i) s.

(** [vfs_sb_cmp] reads the device id behind the list item. *)
Definition vfs_sb_cmp (s : vfs_state) (devid : Z) (p : nat) : bool :=
  match sb_mem s !! p with
  | Some b => bool_decide (sb_devid b = devid)
  | None => false
  end.

Definition vfs_sb_lookup (devid : Z) : vfs (option nat) :=
  s ← get_state;
  mret (list_find (vfs_sb_cmp s devid) (vfs_sbs s)).

(** [vfs_sb_alloc].  The code clears [delete_vnode] twice and never assigns
    [destroy_vnode], which keeps what the block held. *)
Definition vfs_sb_alloc (devid : Z) : vfs (option nat) :=
  blk ← kalloc;
  match blk with
  | None => mret None
  | Some p =>
      s ← get_state;
      l ← list_add (vfs_sbs s) p;
      match l with
      | None => mret None
      | Some l' =>
          modify (with_sbs l');;
          modify (fun s =>
            with_sb_mem
              (<[p := mk_sb VFS_DEFAULT_BLK_SIZE 0 0 VFS_SB_F_UNUSED
                        (mk_sb_ops None None None (kalloc_fn B p) None None)
                        0 0 devid None None]> (sb_mem s)) s);;
          mret (Some p)
      end
  end.

(** [vfs_sb_dealloc]. *)
Definition vfs_sb_dealloc (p : nat) : vfs Z :=
  b ← load_sb p;
  ti ← deref (sb_fs_type b);
  t ← load_fs_type ti;
  r ← match ft_kill_sb t with
      | Some _ => call_sb_fn (ft_kill_sb t) p (CallKillSb p)
      | None => mret 0
      end;
  if failed r then
    modify (set_errno E_IO);;
    mret (-1)
  else
    b ← load_sb p;
    s ← get_state;
    modify (with_sbs (list_find_del (vfs_sb_cmp s (sb_devid b)) (vfs_sbs s)).2);;
    modify (fun s => with_sb_mem (delete p (sb_mem s)) s);;
    mret 0.

(** ** Vnodes *)

Definition set_v_key (no : Z) (sb : option nat) (n : vfs_vnode) : vfs_vnode :=
  mk_vnode no (v_mode n) (v_size n) (v_dev n) (v_iops n) (v_fops n) sb
           (v_count n) (v_private_data n).
Definition set_v_count (c : Z) (n : vfs_vnode) : vfs_vnode :=
  mk_vnode (v_no n) (v_mode n) (v_size n) (v_dev n) (v_iops n) (v_fops n)
           (v_sb n) c (v_private_data n).

Definition load_vnode (p : nat) : vfs vfs_vnode := fun s =>
  deref (vn_mem s !! p) s.
Definition store_vnode (p : nat) (n : vfs_vnode) : vfs unit := fun s =>
  match vn_mem s !! p with
  | Some _ => Done tt (with_vn_mem (<[p := n]> (vn_mem s)) s)
  | None => Fault
  end.

(** A call [f(sb, node)] through a function pointer of the superblock. *)
Definition call_vnode_fn (f : fnptr) (sbp np : nat) (c : call) : vfs Z :=
  a ← deref f;
  b ← load_sb sbp;
  n ← load_vnode np;
  let '(r, (b', n')) := vnode_fn B a b n in
  store_sb sbp b';;
  store_vnode np n';;
  modify (log_call c);;
  mret r.

(** [vfs_vnodes_cmp]: the key of the item against (sb, v_no). *)
Definition vfs_vnodes_cmp (s : vfs_state) (sb : option nat) (no : Z)
    (p : nat) : bool :=
  match vn_mem s !! p with
  | Some n => bool_decide (v_no n = no) && bool_decide (v_sb n = sb)
  | None => false
  end.

Definition vfs_vnode_lookup (sb : option nat) (no : Z) : vfs (option nat) :=
  s ← get_state;
  mret (list_find (vfs_vnodes_cmp s sb no) (vfs_vnodes s)).

(** [vfs_vnode_prealloc]. *)
Definition vfs_vnode_prealloc (sb : option nat) : vfs (option nat) :=
  blk ← kalloc;
  match blk with
  | None =>
      modify (set_errno E_NOMEM);;
      mret None
  | Some p =>
      modify (fun s =>
        with_vn_mem
          (<[p := mk_vnode 0 0 0 (FILE_NODEV B)
                    (mk_iops None None None None)
                    (mk_fops None None None None None None None)
                    sb 0 0]> (vn_mem s)) s);;
      mret (Some p)
  end.

(** [vfs_vnode_alloc]: registration in the cache. *)
Definition vfs_vnode_alloc (p : nat) : vfs Z :=
  s ← get_state;
  l ← list_add (vfs_vnodes s) p;
  match l with
  | Some l' => modify (with_vnodes l');; mret 0
  | None => mret (-1)
  end.

(** [vfs_vnode_dealloc]. *)
Definition vfs_vnode_dealloc (p : nat) : vfs Z :=
  n ← load_vnode p;
  s ← get_state;
  let '(found, l') :=
    list_find_del (vfs_vnodes_cmp s (v_sb n) (v_no n)) (vfs_vnodes s) in
  modify (with_vnodes l');;
  if bool_decide (found <> None) && bool_decide (found <> Some p) then
    modify (set_errno E_CORRUPT);;
    mret (-1)
  else
    modify (fun s => with_vn_mem (delete p (vn_mem s)) s);;
    mret 0.

(** [vfs_vnode_acquire]. *)
Definition vfs_vnode_acquire (p : nat) : vfs Z :=
  n ← load_vnode p;
  store_vnode p (set_v_count (int_incr (v_count n)) n);;
  mret 0.

(** [vfs_vnode_release]. *)
Definition vfs_vnode_release (p : nat) : vfs Z :=
  n ← load_vnode p;
  store_vnode p (set_v_count (int_decr (v_count n)) n);;
  n ← load_vnode p;
  if bool_decide (v_count n < 1) then
    sbp ← deref (v_sb n);
    b ← load_sb sbp;
    r ← call_vnode_fn (op_destroy_vnode (sb_ops b)) sbp p
          (CallDestroyVnode sbp p);
    if failed r then
      modify (set_errno E_IO);;
      mret (-1)
    else vfs_vnode_dealloc p
  else mret 0.

(** [vfs_vnode_get_or_read]. *)
Definition vfs_vnode_get_or_read (sb : option nat) (vno : Z)
  : vfs (option nat) :=
  hit ← vfs_vnode_lookup sb vno;
  match hit with
  | Some p =>
      vfs_vnode_acquire p;;
      mret (Some p)
  | None =>
      blk ← vfs_vnode_prealloc sb;
      match blk with
      | None => mret None
      | Some p =>
          n ← load_vnode p;
          store_vnode p (set_v_key vno sb n);;
          sbp ← deref sb;
          b ← load_sb sbp;
          r ← call_vnode_fn (op_read_vnode (sb_ops b)) sbp p
                (CallReadVnode sbp p);
          if failed r then
            vfs_vnode_dealloc p;;
            mret None
          else
            a ← vfs_vnode_alloc p;
            if failed a then
              b ← load_sb sbp;
              call_vnode_fn (op_destroy_vnode (sb_ops b)) sbp p
                (CallDestroyVnode sbp p);;
              vfs_vnode_dealloc p;;
              mret None
            else
              vfs_vnode_acquire p;;
              mret (Some p)
      end
  end.

(** [vfs_vnode_unmount_sb]: is a vnode of [sb] left in the cache? *)
Definition vfs_vnodes_sb_only_cmp (s : vfs_state) (sb : nat) (p : nat)
  : bool :=
  match vn_mem s !! p with
  | Some n => bool_decide (v_sb n = Some sb)
  | None => false
  end.

Definition vfs_vnode_unmount_sb (sb : nat) : vfs Z :=
  s ← get_state;
  match list_find (vfs_vnodes_sb_only_cmp s sb) (vfs_vnodes s) with
  | None => mret 0
  | Some _ => mret (-1)
  end.

(** ** Lookup *)

(** A call [lookup(dir_node, obj)] through the inode operations of the
    directory vnode. *)
Definition call_lookup_fn (f : fnptr) (np o : nat) : vfs Z :=
  a ← deref f;
  n ← load_vnode np;
  d ← load_dentry o;
  s ← get_state;
  let '(r, (n', d', e)) := lookup_fn B a n d (errno s) in
  store_vnode np n';;
  store_dentry o d';;
  modify (set_errno e);;
  modify (log_call (CallLookup np o));;
  mret r.

(** [vfs_lookup_in_dentry]. *)
Definition vfs_lookup_in_dentry (dir : option nat) (name : string)
  : vfs (option nat) :=
  obj ← vfs_dentry_get dir name;
  match obj with
  | None =>
      modify (set_errno E_LIMIT);;
      mret None
  | Some o =>
      od ← load_dentry o;
      if bool_decide (d_vno od <> 0) then mret (Some o)
      else
        dp ← deref dir;
        dd ← load_dentry dp;
        dir_node ←
          match d_mnt_sb dd with
          | None => vfs_vnode_get_or_read (d_sb dd) (d_vno dd)
          | Some m =>
              mb ← load_sb m;
              vfs_vnode_get_or_read (Some m) (sb_root_vno mb)
          end;
        match dir_node with
        | None =>
            vfs_dentry_reset o;;
            modify (set_errno E_CORRUPT);;
            mret None
        | Some np =>
            n ← load_vnode np;
            if bool_decide (FILE_TYPE B (v_mode n) <> FILE_TYPE_DIRECTORY B)
            then
              vfs_dentry_reset o;;
              vfs_vnode_release np;;
              modify (set_errno E_NODIR);;
              mret None
            else
              r ← call_lookup_fn (iop_lookup (v_iops n)) np o;
              if failed r then
                s ← get_state;
                let err := errno s in
                vfs_dentry_reset o;;
                vfs_vnode_release np;;
                modify (set_errno err);;
                mret None
              else
                vfs_vnode_release np;;
                mret (Some o)
        end
  end.

(** Modelled from the spec: string.h is not part of the sources.  [strtok]
    with the separator ['/'] yields the non-empty components of the buffer
    in order. *)
Fixpoint strtok (sep : ascii) (buf : string) (cur : string) : list string :=
  match buf with
  | EmptyString => if bool_decide (cur = EmptyString) then [] else [cur]
  | String c r =>
      if bool_decide (c = sep) then
        if bool_decide (cur = EmptyString) then strtok sep r EmptyString
        else cur :: strtok sep r EmptyString
      else strtok sep r (cur +:+ String c EmptyString)
  end.

(** The loop of [vfs_lookup]: [None] as soon as a component fails, the
    dentry reached otherwise. *)
Fixpoint lookup_walk (obj : option nat) (comps : list string)
  : vfs (option nat) :=
  match comps with
  | [] => mret obj
  | c :: rest =>
      o ← vfs_lookup_in_dentry obj c;
      match o with
      | None => mret None
      | Some _ => lookup_walk o rest
      end
  end.

(** [vfs_lookup].  The copy [tmp_path] is allocated for the length of
    [path] but nothing is copied into it: the components walked are those
    of the bytes found in the block.  After the loop the function returns
    [NULL] whatever the walk reached. *)
Definition vfs_lookup (path : string) : vfs (option nat) :=
  tmp_path ← kalloc;
  match tmp_path with
  | None =>
      modify (set_errno E_NOMEM);;
      mret None
  | Some a =>
      s ← get_state;
      walk ← lookup_walk (vfs_root_dentry s)
                (strtok "/"%char (kalloc_fill B a) EmptyString);
      match walk with
      | None => mret None
      | Some _ => mret None
      end
  end.

(** ** The public API *)

Definition fail_with {A : Type} (e : errno_t) (r : A) : vfs A :=
  modify (set_errno e);;
  mret r.

(** The first part of [vfs_mount]: the dentry to mount on, or the -1 of an
    early return. *)
Definition mount_point (path : string) : vfs (option nat) :=
  s ← get_state;
  match vfs_root_dentry s with
  | None =>
      if bool_decide (path <> "/"%string) then fail_with E_NOROOT None
      else
        d ← vfs_dentry_get None "/";
        match d with
        | None => fail_with E_NOMEM None
        | Some _ => mret d
        end
  | Some _ =>
      if bool_decide (path <> "/"%string) then
        d ← vfs_lookup path;
        match d with
        | None => fail_with E_NOENT None
        | Some di =>
            dd ← load_dentry di;
            if bool_decide (d_mnt_sb dd <> None) then fail_with E_ACCESS None
            else
              n ← vfs_vnode_get_or_read (d_sb dd) (d_vno dd);
              match n with
              | None => fail_with E_CORRUPT None
              | Some np =>
                  nd ← load_vnode np;
                  if bool_decide
                       (FILE_TYPE B (v_mode nd) <> FILE_TYPE_DIRECTORY B)
                  then fail_with E_NODIR None
                  else mret d
              end
        end
      else fail_with E_NOTIMP None
  end.

(** [vfs_mount]. *)
Definition vfs_mount (devid : Z) (path : string) (fs_type : string)
  : vfs Z :=
  mp ← mount_point path;
  match mp with
  | None => mret (-1)
  | Some d =>
      ft ← vfs_fs_type_lookup fs_type;
      match ft with
      | None =>
          vfs_dentry_reset d;;
          fail_with E_NOKOBJ (-1)
      | Some ti =>
          old ← vfs_sb_lookup devid;
          match old with
          | Some _ =>
              vfs_dentry_reset d;;
              fail_with E_MOUNTED (-1)
          | None =>
              new ← vfs_sb_alloc devid;
              match new with
              | None =>
                  vfs_dentry_reset d;;
                  fail_with E_NOMEM (-1)
              | Some sb =>
                  t ← load_fs_type ti;
                  r ← call_sb_fn (ft_get_sb t) sb (CallGetSb sb);
                  if failed r then
                    vfs_sb_dealloc sb;;
                    vfs_dentry_reset d;;
                    fail_with E_INVFS (-1)
                  else
                    b ← load_sb sb;
                    store_sb sb (set_sb_fs_type (Some ti) b);;
                    b ← load_sb sb;
                    r ← call_sb_fn (op_mount (sb_ops b)) sb (CallMount sb);
                    if failed r then
                      call_sb_fn (ft_kill_sb t) sb (CallKillSb sb);;
                      vfs_sb_dealloc sb;;
                      vfs_dentry_reset d;;
                      fail_with E_IO (-1)
                    else
                      dd ← load_dentry d;
                      store_dentry d (set_d_mnt_sb (Some sb) dd);;
                      dd ← load_dentry d;
                      match d_parent dd with
                      | None => modify (with_root (Some d))
                      | Some _ => mret tt
                      end;;
                      mret 0
              end
          end
      end
  end.

Definition VFS_SB_IS_MOUNTED (b : vfs_sb) : bool :=
  bool_decide (sb_flags b = VFS_SB_F_MOUNTED).

(** [vfs_sb_unmount]. *)
Definition vfs_sb_unmount (sb : nat) : vfs Z :=
  b ← load_sb sb;
  if negb (VFS_SB_IS_MOUNTED b) then fail_with E_NOTMOUNTED (-1)
  else
    r ← vfs_vnode_unmount_sb sb;
    if failed r then fail_with E_CORRUPT (-1)
    else
      r ← vfs_dentry_unmount_sb sb;
      if failed r then fail_with E_BUSY (-1)
      else
        b ← load_sb sb;
        r ← call_sb_fn (op_unmount (sb_ops b)) sb (CallUnmount sb);
        if failed r then fail_with E_IO (-1)
        else
          b ← load_sb sb;
          mp ← deref (sb_mnt b);
          d ← load_dentry mp;
          store_dentry mp (set_d_mnt_sb None d);;
          b ← load_sb sb;
          store_sb sb (set_sb_flags VFS_SB_F_UNUSED b);;
          b ← load_sb sb;
          store_sb sb (set_sb_mnt None b);;
          mret 0.

(** [vfs_init]. *)
Definition vfs_init : vfs_state :=
  mk_state [] ∅ [] (replicate VFS_MAX_DENTRIES empty_dentry) ∅ [] None
           E_OK 0%nat [].

End Core.

(** * Vocabulary of the properties *)

Ltac vfs_unfold :=
  unfold mbind, vfs_bind, mret, vfs_ret, get_state, modify, fail_with,
    fault, deref in *.

Ltac st_simpl :=
  unfold log_call, set_errno, with_sb_mem, with_sbs, with_dentries,
    with_vn_mem, with_vnodes, with_root, with_brk in *;
  simpl in *.

(** Arithmetic on the wrapped counters. *)
Ltac int_arith :=
  unfold int_incr, int_decr, INT_MAX, INT_MIN in *;
  repeat case_bool_decide; lia.

Definition occupied (d : vfs_dentry) : Prop := d_name d <> None.
Definition mountpoint (d : vfs_dentry) : Prop := d_mnt_sb d <> None.

(** Counters of named slots are not negative, as the scan of
    [vfs_dentry_get] takes for granted: they start at 1 and are
    incremented, so this holds until a counter wraps around. *)
Definition counts_ok (t : list vfs_dentry) : Prop :=
  forall d, d ∈ t -> occupied d -> 0 <= d_count d.

(** What the loop of [vfs_dentry_get] knows about its candidate after the
    slots [pre] have been scanned. *)
Definition candidate_inv (pre : list vfs_dentry) (li : option nat) (lc : Z)
  : Prop :=
  match li with
  | None => forall d, d ∈ pre -> occupied d /\ mountpoint d
  | Some v =>
      exists d, pre !! v = Some d /\
        ((d_name d = None /\ lc = 0) \/
         (occupied d /\ d_mnt_sb d = None /\ lc = d_count d /\
          (forall e, e ∈ pre -> occupied e) /\
          (forall e, e ∈ pre -> d_mnt_sb e = None -> d_count d <= d_count e)))
  end.

(** Two slot contents are the same dentry when they differ at most in the
    frequency counter. *)
Definition same_entry (d d' : vfs_dentry) : Prop :=
  set_d_count 0 d' = set_d_count 0 d.

(** Slot [j] held a named dentry in [t] and does not hold it in [t']. *)
Definition evicted (t t' : list vfs_dentry) (j : nat) : Prop :=
  exists d, t !! j = Some d /\ occupied d /\
    forall d', t' !! j = Some d' -> ~ same_entry d d'.

(** The states before and after each call of a sequence of calls of
    [vfs_dentry_get], as long as the calls return. *)
Fixpoint get_calls (B : backend) (calls : list (option nat * string))
    (s : vfs_state) : list (vfs_state * vfs_state) :=
  match calls with
  | [] => []
  | (parent, name) :: rest =>
      match vfs_dentry_get B parent name s with
      | Done _ s' => (s, s') :: get_calls B rest s'
      | Fault => []
      end
  end.


(** The table after [vfs_init] once the name "a" has been looked up in
    the root: its dentry is in the last slot, with frequency counter [c],
    and the other slots are free. *)
Definition hot_table (c : Z) : list vfs_dentry :=
  replicate 99 empty_dentry
    ++ [mk_dentry (Some "a"%string) 0 None c None None].

(** ** Unmount *)

(** A vnode of the superblock is in the vnode cache. *)
Definition live_vnode (s : vfs_state) (sb : nat) : Prop :=
  exists p n, p ∈ vfs_vnodes s /\ vn_mem s !! p = Some n /\
              v_sb n = Some sb.

(** A named dentry of the superblock is the mount point of a superblock. *)
Definition nested_mount (s : vfs_state) (sb : nat) : Prop :=
  exists d, d ∈ vfs_dentries s /\ occupied d /\ mountpoint d /\
            d_sb d = Some sb.

(** The dentry is named and belongs to the superblock. *)
Definition owned_by (sb : nat) (d : vfs_dentry) : Prop :=
  occupied d /\ d_sb d = Some sb.

(** ** The vnode cache *)

(** The callbacks on vnodes ([read_vnode], [destroy_vnode]) leave the
    number of the vnode, its superblock and its reference count alone. *)
Definition vnode_fn_keeps_identity (B : backend) : Prop :=
  forall a b n,
    v_no (vnode_fn B a b n).2.2 = v_no n /\
    v_sb (vnode_fn B a b n).2.2 = v_sb n /\
    v_count (vnode_fn B a b n).2.2 = v_count n.

(** The reference-count discipline of the vnode cache, on the block map
    [m], the cache list [l] and the allocation counter [k]: a vnode is in
    the cache exactly when its count is at least 1; no two cached vnodes
    have the same superblock and number; the cache lists no vnode twice;
    every block was handed out by an earlier allocation. *)
Record cache_inv (m : gmap nat vfs_vnode) (l : list nat) (k : nat)
  : Prop := mk_cache_inv {
  inv_cached : forall p, p ∈ l ->
    exists n, m !! p = Some n /\ 1 <= v_count n;
  inv_counted : forall p n, m !! p = Some n -> 1 <= v_count n -> p ∈ l;
  inv_keys : forall p q n n', p ∈ l -> q ∈ l ->
    m !! p = Some n -> m !! q = Some n' ->
    v_no n = v_no n' -> v_sb n = v_sb n' -> p = q;
  inv_nodup : NoDup l;
  inv_fresh : forall p, is_Some (m !! p) -> (p < k)%nat
}.

Definition refcount_inv (s : vfs_state) : Prop :=
  cache_inv (vn_mem s) (vfs_vnodes s) (brk s).



(** ** A backend and states to run the code on *)

(** Code addresses of the callbacks of the example filesystem. *)
Definition fn_probe : nat := 1.
Definition fn_mount : nat := 2.
Definition fn_unmount : nat := 3.
Definition fn_kill : nat := 4.
Definition fn_read : nat := 10.
Definition fn_destroy : nat := 11.
Definition fn_lookup : nat := 20.

Definition set_sb_private (ops : vfs_sb_ops) (root data : Z) (b : vfs_sb)
  : vfs_sb :=
  mk_sb (sb_blocksize b) (sb_blocks b) (sb_max_bytes b) (sb_flags b) ops
        root data (sb_devid b) (sb_fs_type b) (sb_mnt b).

(** The example filesystem.  Its probe installs the superblock operations
    and private data; its release callback frees the private data and
    reports an error when there is none left to free; [read_vnode] makes
    every vnode a directory with a lookup operation; the lookup resolves
    every name to vnode 7.  [bad a] makes the callback at address [a]
    return -1 without touching anything, [oom n] makes the n-th
    allocation fail; with [mark] the mount callback sets the flag of the
    superblock to [VFS_SB_F_MOUNTED].  Fresh memory reads as zeros.  None
    of the callbacks writes a field of the [ro] groups. *)
Definition example_sb_fn (mark : bool) (bad : nat -> bool) (a : nat)
    (b : vfs_sb) : Z * vfs_sb :=
  if bad a then (-1, b)
  else if bool_decide (a = fn_probe) then
    (0, set_sb_private
          (mk_sb_ops None (Some fn_read) None (Some fn_destroy)
                     (Some fn_mount) (Some fn_unmount)) 1 1 b)
  else if bool_decide (a = fn_kill) then
    if bool_decide (sb_private_data b = 0) then (-1, b)
    else (0, set_sb_private (sb_ops b) (sb_root_vno b) 0 b)
  else if bool_decide (a = fn_mount) then
    (0, if mark then set_sb_flags VFS_SB_F_MOUNTED b else b)
  else (0, b).

Definition example_vnode_fn (bad : nat -> bool) (a : nat) (b : vfs_sb)
    (n : vfs_vnode) : Z * (vfs_sb * vfs_vnode) :=
  if bad a then (-1, (b, n))
  else if bool_decide (a = fn_read) then
    (0, (b, mk_vnode (v_no n) 1 (v_size n) (v_dev n)
                     (mk_iops (Some fn_lookup) None None None) (v_fops n)
                     (v_sb n) (v_count n) (v_private_data n)))
  else (0, (b, n)).

Definition example_lookup_fn (bad : nat -> bool) (a : nat) (n : vfs_vnode)
    (d : vfs_dentry) (e : errno_t) : Z * (vfs_vnode * vfs_dentry * errno_t) :=
  if bad a then (-1, (n, d, E_NOENT))
  else (0, (n, mk_dentry (d_name d) 7 (d_parent d) (d_count d) (d_sb d)
                         (d_mnt_sb d), e)).

Definition example_backend (mark : bool) (oom bad : nat -> bool)
  : backend :=
  mk_backend (fun n => negb (oom n)) (fun _ => EmptyString) (fun _ => None)
             (fun m => m) 1 0
             (example_sb_fn mark bad) (example_vnode_fn bad)
             (example_lookup_fn bad).

Definition never : nat -> bool := fun _ => false.
Definition only (k : nat) : nat -> bool := fun n => bool_decide (n = k).

(** The state after [vfs_init] and the registration of the example
    filesystem under the name "rootfs". *)
Definition booted : vfs_state :=
  mk_state [mk_fs_type "rootfs" (Some fn_probe) (Some fn_kill)] ∅ []
           (replicate VFS_MAX_DENTRIES empty_dentry) ∅ [] None E_OK 0%nat [].

(** A table of two named dentries, "a" looked up three times and "b" once,
    with nothing else in the system. *)
Definition two_slots : vfs_state :=
  mk_state [] ∅ []
           [mk_dentry (Some "a"%string) 5 None 3 None None;
            mk_dentry (Some "b"%string) 6 None 1 None None]
           ∅ [] None E_OK 0%nat [].

(** The state of a computation that returned. *)
Definition state_of {A : Type} (o : outcome A) (default : vfs_state)
  : vfs_state :=
  match o with
  | Done _ s => s
  | Fault => default
  end.

(** The example filesystem mounted on "/" from device 5. *)
Definition rooted : vfs_state :=
  state_of (vfs_mount (example_backend false never never) 5 "/" "rootfs" booted)
           booted.

(** The example filesystem, with a mount callback that marks the
    superblock as mounted, mounted on "/" from device 5. *)
Definition marked : vfs_state :=
  state_of (vfs_mount (example_backend true never never) 5 "/" "rootfs"
              booted) booted.

(** Then the name "etc" is looked up in the root directory: slot 98 holds
    a dentry of superblock 1. *)
Definition marked_child : vfs_state :=
  state_of (vfs_lookup_in_dentry (example_backend true never never)
              (Some 99%nat) "etc" marked) marked.

(** The same state with the mount-point reference of the superblock set
    by hand to the root dentry, as the data model describes a mounted
    superblock. *)
Definition linked_child : vfs_state :=
  with_sb_mem (alter (set_sb_mnt (Some 99%nat)) 1%nat (sb_mem marked_child))
              marked_child.

(** C5 as the specification states it: when the unmount callback fails,
    [vfs_sb_unmount] returns -1 with errno [E_IO], the superblock is still
    mounted and every dentry of the superblock is still in the table. *)
Definition unmount_failure_keeps_dentries (B : backend) (s : vfs_state)
    (sb : nat) : Prop :=
  forall b a b',
    sb_mem s !! sb = Some b ->
    sb_flags b = VFS_SB_F_MOUNTED ->
    ~ live_vnode s sb ->
    ~ nested_mount s sb ->
    op_unmount (sb_ops b) = Some a ->
    sb_fn B a b = (-1, b') ->
    exists s',
      vfs_sb_unmount B sb s = Done (-1) s' /\
      errno s' = E_IO /\
      (exists b1, sb_mem s' !! sb = Some b1 /\
                  sb_flags b1 = VFS_SB_F_MOUNTED) /\
      (forall j d, vfs_dentries s !! j = Some d -> owned_by sb d ->
                   vfs_dentries s' !! j = Some d).

(** Vnode 1 of the superblock mounted on "/" acquired once: its block is
    at address 3. *)
Definition held : vfs_state :=
  state_of (vfs_vnode_get_or_read (example_backend false never never)
              (Some 1%nat) 1 rooted) rooted.

(** The state [held] with the reference count of the vnode at the largest
    [int], as it is after [INT_MAX - 1] further acquisitions. *)
Definition held_max : vfs_state :=
  with_vn_mem (alter (set_v_count INT_MAX) 3%nat (vn_mem held)) held.

(** ** Further vocabulary: the dentry cache *)

(** The slot holds the dentry of that parent and name. *)
Definition matches (parent : option nat) (name : string) (d : vfs_dentry)
  : Prop :=
  d_name d = Some name /\ d_parent d = parent.

(** No two named slots hold a dentry of the same parent and name. *)
Definition dentries_unique (t : list vfs_dentry) : Prop :=
  forall i j d e, t !! i = Some d -> t !! j = Some e ->
    occupied d -> d_name d = d_name e -> d_parent d = d_parent e -> i = j.

(** The superblock that a new dentry inherits from its parent slot. *)
Definition inherited_sb (pd : vfs_dentry) : option nat :=
  match d_mnt_sb pd with
  | Some m => Some m
  | None => d_sb pd
  end.


(** ** Further vocabulary: the superblock registry *)

(** The registry is consistent: it lists no superblock twice, it lists
    exactly the allocated superblocks, no two of them are for the same
    device, and every block was handed out by an earlier allocation. *)
Record sb_registry_ok (s : vfs_state) : Prop := mk_sb_registry_ok {
  reg_nodup : NoDup (vfs_sbs s);
  reg_mem : forall p, p ∈ vfs_sbs s <-> is_Some (sb_mem s !! p);
  reg_devid : forall p q b c,
    sb_mem s !! p = Some b -> sb_mem s !! q = Some c ->
    sb_devid b = sb_devid c -> p = q;
  reg_fresh : forall p, is_Some (sb_mem s !! p) -> (p < brk s)%nat
}.

(** The superblock that [vfs_sb_alloc] writes for a device into the block
    at address [p]. *)
Definition blank_sb (B : backend) (p : nat) (devid : Z) : vfs_sb :=
  mk_sb VFS_DEFAULT_BLK_SIZE 0 0 VFS_SB_F_UNUSED
        (mk_sb_ops None None None (kalloc_fn B p) None None)
        0 0 devid None None.

(** One superblock, for device 5, probed by the example filesystem and
    linked to it, registered at address 0. *)
Definition probed_sb : vfs_sb :=
  set_sb_fs_type (Some 0%nat)
    (set_sb_private
       (mk_sb_ops None (Some fn_read) None (Some fn_destroy)
                  (Some fn_mount) (Some fn_unmount)) 1 1
       (mk_sb VFS_DEFAULT_BLK_SIZE 0 0 VFS_SB_F_UNUSED
              (mk_sb_ops None None None None None None) 0 0 5 None None)).

Definition one_sb : vfs_state :=
  mk_state [mk_fs_type "rootfs" (Some fn_probe) (Some fn_kill)]
           {[0%nat := probed_sb]} [0%nat]
           (replicate VFS_MAX_DENTRIES empty_dentry) ∅ [] None E_OK 2%nat [].

(** ** Further vocabulary: what an operation leaves alone *)

(** The second state has the registry, the allocated superblocks, the
    filesystem types, the vnode cache and the root dentry of the first. *)
Definition same_registry (s s' : vfs_state) : Prop :=
  vfs_sbs s' = vfs_sbs s /\
  (forall p, is_Some (sb_mem s' !! p) <-> is_Some (sb_mem s !! p)) /\
  vfs_fs_types s' = vfs_fs_types s /\
  vn_mem s' = vn_mem s /\ vfs_vnodes s' = vfs_vnodes s /\
  vfs_root_dentry s' = vfs_root_dentry s.
(** * Properties *)

(** ** Machine integers *)

(** On the values of a 32-bit [int], [int_incr] and [int_decr] are the
    successor and the predecessor modulo 2^32, and their results are
    values of an [int] again. *)
Lemma int_incr_wrap (c : Z) :
  INT_MIN <= c <= INT_MAX ->
  int_incr c = (c + 1 + 2 ^ 31) mod 2 ^ 32 - 2 ^ 31 /\
  INT_MIN <= int_incr c <= INT_MAX.
Proof.
  intros Hc. unfold int_incr, INT_MAX, INT_MIN in *.
  case_bool_decide as Hmax.
  - subst c. split; [reflexivity | lia].
  - split; [|lia]. rewrite Z.mod_small; lia.
Qed.

Lemma int_decr_wrap (c : Z) :
  INT_MIN <= c <= INT_MAX ->
  int_decr c = (c - 1 + 2 ^ 31) mod 2 ^ 32 - 2 ^ 31 /\
  INT_MIN <= int_decr c <= INT_MAX.
Proof.
  intros Hc. unfold int_decr, INT_MAX, INT_MIN in *.
  case_bool_decide as Hmin.
  - subst c. split; [reflexivity | lia].
  - split; [|lia]. rewrite Z.mod_small; lia.
Qed.

(** ** The scan of the dentry cache *)

Lemma candidate_inv_step (pre : list vfs_dentry) li lc d li' lc' :
  candidate_inv pre li lc ->
  (occupied d -> 0 <= d_count d) ->
  (d_name d = None /\ li' = Some (length pre) /\ lc' = 0) \/
  (occupied d /\ mountpoint d /\ li' = li /\ lc' = lc) \/
  (occupied d /\ d_mnt_sb d = None /\
   (li = None \/ d_count d < lc) /\
   li' = Some (length pre) /\ lc' = d_count d) \/
  (occupied d /\ d_mnt_sb d = None /\
   li <> None /\ ~ d_count d < lc /\ li' = li /\ lc' = lc) ->
  candidate_inv (pre ++ [d]) li' lc'.
Proof.
  intros Hinv Hcnt Hcase.
  destruct Hcase as [(Hn & -> & ->) | [(Ho & Hm & -> & ->) |
    [(Ho & Hm & Hlow & -> & ->) | (Ho & Hm & Hli & Hge & -> & ->)]]].
  - (* a free slot becomes the candidate *)
    exists d. split; [apply list_lookup_middle; done | left; done].
  - (* a mount point is skipped *)
    destruct li as [v|]; simpl in *.
    + destruct Hinv as (c & Hv & Hc). exists c. split.
      { apply lookup_app_l_Some; done. }
      destruct Hc as [Hc | (Hoc & Hmc & Hlc & Hall & Hmin)]; [left; done|].
      right. repeat split; try done.
      * intros e He. apply elem_of_app in He as [He | He]; [auto|].
        apply list_elem_of_singleton in He as ->. done.
      * intros e He Hme. apply elem_of_app in He as [He | He]; [auto|].
        apply list_elem_of_singleton in He as ->. done.
    + intros e He. apply elem_of_app in He as [He | He]; [auto|].
      apply list_elem_of_singleton in He as ->. done.
  - (* a named slot with a lower counter becomes the candidate *)
    exists d. split; [apply list_lookup_middle; done|].
    right. repeat split; try done.
    + intros e He. apply elem_of_app in He as [He | He].
      * destruct li as [v|]; simpl in *.
        -- destruct Hinv as (c & Hv & Hc).
           destruct Hc as [(Hcn & Hlc) | (_ & _ & _ & Hall & _)]; [|auto].
           destruct Hlow as [Hlow | Hlow]; [done|]. specialize (Hcnt Ho). lia.
        -- apply Hinv; done.
      * apply list_elem_of_singleton in He as ->. done.
    + intros e He Hme. apply elem_of_app in He as [He | He].
      * destruct li as [v|]; simpl in *.
        -- destruct Hinv as (c & Hv & Hc).
           destruct Hc as [(Hcn & Hlc) | (_ & _ & Hlc & _ & Hmin)].
           ++ destruct Hlow as [Hlow | Hlow]; [done|]. specialize (Hcnt Ho). lia.
           ++ destruct Hlow as [Hlow | Hlow]; [done|].
              specialize (Hmin e He Hme). lia.
        -- destruct (Hinv e He) as [_ Hmp]. done.
      * apply list_elem_of_singleton in He as ->. lia.
  - (* a named slot that does not beat the candidate *)
    destruct li as [v|]; [|done]. simpl in *.
    destruct Hinv as (c & Hv & Hc). exists c. split.
    { apply lookup_app_l_Some; done. }
    destruct Hc as [Hc | (Hoc & Hmc & Hlc & Hall & Hmin)]; [left; done|].
    right. repeat split; try done.
    + intros e He. apply elem_of_app in He as [He | He]; [auto|].
      apply list_elem_of_singleton in He as ->. done.
    + intros e He Hme. apply elem_of_app in He as [He | He]; [auto|].
      apply list_elem_of_singleton in He as ->. lia.
Qed.

Lemma dentry_scan_inv parent name (slots : list vfs_dentry) :
  forall pre li lc,
    counts_ok slots ->
    candidate_inv pre li lc ->
    match dentry_scan parent name slots (length pre) li lc with
    | Hit i =>
        exists d, (pre ++ slots) !! i = Some d /\
                  d_name d = Some name /\ d_parent d = parent
    | Miss li' lc' => candidate_inv (pre ++ slots) li' lc'
    end.
Proof.
  induction slots as [|d rest IH]; intros pre li lc Hcnt Hinv; simpl.
  - rewrite app_nil_r. done.
  - assert (Hd : occupied d -> 0 <= d_count d).
    { intros Ho. apply Hcnt; [left | done]. }
    assert (Hrest : counts_ok rest).
    { intros e He. apply Hcnt. right. done. }
    assert (Hlen : S (length pre) = length (pre ++ [d])).
    { rewrite length_app. simpl. lia. }
    assert (Happ : pre ++ d :: rest = (pre ++ [d]) ++ rest).
    { rewrite <- app_assoc. done. }
    destruct (d_name d) as [n|] eqn:Hn.
    + destruct (bool_decide (d_parent d = parent) && bool_decide (n = name))
        eqn:Hmatch.
      { apply andb_true_iff in Hmatch as [Hp Hnm].
        apply bool_decide_eq_true in Hp. apply bool_decide_eq_true in Hnm.
        exists d. split; [apply list_lookup_middle; done|].
        subst. done. }
      assert (Ho : occupied d) by (unfold occupied; rewrite Hn; done).
      destruct (bool_decide (d_mnt_sb d <> None)) eqn:Hm.
      { apply bool_decide_eq_true in Hm.
        rewrite Hlen, Happ. apply IH; [done|].
        apply (candidate_inv_step pre li lc d); [done | done |].
        right. left. done. }
      apply bool_decide_eq_false in Hm.
      assert (Hm' : d_mnt_sb d = None).
      { destruct (d_mnt_sb d); [exfalso; apply Hm; done | done]. }
      destruct (bool_decide (li = None) || bool_decide (d_count d < lc))
        eqn:Hlow.
      { apply orb_true_iff in Hlow.
        rewrite Hlen, Happ. apply IH; [done|].
        apply (candidate_inv_step pre li lc d); [done | done |].
        right. right. left. repeat split; try done.
        destruct Hlow as [H | H]; apply bool_decide_eq_true in H; auto. }
      apply orb_false_iff in Hlow as [H1 H2].
      apply bool_decide_eq_false in H1. apply bool_decide_eq_false in H2.
      rewrite Hlen, Happ. apply IH; [done|].
      apply (candidate_inv_step pre li lc d); [done | done |].
      right. right. right. done.
    + rewrite Hlen, Happ. apply IH; [done|].
      apply (candidate_inv_step pre li lc d); [done | done |].
      left. done.
Qed.

(** A scan that misses found no slot with the wanted parent and name. *)
Lemma dentry_scan_miss_no_match parent name (slots : list vfs_dentry) :
  forall i li lc li' lc',
    dentry_scan parent name slots i li lc = Miss li' lc' ->
    forall d, d ∈ slots ->
      ~ (d_name d = Some name /\ d_parent d = parent).
Proof.
  induction slots as [|e rest IH]; intros i li lc li' lc' Hscan d Hin.
  - apply elem_of_nil in Hin. done.
  - simpl in Hscan. intros [Hnm Hp].
    apply elem_of_cons in Hin as [-> | Hin].
    + rewrite Hnm in Hscan. rewrite Hp in Hscan.
      rewrite !bool_decide_eq_true_2 in Hscan by done. done.
    + destruct (d_name e) as [n|].
      * destruct (bool_decide (d_parent e = parent) && bool_decide (n = name));
          [done|].
        destruct (bool_decide (d_mnt_sb e <> None)).
        { eapply IH; eauto. }
        destruct (bool_decide (li = None) || bool_decide (d_count e < lc));
          eapply IH; eauto.
      * eapply IH; eauto.
Qed.

(** The victim of a missing scan of the whole table. *)
Lemma dentry_scan_victim parent name (t : list vfs_dentry) v c :
  counts_ok t ->
  dentry_scan parent name t 0 None 0 = Miss (Some v) c ->
  exists d, t !! v = Some d /\
    (occupied d -> d_mnt_sb d = None) /\
    (forall e, e ∈ t -> d_name e = None -> d_name d = None) /\
    (occupied d ->
     forall e, e ∈ t -> occupied e -> d_mnt_sb e = None ->
               d_count d <= d_count e).
Proof.
  intros Hcnt Hscan.
  pose proof (dentry_scan_inv parent name t [] None 0 Hcnt) as H.
  simpl in H. rewrite Hscan in H.
  destruct H as (d & Hv & Hc).
  { intros d Hd. apply elem_of_nil in Hd. done. }
  exists d. split; [done|].
  destruct Hc as [(Hn & _) | (Ho & Hm & _ & Hall & Hmin)].
  - repeat split.
    + intros Ho. done.
    + done.
    + intros Ho. done.
  - repeat split.
    + done.
    + intros e He Hen. exfalso. apply (Hall e He). done.
    + intros _ e He _ Hme. auto.
Qed.

Lemma dentry_scan_bound parent name (slots : list vfs_dentry) :
  forall i li lc,
    (forall v, li = Some v -> (v < i)%nat) ->
    match dentry_scan parent name slots i li lc with
    | Hit j => (j < i + length slots)%nat
    | Miss (Some v) _ => (v < i + length slots)%nat
    | Miss None _ => True
    end.
Proof.
  induction slots as [|d rest IH]; intros i li lc Hli; simpl.
  - destruct li as [v|]; [|done]. specialize (Hli v eq_refl). lia.
  - assert (Hnext : forall l, (forall v, l = Some v -> (v < S i)%nat) ->
      match dentry_scan parent name rest (S i) l lc with
      | Hit j => (j < i + S (length rest))%nat
      | Miss (Some v) _ => (v < i + S (length rest))%nat
      | Miss None _ => True
      end).
    { intros l Hl. specialize (IH (S i) l lc Hl).
      destruct (dentry_scan parent name rest (S i) l lc) as [j|[v|] ?];
        try done; lia. }
    assert (Hself : forall v, Some i = Some v -> (v < S i)%nat).
    { intros v [= <-]. lia. }
    assert (Hold : forall v, li = Some v -> (v < S i)%nat).
    { intros v Hv. specialize (Hli v Hv). lia. }
    destruct (d_name d) as [n|].
    + destruct (bool_decide (d_parent d = parent) && bool_decide (n = name));
        [lia|].
      destruct (bool_decide (d_mnt_sb d <> None)); [apply Hnext; done|].
      destruct (bool_decide (li = None) || bool_decide (d_count d < lc)).
      * specialize (IH (S i) (Some i) (d_count d) Hself).
        destruct (dentry_scan parent name rest (S i) (Some i) (d_count d))
          as [j|[v|] ?]; try done; lia.
      * apply Hnext; done.
    + specialize (IH (S i) (Some i) 0 Hself).
      destruct (dentry_scan parent name rest (S i) (Some i) 0)
        as [j|[v|] ?]; try done; lia.
Qed.

Lemma dentry_scan_hit parent name (slots : list vfs_dentry) :
  forall pre li lc i,
    dentry_scan parent name slots (length pre) li lc = Hit i ->
    exists d, (pre ++ slots) !! i = Some d /\
              d_name d = Some name /\ d_parent d = parent.
Proof.
  induction slots as [|d rest IH]; intros pre li lc i Hscan; [done|].
  simpl in Hscan.
  assert (Hnext : forall l c,
    dentry_scan parent name rest (S (length pre)) l c = Hit i ->
    exists e, (pre ++ d :: rest) !! i = Some e /\
              d_name e = Some name /\ d_parent e = parent).
  { intros l c Hs.
    replace (S (length pre)) with (length (pre ++ [d])) in Hs
      by (rewrite length_app; simpl; lia).
    apply IH in Hs. rewrite <- app_assoc in Hs. done. }
  destruct (d_name d) as [n|] eqn:Hn; [|eauto].
  destruct (bool_decide (d_parent d = parent) && bool_decide (n = name))
    eqn:Hmatch.
  - injection Hscan as <-.
    apply andb_true_iff in Hmatch as [Hp Hnm].
    apply bool_decide_eq_true in Hp. apply bool_decide_eq_true in Hnm.
    exists d. split; [apply list_lookup_middle; done|]. subst. done.
  - destruct (bool_decide (d_mnt_sb d <> None)); [eauto|].
    destruct (bool_decide (li = None) || bool_decide (d_count d < lc)); eauto.
Qed.

(** ** The four ways out of [vfs_dentry_get] *)

Section DentryGet.

Variable B : backend.

Lemma store_dentry_ok i d s :
  (i < length (vfs_dentries s))%nat ->
  store_dentry i d s = Done tt (with_dentries (<[i := d]> (vfs_dentries s)) s).
Proof. intros Hi. unfold store_dentry. rewrite decide_True by done. done. Qed.

Lemma load_dentry_ok i d s :
  vfs_dentries s !! i = Some d -> load_dentry i s = Done d s.
Proof. intros Hi. unfold load_dentry. rewrite Hi. done. Qed.

(** The wanted dentry is in the cache: its counter is incremented, as a C
    [int]. *)
Lemma vfs_dentry_get_hit parent name s i :
  dentry_scan parent name (vfs_dentries s) 0 None 0 = Hit i ->
  exists d, vfs_dentries s !! i = Some d /\
    d_name d = Some name /\ d_parent d = parent /\
    vfs_dentry_get B parent name s =
      Done (Some i)
        (with_dentries
           (<[i := set_d_count (int_incr (d_count d)) d]> (vfs_dentries s)) s).
Proof.
  intros Hscan.
  destruct (dentry_scan_hit parent name (vfs_dentries s) [] None 0 i Hscan)
    as (d & Hd & Hn & Hp).
  simpl in Hd. exists d. repeat split; try done.
  unfold vfs_dentry_get. vfs_unfold. rewrite Hscan.
  rewrite (load_dentry_ok i d s Hd).
  rewrite store_dentry_ok by (eapply lookup_lt_Some; done). done.
Qed.

(** No slot can be reused: the table is full of mount points. *)
Lemma vfs_dentry_get_full parent name s c :
  dentry_scan parent name (vfs_dentries s) 0 None 0 = Miss None c ->
  vfs_dentry_get B parent name s = Done None (set_errno E_LIMIT s).
Proof.
  intros Hscan. unfold vfs_dentry_get. vfs_unfold. rewrite Hscan. done.
Qed.

Lemma dentry_scan_victim_bound parent name (t : list vfs_dentry) v c :
  dentry_scan parent name t 0 None 0 = Miss (Some v) c ->
  (v < length t)%nat.
Proof.
  intros Hscan.
  pose proof (dentry_scan_bound parent name t 0 None 0) as Hb.
  rewrite Hscan in Hb. apply Hb. done.
Qed.

(** The victim is reset and the copy of the name cannot be allocated. *)
Lemma vfs_dentry_get_oom parent name s v c :
  dentry_scan parent name (vfs_dentries s) 0 None 0 = Miss (Some v) c ->
  kalloc_ok B (brk s) = false ->
  vfs_dentry_get B parent name s =
    Done None
      (set_errno E_NOMEM
         (with_brk (S (brk s))
            (with_dentries (<[v := empty_dentry]> (vfs_dentries s)) s))).
Proof.
  intros Hscan Hfail.
  pose proof (dentry_scan_victim_bound _ _ _ _ _ Hscan) as Hv.
  unfold vfs_dentry_get, vfs_dentry_reset, kalloc. vfs_unfold.
  rewrite Hscan. rewrite store_dentry_ok by done. simpl.
  rewrite Hfail. done.
Qed.

(** The victim is reset and given the new name: the slots of the table
    other than the victim are as before. *)
Lemma vfs_dentry_get_new parent name s v c r s' :
  dentry_scan parent name (vfs_dentries s) 0 None 0 = Miss (Some v) c ->
  kalloc_ok B (brk s) = true ->
  vfs_dentry_get B parent name s = Done r s' ->
  r = Some v /\
  exists sb,
    vfs_dentries s' =
      <[v := mk_dentry (Some name) 0 parent 1 sb None]> (vfs_dentries s).
Proof.
  intros Hscan Hok.
  pose proof (dentry_scan_victim_bound _ _ _ _ _ Hscan) as Hv.
  unfold vfs_dentry_get, vfs_dentry_reset, kalloc. vfs_unfold.
  rewrite Hscan. rewrite store_dentry_ok by done. simpl.
  rewrite Hok.
  set (t := vfs_dentries s) in *.
  assert (Hl : forall (l : list vfs_dentry) x,
    length l = length t -> <[v := x]> l !! v = Some x).
  { intros l x Hlen. apply list_lookup_insert_eq. lia. }
  unfold load_dentry at 1. simpl. rewrite Hl by done. simpl.
  rewrite store_dentry_ok by (simpl; rewrite length_insert; done). simpl.
  rewrite list_insert_insert_eq.
  destruct parent as [p|].
  - unfold load_dentry at 1. simpl.
    destruct (<[v := _]> t !! p) as [pd|] eqn:Hpd; simpl; [|done].
    unfold load_dentry at 1. simpl. rewrite Hl by done. simpl.
    destruct (d_mnt_sb pd) as [m|].
    + rewrite store_dentry_ok by (simpl; rewrite length_insert; done). simpl.
      rewrite list_insert_insert_eq.
      unfold load_dentry at 1. simpl. rewrite Hl by done. simpl.
      rewrite store_dentry_ok by (simpl; rewrite length_insert; done). simpl.
      rewrite list_insert_insert_eq.
      intros [= <- <-]. split; [done|]. eexists. simpl. reflexivity.
    + rewrite store_dentry_ok by (simpl; rewrite length_insert; done). simpl.
      rewrite list_insert_insert_eq.
      unfold load_dentry at 1. simpl. rewrite Hl by done. simpl.
      rewrite store_dentry_ok by (simpl; rewrite length_insert; done). simpl.
      rewrite list_insert_insert_eq.
      intros [= <- <-]. split; [done|]. eexists. simpl. reflexivity.
  - unfold load_dentry at 1. simpl. rewrite Hl by done. simpl.
    rewrite store_dentry_ok by (simpl; rewrite length_insert; done). simpl.
    rewrite list_insert_insert_eq.
    unfold load_dentry at 1. simpl. rewrite Hl by done. simpl.
    rewrite store_dentry_ok by (simpl; rewrite length_insert; done). simpl.
    rewrite list_insert_insert_eq.
    intros [= <- <-]. split; [done|]. eexists. simpl. reflexivity.
Qed.

End DentryGet.

(** ** Eviction *)

Section Eviction.

Variable B : backend.

Lemma counts_ok_insert (t : list vfs_dentry) i d :
  counts_ok t -> (occupied d -> 0 <= d_count d) ->
  counts_ok (<[i := d]> t).
Proof.
  intros Ht Hd e He Ho.
  apply list_elem_of_lookup in He as [k Hk].
  destruct (decide (i = k)) as [->|Hne].
  - destruct (decide (k < length t)%nat) as [Hlt|Hge].
    + rewrite list_lookup_insert_eq in Hk by done.
      injection Hk as <-. auto.
    + rewrite list_insert_ge in Hk by lia.
      apply Ht; [|done]. apply list_elem_of_lookup. eauto.
  - rewrite list_lookup_insert_ne in Hk by done.
    apply Ht; [|done]. apply list_elem_of_lookup. eauto.
Qed.

(** What one call does to the table. *)
Lemma vfs_dentry_get_table parent name s r s' :
  vfs_dentry_get B parent name s = Done r s' ->
  (exists i d, dentry_scan parent name (vfs_dentries s) 0 None 0 = Hit i /\
     vfs_dentries s !! i = Some d /\
     vfs_dentries s'
     = <[i := set_d_count (int_incr (d_count d)) d]> (vfs_dentries s))
  \/ (exists c, dentry_scan parent name (vfs_dentries s) 0 None 0 = Miss None c
        /\ vfs_dentries s' = vfs_dentries s)
  \/ (exists v c d,
        dentry_scan parent name (vfs_dentries s) 0 None 0 = Miss (Some v) c /\
        (d = empty_dentry \/
         exists sb, d = mk_dentry (Some name) 0 parent 1 sb None) /\
        vfs_dentries s' = <[v := d]> (vfs_dentries s)).
Proof.
  intros Hget.
  destruct (dentry_scan parent name (vfs_dentries s) 0 None 0)
    as [i | [v|] c] eqn:Hscan.
  - left. destruct (vfs_dentry_get_hit B parent name s i Hscan)
      as (d & Hd & _ & _ & Heq).
    rewrite Heq in Hget. injection Hget as <- <-. exists i, d. done.
  - right. right. exists v, c.
    destruct (kalloc_ok B (brk s)) eqn:Hok.
    + destruct (vfs_dentry_get_new B parent name s v c r s' Hscan Hok Hget)
        as (_ & sb & Heq).
      eexists. split; [done|]. split; [right; exists sb; done | done].
    + rewrite (vfs_dentry_get_oom B parent name s v c Hscan Hok) in Hget.
      injection Hget as <- <-. exists empty_dentry. simpl. auto.
  - right. left. exists c. split; [done|].
    rewrite (vfs_dentry_get_full B parent name s c Hscan) in Hget.
    injection Hget as <- <-. done.
Qed.

(** One call: only the victim of a miss is evicted, and the victim is not
    a mount point, is taken only when no slot is free, and has the lowest
    counter of the named slots that are not mount points. *)
Lemma vfs_dentry_get_evicts parent name s r s' j :
  counts_ok (vfs_dentries s) ->
  vfs_dentry_get B parent name s = Done r s' ->
  evicted (vfs_dentries s) (vfs_dentries s') j ->
  exists d, vfs_dentries s !! j = Some d /\
    d_mnt_sb d = None /\
    (forall e, e ∈ vfs_dentries s -> occupied e) /\
    (forall e, e ∈ vfs_dentries s -> occupied e -> d_mnt_sb e = None ->
               d_count d <= d_count e).
Proof.
  intros Hcnt Hget (d & Hd & Ho & Hgone).
  destruct (vfs_dentry_get_table parent name s r s' Hget)
    as [(i & e & _ & He & Heq) | [(c & _ & Heq) | (v & c & e & Hscan & _ & Heq)]].
  - exfalso. rewrite Heq in Hgone.
    destruct (decide (i = j)) as [->|Hne].
    + rewrite He in Hd. injection Hd as ->.
      apply (Hgone (set_d_count (int_incr (d_count d)) d)); [|done].
      apply list_lookup_insert_eq. eapply lookup_lt_Some. done.
    + apply (Hgone d); [|done]. rewrite list_lookup_insert_ne by done. done.
  - exfalso. rewrite Heq in Hgone. apply (Hgone d); done.
  - destruct (decide (v = j)) as [->|Hne].
    + destruct (dentry_scan_victim parent name _ j c Hcnt Hscan)
        as (d0 & Hd0 & Hmnt & Hfree & Hmin).
      rewrite Hd in Hd0. injection Hd0 as <-.
      exists d. repeat split; auto.
      intros e0 He0 Hn. apply Ho. eapply Hfree; done.
    + exfalso. rewrite Heq in Hgone. apply (Hgone d); [|done].
      rewrite list_lookup_insert_ne by done. done.
Qed.

End Eviction.

(** *** Overflow of the frequency counter *)

Section CounterOverflow.

Variable B : backend.

(** A lookup of "a" on the table [hot_table c] finds it in the last slot
    and increments the counter as a C [int]. *)
Lemma hot_table_hit (c : Z) (s : vfs_state) :
  vfs_dentry_get B None "a" (with_dentries (hot_table c) s) =
    Done (Some 99%nat) (with_dentries (hot_table (int_incr c)) s).
Proof.
  assert (Hscan : dentry_scan None "a"%string
                    (vfs_dentries (with_dentries (hot_table c) s)) 0 None 0
                  = Hit 99).
  { vm_compute. reflexivity. }
  destruct (vfs_dentry_get_hit B None "a" _ 99 Hscan)
    as (d & Hd & _ & _ & Hget).
  rewrite Hget. clear Hget Hscan.
  assert (d = mk_dentry (Some "a"%string) 0 None c None None) as ->.
  { vm_compute in Hd. injection Hd as <-. reflexivity. }
  reflexivity.
Qed.

(** As long as the counter stays below [INT_MAX], [k] lookups of "a" add
    [k] to it. *)
Lemma hot_table_calls (s : vfs_state) (k : nat) :
  forall (c : Z) (l : list (option nat * string))
         (pq : vfs_state * vfs_state),
    c + Z.of_nat k <= INT_MAX ->
    pq ∈ get_calls B l (with_dentries (hot_table (c + Z.of_nat k)) s) ->
    pq ∈ get_calls B (replicate k (None, "a"%string) ++ l)
           (with_dentries (hot_table c) s).
Proof.
  induction k as [|k IH]; intros c l pq Hle Hin.
  - replace (c + Z.of_nat 0) with c in Hin by lia. exact Hin.
  - change (replicate (S k) (None, "a"%string) ++ l)
      with ((None, "a"%string) :: (replicate k (None, "a"%string) ++ l)).
    cbn [get_calls]. rewrite hot_table_hit.
    apply elem_of_cons. right.
    assert (Hinc : int_incr c = c + 1).
    { unfold int_incr. rewrite bool_decide_eq_false_2; [done | lia]. }
    rewrite Hinc. apply IH; [lia|].
    replace (c + 1 + Z.of_nat k) with (c + Z.of_nat (S k)) by lia.
    exact Hin.
Qed.

End CounterOverflow.

Lemma hot_table_overflow (k : nat) :
  Z.of_nat k = INT_MAX - 1 ->
  let B := example_backend false never never in
  exists (pre post : vfs_state),
    Z.of_nat (S (k + 1)) = INT_MAX + 1 /\
    (pre, post)
      ∈ get_calls B (replicate (S (k + 1)) (None, "a"%string)
                       ++ [(None, "c"%string)]) vfs_init /\
    counts_ok (vfs_dentries vfs_init) /\
    vfs_dentries pre = hot_table INT_MIN /\
    vfs_dentries pre !! 0%nat = Some empty_dentry /\
    evicted (vfs_dentries pre) (vfs_dentries post) 99.
Proof.
  intros Hk B.
  set (s0 := with_brk 1%nat vfs_init).
  set (pre := with_dentries (hot_table INT_MIN) s0).
  set (post := state_of (vfs_dentry_get B None "c" pre) pre).
  exists pre, post.
  split; [lia|].
  split.
  { change (replicate (S (k + 1)) (@None nat, "a"%string)
              ++ [(@None nat, "c"%string)])
      with ((@None nat, "a"%string)
              :: (replicate (k + 1) (@None nat, "a"%string)
                    ++ [(@None nat, "c"%string)])).
    rewrite replicate_add, <- app_assoc.
    cbn [get_calls].
    assert (Hfirst : vfs_dentry_get B None "a" vfs_init
                     = Done (Some 99%nat) (with_dentries (hot_table 1) s0)).
    { vm_compute. reflexivity. }
    rewrite Hfirst. apply elem_of_cons. right.
    apply hot_table_calls; [lia|].
    replace (1 + Z.of_nat k) with INT_MAX by lia.
    change (replicate 1 (@None nat, "a"%string) ++ [(@None nat, "c"%string)])
      with [(@None nat, "a"%string); (@None nat, "c"%string)].
    cbn [get_calls]. rewrite hot_table_hit.
    change (int_incr INT_MAX) with INT_MIN.
    apply elem_of_cons. right. fold pre.
    assert (Hlast : vfs_dentry_get B None "c" pre = Done (Some 99%nat) post).
    { vm_compute. reflexivity. }
    rewrite Hlast. apply elem_of_cons. left. reflexivity. }
  split.
  { intros d Hd Ho. exfalso. apply Ho.
    change (vfs_dentries vfs_init)
      with (replicate VFS_MAX_DENTRIES empty_dentry) in Hd.
    apply elem_of_replicate in Hd as [-> _]. reflexivity. }
  split; [reflexivity|].
  split; [reflexivity|].
  exists (mk_dentry (Some "a"%string) 0 None INT_MIN None None).
  split; [reflexivity|]. split; [discriminate|].
  intros d' Hd'. vm_compute in Hd'. injection Hd' as <-.
  unfold same_entry. simpl. discriminate.
Qed.

(** C6.  The frequency counter overflows.  On the table left by
    [vfs_init], 2^31 lookups of the name "a" in the root take the counter
    of its dentry (in the last slot) from 1 up to [INT_MAX] and then to
    [INT_MIN]; the next lookup of a new name "c" evicts that dentry,
    although the other 99 slots of the table are free: the scan takes a
    free slot with [lowest_count = 0] (nothing will be smaller than zero,
    its comment says) and then prefers the negative counter. *)
Theorem dentry_count_overflow_evicts :
  let B := example_backend false never never in
  exists (k : nat) (pre post : vfs_state),
    Z.of_nat k = INT_MAX + 1 /\
    (pre, post)
      ∈ get_calls B (replicate k (None, "a"%string) ++ [(None, "c"%string)])
          vfs_init /\
    counts_ok (vfs_dentries vfs_init) /\
    vfs_dentries pre = hot_table INT_MIN /\
    vfs_dentries pre !! 0%nat = Some empty_dentry /\
    evicted (vfs_dentries pre) (vfs_dentries post) 99.
Proof.
  intros B.
  destruct (hot_table_overflow (Z.to_nat (INT_MAX - 1))) as (pre & post & H).
  { apply Z2Nat.id. unfold INT_MAX. lia. }
  exists (S (Z.to_nat (INT_MAX - 1) + 1)), pre, post. exact H.
Qed.

(** ** Failure of the name allocation *)

(** C9.  When [vfs_dentry_get] misses, has a victim slot and cannot
    allocate the copy of the name, it returns [NULL] with errno [E_NOMEM]
    and the victim slot is empty on return: the dentry it held, if any, is
    gone, and the other slots are as before. *)
Theorem dentry_get_oom_loses_victim (B : backend) (parent : option nat)
    (name : string) (s : vfs_state) (v : nat) (c : Z) :
  dentry_scan parent name (vfs_dentries s) 0 None 0 = Miss (Some v) c ->
  kalloc_ok B (brk s) = false ->
  exists s', vfs_dentry_get B parent name s = Done None s' /\
    errno s' = E_NOMEM /\
    vfs_dentries s' !! v = Some empty_dentry /\
    (forall j, j <> v -> vfs_dentries s' !! j = vfs_dentries s !! j).
Proof.
  intros Hscan Hfail.
  eexists. split; [apply (vfs_dentry_get_oom B parent name s v c); done|].
  simpl. split; [done|]. split.
  - apply list_lookup_insert_eq. eapply dentry_scan_victim_bound. done.
  - intros j Hj. apply list_lookup_insert_ne. done.
Qed.

Lemma dentry_get_oom_loses_victim_witness :
  exists s',
    vfs_dentry_get (example_backend false (only 0%nat) never) None "c" two_slots
      = Done None s' /\
    errno s' = E_NOMEM /\
    vfs_dentries s' !! 1%nat = Some empty_dentry /\
    (forall j, j <> 1%nat ->
               vfs_dentries s' !! j = vfs_dentries two_slots !! j).
Proof.
  apply (dentry_get_oom_loses_victim (example_backend false (only 0%nat) never)
           None "c" two_slots 1%nat 1); reflexivity.
Defined.

(** ** The error of a failed component lookup *)

(** C10.  Whenever [vfs_dentry_get] returns [NULL], because the table is
    full of mount points (errno [E_LIMIT]) or because the name could not be
    allocated (errno [E_NOMEM]), [vfs_lookup_in_dentry] returns [NULL] with
    errno [E_LIMIT] and changes nothing else. *)
Theorem lookup_in_dentry_reports_limit (B : backend) (dir : option nat)
    (name : string) (s s1 : vfs_state) :
  vfs_dentry_get B dir name s = Done None s1 ->
  ((exists c, dentry_scan dir name (vfs_dentries s) 0 None 0 = Miss None c /\
              errno s1 = E_LIMIT) \/
   (exists v c, dentry_scan dir name (vfs_dentries s) 0 None 0
                  = Miss (Some v) c /\
                kalloc_ok B (brk s) = false /\ errno s1 = E_NOMEM)) /\
  vfs_lookup_in_dentry B dir name s = Done None (set_errno E_LIMIT s1).
Proof.
  intros Hget. split.
  - destruct (dentry_scan dir name (vfs_dentries s) 0 None 0)
      as [i | [v|] c] eqn:Hscan.
    + destruct (vfs_dentry_get_hit B dir name s i Hscan) as (d & _ & _ & _ & Heq).
      rewrite Heq in Hget. discriminate.
    + right. exists v, c. destruct (kalloc_ok B (brk s)) eqn:Hok.
      * destruct (vfs_dentry_get_new B dir name s v c None s1 Hscan Hok Hget)
          as [Hr _]. discriminate.
      * rewrite (vfs_dentry_get_oom B dir name s v c Hscan Hok) in Hget.
        injection Hget as <-. done.
    + left. exists c.
      rewrite (vfs_dentry_get_full B dir name s c Hscan) in Hget.
      injection Hget as <-. done.
  - unfold vfs_lookup_in_dentry. unfold mbind at 1. unfold vfs_bind.
    rewrite Hget. reflexivity.
Qed.

Lemma lookup_in_dentry_reports_limit_witness :
  let B := example_backend false (only 0%nat) never in
  let s1 := set_errno E_NOMEM (with_brk 1%nat (with_dentries
              [mk_dentry (Some "a"%string) 5 None 3 None None; empty_dentry]
              two_slots)) in
  ((exists c, dentry_scan None "c" (vfs_dentries two_slots) 0 None 0
                = Miss None c /\ errno s1 = E_LIMIT) \/
   (exists v c, dentry_scan None "c" (vfs_dentries two_slots) 0 None 0
                  = Miss (Some v) c /\
                kalloc_ok B (brk two_slots) = false /\ errno s1 = E_NOMEM)) /\
  vfs_lookup_in_dentry B None "c" two_slots = Done None (set_errno E_LIMIT s1).
Proof.
  intros B s1.
  apply (lookup_in_dentry_reports_limit B None "c" two_slots s1).
  reflexivity.
Defined.

(** ** Path lookup *)

(** C1.  [vfs_lookup] never returns a dentry: whenever it returns, it
    returns [NULL], also after a walk in which every component was
    resolved and for the path "/". *)
Theorem vfs_lookup_returns_null (B : backend) (path : string)
    (s : vfs_state) :
  match vfs_lookup B path s with
  | Done r _ => r = None
  | Fault => True
  end.
Proof.
  unfold vfs_lookup, kalloc. vfs_unfold.
  destruct (kalloc_ok B (brk s)); [|done].
  destruct (lookup_walk B _ _ _) as [[o|] s'|]; done.
Qed.

(** The root is mounted and the path is "/": the lookup returns [NULL] and
    leaves errno as it was. *)
Lemma vfs_lookup_root_is_null :
  vfs_root_dentry rooted = Some 99%nat /\
  exists s', vfs_lookup (example_backend false never never) "/" rooted
               = Done None s' /\
             errno s' = errno rooted.
Proof.
  split; [vm_compute; reflexivity|].
  eexists. split; [vm_compute; reflexivity | reflexivity].
Qed.

(** ** Mount *)

(** C3.  A mount of the example filesystem on "/" succeeds, and the new
    superblock is linked to its type and the dentry to the superblock, but
    the flag of the superblock is still [VFS_SB_F_UNUSED] and its
    mount-point reference is still [NULL]; [vfs_sb_unmount] then refuses
    the superblock as not mounted. *)
Theorem mount_leaves_sb_unused :
  exists s' b d,
    vfs_mount (example_backend false never never) 5 "/" "rootfs" booted
      = Done 0 s' /\
    sb_mem s' !! 1%nat = Some b /\
    sb_fs_type b = Some 0%nat /\
    sb_flags b = VFS_SB_F_UNUSED /\
    sb_mnt b = None /\
    vfs_dentries s' !! 99%nat = Some d /\
    d_mnt_sb d = Some 1%nat /\
    vfs_sb_unmount (example_backend false never never) 1 s'
      = Done (-1) (set_errno E_NOTMOUNTED s').
Proof.
  eexists. eexists. eexists.
  split; [vm_compute; reflexivity|].
  split; [vm_compute; reflexivity|].
  split; [reflexivity|]. split; [reflexivity|]. split; [reflexivity|].
  split; [vm_compute; reflexivity|].
  split; [reflexivity|].
  vm_compute. reflexivity.
Qed.

(** [vfs_sb_dealloc] of a superblock that is not yet linked to its type
    reads the release callback through a [NULL] pointer. *)
Lemma vfs_sb_dealloc_unlinked (B : backend) (p : nat) (b : vfs_sb)
    (s : vfs_state) :
  sb_mem s !! p = Some b -> sb_fs_type b = None ->
  vfs_sb_dealloc B p s = Fault.
Proof.
  intros Hp Hft. unfold vfs_sb_dealloc, load_sb. vfs_unfold.
  rewrite Hp. simpl. rewrite Hft. done.
Qed.

(** C8.  When the probe of the example filesystem fails, [vfs_mount] does
    not return [E_INVFS]: the superblock that [vfs_sb_dealloc] receives has
    no filesystem type yet, and the development stops at the dereference
    of that [NULL] pointer. *)
Theorem mount_probe_failure_faults :
  vfs_mount (example_backend false never (only fn_probe)) 5 "/" "rootfs" booted
    = Fault.
Proof. vm_compute. reflexivity. Qed.

(** C2.  When the mount callback of the example filesystem fails,
    [vfs_mount] returns -1 with errno [E_IO], but the superblock of the
    device is still in the registry: the release callback is called by
    [vfs_mount] and again by [vfs_sb_dealloc], the second call fails, and
    the failure of [vfs_sb_dealloc] is ignored. *)
Theorem mount_failure_leaks_superblock :
  exists s',
    vfs_mount (example_backend false never (only fn_mount)) 5 "/" "rootfs" booted
      = Done (-1) s' /\
    errno s' = E_IO /\
    vfs_sbs booted = [] /\
    vfs_sbs s' = [1%nat] /\
    is_Some (sb_mem s' !! 1%nat) /\
    vfs_dentries s' = vfs_dentries booted /\
    trace s' = [CallGetSb 1; CallMount 1; CallKillSb 1; CallKillSb 1].
Proof.
  eexists. split; [vm_compute; reflexivity|].
  split; [reflexivity|]. split; [reflexivity|]. split; [reflexivity|].
  split; [vm_compute; eexists; reflexivity|].
  split; vm_compute; reflexivity.
Qed.

(** ** Unmount *)

Section Unmount.

Variable B : backend.

Lemma list_find_none (cmp : nat -> bool) (l : list nat) :
  list_find cmp l = None <-> forall p, p ∈ l -> cmp p = false.
Proof.
  induction l as [|q r IH]; simpl.
  - split; [|done]. intros _ p Hp. apply elem_of_nil in Hp. done.
  - destruct (cmp q) eqn:Hq.
    + split; [done|]. intros H. rewrite (H q) in Hq; [done | left].
    + rewrite IH. split.
      * intros H p Hp. apply elem_of_cons in Hp as [-> | Hp]; auto.
      * intros H p Hp. apply H. right. done.
Qed.

Lemma vfs_vnode_unmount_sb_live s sb :
  live_vnode s sb -> vfs_vnode_unmount_sb sb s = Done (-1) s.
Proof.
  intros (p & n & Hp & Hn & Hsb).
  unfold vfs_vnode_unmount_sb. vfs_unfold.
  destruct (list_find _ _) eqn:Hf; [done|].
  exfalso. rewrite list_find_none in Hf. specialize (Hf p Hp).
  unfold vfs_vnodes_sb_only_cmp in Hf. rewrite Hn in Hf.
  apply bool_decide_eq_false in Hf. done.
Qed.

Lemma vfs_vnode_unmount_sb_none s sb :
  ~ live_vnode s sb -> vfs_vnode_unmount_sb sb s = Done 0 s.
Proof.
  intros Hno. unfold vfs_vnode_unmount_sb. vfs_unfold.
  destruct (list_find _ _) as [p|] eqn:Hf; [|done].
  exfalso. apply Hno.
  assert (G : forall l, list_find (vfs_vnodes_sb_only_cmp s sb) l = Some p ->
              p ∈ l /\ vfs_vnodes_sb_only_cmp s sb p = true).
  { induction l as [|q r IH]; simpl; [done|].
    destruct (vfs_vnodes_sb_only_cmp s sb q) eqn:Hq.
    - intros [= ->]. split; [left | done].
    - intros H. destruct (IH H). split; [right|]; done. }
  destruct (G _ Hf) as [Hin Hc].
  unfold vfs_vnodes_sb_only_cmp in Hc.
  destruct (vn_mem s !! p) as [n|] eqn:Hn; [|done].
  apply bool_decide_eq_true in Hc. exists p, n. done.
Qed.

Lemma dentry_pins_spec sb d :
  dentry_pins sb d = true <-> occupied d /\ mountpoint d /\ d_sb d = Some sb.
Proof.
  unfold dentry_pins, occupied, mountpoint.
  rewrite !andb_true_iff, !bool_decide_eq_true. tauto.
Qed.

Lemma dentry_owned_spec sb d : dentry_owned sb d = true <-> owned_by sb d.
Proof.
  unfold dentry_owned, owned_by, occupied.
  rewrite andb_true_iff, !bool_decide_eq_true. tauto.
Qed.

Lemma vfs_dentry_unmount_sb_busy s sb :
  nested_mount s sb -> vfs_dentry_unmount_sb sb s = Done (-1) s.
Proof.
  intros (d & Hd & Hpin). unfold vfs_dentry_unmount_sb.
  assert (H : existsb (dentry_pins sb) (vfs_dentries s) = true).
  { apply existsb_exists. exists d. split.
    - apply list_elem_of_In. done.
    - apply dentry_pins_spec. done. }
  rewrite H. done.
Qed.

Lemma vfs_dentry_unmount_sb_free s sb :
  ~ nested_mount s sb ->
  vfs_dentry_unmount_sb sb s =
    Done 0 (with_dentries
              (map (fun d => if dentry_owned sb d then empty_dentry else d)
                   (vfs_dentries s)) s).
Proof.
  intros Hno. unfold vfs_dentry_unmount_sb.
  destruct (existsb (dentry_pins sb) (vfs_dentries s)) eqn:H; [|done].
  exfalso. apply Hno. apply existsb_exists in H as (d & Hd & Hpin).
  exists d. split; [apply list_elem_of_In; done|].
  apply dentry_pins_spec. done.
Qed.

(** The table after the second loop of [vfs_dentry_unmount_sb]. *)
Lemma unmounted_table_lookup sb (t : list vfs_dentry) j d :
  t !! j = Some d ->
  map (fun d => if dentry_owned sb d then empty_dentry else d) t !! j
    = Some (if dentry_owned sb d then empty_dentry else d).
Proof.
  revert j. induction t as [|e t IH]; intros [|j] H; simpl in *; try done.
  - injection H as ->. done.
  - apply IH. done.
Qed.

(** The unmount callback fails. *)
Lemma vfs_sb_unmount_cb_fails s sb b a b' :
  sb_mem s !! sb = Some b ->
  sb_flags b = VFS_SB_F_MOUNTED ->
  ~ live_vnode s sb ->
  ~ nested_mount s sb ->
  op_unmount (sb_ops b) = Some a ->
  sb_fn B a b = (-1, b') ->
  vfs_sb_unmount B sb s =
    Done (-1)
      (set_errno E_IO
         (log_call (CallUnmount sb)
            (with_sb_mem (<[sb := b']> (sb_mem s))
               (with_dentries
                  (map (fun d => if dentry_owned sb d then empty_dentry
                                 else d) (vfs_dentries s)) s)))).
Proof.
  intros Hb Hflag Hlive Hnest Hop Hcb.
  unfold vfs_sb_unmount, load_sb, VFS_SB_IS_MOUNTED. vfs_unfold.
  rewrite Hb. simpl. rewrite Hflag. simpl.
  rewrite vfs_vnode_unmount_sb_none by done. simpl.
  rewrite vfs_dentry_unmount_sb_free by done. simpl.
  rewrite Hb. simpl.
  unfold call_sb_fn, load_sb, store_sb. vfs_unfold. rewrite Hop. simpl.
  rewrite Hb. simpl. rewrite Hcb. simpl. rewrite Hb. simpl. done.
Qed.

(** The unmount callback succeeds and the superblock knows its mount
    point. *)
Lemma vfs_sb_unmount_ok s sb b a r b' mp d :
  sb_mem s !! sb = Some b ->
  sb_flags b = VFS_SB_F_MOUNTED ->
  ~ live_vnode s sb ->
  ~ nested_mount s sb ->
  op_unmount (sb_ops b) = Some a ->
  sb_fn B a b = (r, b') ->
  r <> -1 ->
  sb_mnt b' = Some mp ->
  vfs_dentries s !! mp = Some d ->
  vfs_sb_unmount B sb s =
    Done 0
      (with_sb_mem
         (<[sb := set_sb_mnt None (set_sb_flags VFS_SB_F_UNUSED b')]>
            (sb_mem s))
         (with_dentries
            (<[mp := set_d_mnt_sb None
                       (if dentry_owned sb d then empty_dentry else d)]>
               (map (fun d => if dentry_owned sb d then empty_dentry else d)
                    (vfs_dentries s)))
            (log_call (CallUnmount sb) s))).
Proof.
  intros Hb Hflag Hlive Hnest Hop Hcb Hr Hmnt Hd.
  unfold vfs_sb_unmount, load_sb, VFS_SB_IS_MOUNTED. vfs_unfold.
  rewrite Hb. simpl. rewrite Hflag. simpl.
  rewrite vfs_vnode_unmount_sb_none by done. simpl.
  rewrite vfs_dentry_unmount_sb_free by done. simpl.
  rewrite Hb. simpl.
  unfold call_sb_fn, load_sb, store_sb. vfs_unfold. rewrite Hop. simpl.
  rewrite Hb. simpl. rewrite Hcb. simpl. rewrite Hb. simpl.
  unfold failed. rewrite bool_decide_eq_false_2 by done.
  unfold load_dentry, store_dentry. st_simpl.
  rewrite lookup_insert_eq. simpl. rewrite Hmnt. simpl.
  rewrite (unmounted_table_lookup sb _ mp d Hd). simpl.
  rewrite decide_True
    by (rewrite length_map; eapply lookup_lt_Some; done).
  simpl.
  repeat (first [rewrite lookup_insert_eq | rewrite insert_insert_eq]; simpl).
  done.
Qed.

End Unmount.

Lemma nested_mount_existsb (s : vfs_state) (sb : nat) :
  nested_mount s sb <-> existsb (dentry_pins sb) (vfs_dentries s) = true.
Proof.
  rewrite existsb_exists. split.
  - intros (d & Hd & Hpin). exists d. split.
    + apply list_elem_of_In. done.
    + apply dentry_pins_spec. done.
  - intros (d & Hd & Hpin). exists d. split.
    + apply list_elem_of_In. done.
    + apply dentry_pins_spec. done.
Qed.

Lemma list_find_some (cmp : nat -> bool) (l : list nat) (p : nat) :
  list_find cmp l = Some p -> p ∈ l /\ cmp p = true.
Proof.
  induction l as [|q r IH]; simpl; [done|].
  destruct (cmp q) eqn:Hq.
  - intros [= ->]. split; [left | done].
  - intros H. destruct (IH H). split; [right|]; done.
Qed.

Lemma live_vnode_find (s : vfs_state) (sb : nat) :
  live_vnode s sb <->
  list_find (vfs_vnodes_sb_only_cmp s sb) (vfs_vnodes s) <> None.
Proof.
  split.
  - intros Hl Hf. apply vfs_vnode_unmount_sb_live in Hl.
    unfold vfs_vnode_unmount_sb in Hl. vfs_unfold. rewrite Hf in Hl. done.
  - intros Hf.
    destruct (list_find _ _) as [p|] eqn:Hp; [|done].
    apply list_find_some in Hp as [Hin Hc].
    unfold vfs_vnodes_sb_only_cmp in Hc.
    destruct (vn_mem s !! p) as [n|] eqn:Hn; [|done].
    apply bool_decide_eq_true in Hc. exists p, n. done.
Qed.

(** The unmount callback succeeds and the superblock has no mount-point
    reference: [vfs_sb_unmount] writes through the [NULL] pointer. *)
Lemma vfs_sb_unmount_null_mnt (B : backend) s sb b a r b' :
  sb_mem s !! sb = Some b ->
  sb_flags b = VFS_SB_F_MOUNTED ->
  ~ live_vnode s sb ->
  ~ nested_mount s sb ->
  op_unmount (sb_ops b) = Some a ->
  sb_fn B a b = (r, b') ->
  r <> -1 ->
  sb_mnt b' = None ->
  vfs_sb_unmount B sb s = Fault.
Proof.
  intros Hb Hflag Hlive Hnest Hop Hcb Hr Hmnt.
  unfold vfs_sb_unmount, load_sb, VFS_SB_IS_MOUNTED. vfs_unfold.
  rewrite Hb. simpl. rewrite Hflag. simpl.
  rewrite vfs_vnode_unmount_sb_none by done. simpl.
  rewrite vfs_dentry_unmount_sb_free by done. simpl.
  rewrite Hb. simpl.
  unfold call_sb_fn, load_sb, store_sb. vfs_unfold. rewrite Hop. simpl.
  rewrite Hb. simpl. rewrite Hcb. simpl. rewrite Hb. simpl.
  unfold failed. rewrite bool_decide_eq_false_2 by done.
  st_simpl. rewrite lookup_insert_eq. simpl. rewrite Hmnt. done.
Qed.

(** C4.  The success path of [vfs_sb_unmount] cannot be taken after
    [vfs_mount].  The example filesystem is mounted on "/" by [vfs_mount],
    with a mount callback that sets the flag of the superblock to
    [VFS_SB_F_MOUNTED]: the superblock is mounted, no vnode of it is
    cached, no dentry of it is a mount point and its unmount callback
    succeeds, yet [vfs_sb_unmount] does not return 0: the mount-point
    reference that it dereferences was never set by [vfs_mount] and is
    [NULL].  The same happens once a name has been looked up in the
    root. *)
Theorem unmount_after_mount_faults :
  let B := example_backend true never never in
  vfs_mount B 5 "/" "rootfs" booted = Done 0 marked /\
  (exists b a,
     sb_mem marked !! 1%nat = Some b /\
     sb_flags b = VFS_SB_F_MOUNTED /\ sb_mnt b = None /\
     op_unmount (sb_ops b) = Some a /\ (sb_fn B a b).1 = 0) /\
  ~ live_vnode marked 1 /\
  ~ nested_mount marked 1 /\
  vfs_sb_unmount B 1 marked = Fault /\
  vfs_sb_unmount B 1 marked_child = Fault.
Proof.
  intros B.
  split; [vm_compute; reflexivity|].
  split.
  { eexists. exists fn_unmount. split; [vm_compute; reflexivity|].
    split; [reflexivity|]. split; [reflexivity|].
    split; [reflexivity|]. vm_compute. reflexivity. }
  split.
  { intros Hl. apply live_vnode_find in Hl. apply Hl.
    vm_compute. reflexivity. }
  split.
  { intros Hn. apply nested_mount_existsb in Hn.
    vm_compute in Hn. discriminate Hn. }
  split; vm_compute; reflexivity.
Qed.

(** The order of [vfs_sb_unmount] on the example: the dentry "etc" of the
    superblock is in the table before the call, the unmount callback
    fails, and the dentry is gone although the call failed. *)
Lemma unmount_failure_loses_dentries :
  ~ unmount_failure_keeps_dentries
      (example_backend true never (only fn_unmount)) marked_child 1.
Proof.
  intros Hclaim.
  assert (Hb : is_Some (sb_mem marked_child !! 1%nat)).
  { vm_compute. eexists. reflexivity. }
  destruct Hb as [b Hb].
  assert (Hb' := Hb). vm_compute in Hb'. injection Hb' as Hb'. subst b.
  match type of Hb with
  | _ = Some ?b =>
      destruct (Hclaim b fn_unmount b Hb eq_refl)
        as (s' & Hrun & _ & _ & Hkeep)
  end.
  - intros H. apply live_vnode_find in H. apply H. vm_compute. reflexivity.
  - intros H. apply nested_mount_existsb in H. vm_compute in H. discriminate.
  - reflexivity.
  - vm_compute. reflexivity.
  - specialize (Hkeep 98%nat
      (mk_dentry (Some "etc"%string) 7 (Some 99%nat) 1 (Some 1%nat) None)).
    vm_compute in Hrun. injection Hrun as <-.
    assert (Hgone : Some empty_dentry
      = Some (mk_dentry (Some "etc"%string) 7 (Some 99%nat) 1 (Some 1%nat)
                None)).
    { apply Hkeep; [vm_compute; reflexivity|].
      split; [discriminate | reflexivity]. }
    discriminate.
Qed.

(** C5, as the code has it.  When the unmount callback fails,
    [vfs_sb_unmount] returns -1 with errno [E_IO]; the superblock is as
    the callback left it, still registered, and the core has not written
    its flag or its mount point; but every dentry of the superblock has
    already been reset, and the other dentries are as before. *)
Theorem vfs_sb_unmount_cb_failure (B : backend) (s : vfs_state) (sb : nat)
    (b b' : vfs_sb) (a : nat) :
  sb_mem s !! sb = Some b ->
  sb_flags b = VFS_SB_F_MOUNTED ->
  ~ live_vnode s sb ->
  ~ nested_mount s sb ->
  op_unmount (sb_ops b) = Some a ->
  sb_fn B a b = (-1, b') ->
  exists s',
    vfs_sb_unmount B sb s = Done (-1) s' /\
    errno s' = E_IO /\
    sb_mem s' = <[sb := b']> (sb_mem s) /\
    vfs_sbs s' = vfs_sbs s /\
    (forall j d, vfs_dentries s !! j = Some d -> owned_by sb d ->
                 vfs_dentries s' !! j = Some empty_dentry) /\
    (forall j d, vfs_dentries s !! j = Some d -> ~ owned_by sb d ->
                 vfs_dentries s' !! j = Some d).
Proof.
  intros Hb Hflag Hlive Hnest Hop Hcb.
  eexists. split.
  { apply (vfs_sb_unmount_cb_fails B s sb b a b'); done. }
  simpl. split; [done|]. split; [done|]. split; [done|]. split.
  - intros j d Hd Hown.
    rewrite (unmounted_table_lookup sb _ j d Hd).
    assert (Ho : dentry_owned sb d = true) by (apply dentry_owned_spec; done).
    rewrite Ho. done.
  - intros j d Hd Hown.
    rewrite (unmounted_table_lookup sb _ j d Hd).
    destruct (dentry_owned sb d) eqn:Ho; [|done].
    exfalso. apply Hown. apply dentry_owned_spec. done.
Qed.

Lemma vfs_sb_unmount_cb_failure_witness :
  exists s',
    vfs_sb_unmount (example_backend true never (only fn_unmount)) 1
      marked_child = Done (-1) s' /\
    errno s' = E_IO /\
    sb_mem s' = sb_mem marked_child /\
    vfs_sbs s' = vfs_sbs marked_child /\
    (forall j d, vfs_dentries marked_child !! j = Some d -> owned_by 1 d ->
                 vfs_dentries s' !! j = Some empty_dentry) /\
    (forall j d, vfs_dentries marked_child !! j = Some d -> ~ owned_by 1 d ->
                 vfs_dentries s' !! j = Some d).
Proof.
  assert (Hb : is_Some (sb_mem marked_child !! 1%nat)).
  { vm_compute. eexists. reflexivity. }
  destruct Hb as [b Hb].
  assert (Hb' := Hb). vm_compute in Hb'. injection Hb' as Hb'. subst b.
  match type of Hb with
  | _ = Some ?b =>
      destruct (vfs_sb_unmount_cb_failure
                  (example_backend true never (only fn_unmount)) marked_child
                  1 b b fn_unmount Hb eq_refl)
        as (s' & Hrun & Herr & Hmem & Hsbs & Hown & Hother)
  end.
  - intros H. apply live_vnode_find in H. apply H. vm_compute. reflexivity.
  - intros H. apply nested_mount_existsb in H. vm_compute in H. discriminate.
  - reflexivity.
  - vm_compute. reflexivity.
  - exists s'. rewrite (insert_id _ _ _ Hb) in Hmem.
    split; [exact Hrun|]. split; [exact Herr|]. split; [exact Hmem|].
    split; [exact Hsbs|]. split; [exact Hown | exact Hother].
Defined.

(** ** The vnode cache *)

Lemma list_find_del_fst (cmp : nat -> bool) (l : list nat) :
  (list_find_del cmp l).1 = list_find cmp l.
Proof.
  induction l as [|q r IH]; simpl; [done|].
  destruct (cmp q); [done|].
  destruct (list_find_del cmp r) as [o r']. simpl in *. done.
Qed.

Lemma list_find_del_none (cmp : nat -> bool) (l : list nat) :
  list_find cmp l = None -> (list_find_del cmp l).2 = l.
Proof.
  induction l as [|q r IH]; simpl; [done|].
  destruct (cmp q); [done|]. intros H. specialize (IH H).
  destruct (list_find_del cmp r) as [o r']. simpl in *. congruence.
Qed.

Lemma list_find_del_some (cmp : nat -> bool) (l : list nat) (p : nat) :
  NoDup l -> list_find cmp l = Some p ->
  NoDup (list_find_del cmp l).2 /\
  forall q, q ∈ (list_find_del cmp l).2 <-> q ∈ l /\ q <> p.
Proof.
  induction l as [|x r IH]; simpl; [done|].
  intros Hnd Hf. apply NoDup_cons in Hnd as [Hx Hr].
  destruct (cmp x) eqn:Hc.
  - injection Hf as <-. simpl. split; [done|].
    intros q. rewrite elem_of_cons. split.
    + intros Hq. split; [right; done|]. intros ->. done.
    + intros [[-> | Hq] Hne]; done.
  - destruct (IH Hr Hf) as [Hnd' Hin].
    destruct (list_find_del cmp r) as [o r']. simpl in *.
    assert (Hxp : x <> p).
    { intros ->. apply list_find_some in Hf as [_ Hp]. congruence. }
    split.
    + apply NoDup_cons. split; [|done]. intros Hx'. apply Hin in Hx'.
      destruct Hx'. done.
    + intros q. rewrite !elem_of_cons, Hin. split.
      * intros [-> | [Hq Hne]]; auto.
      * intros [[-> | Hq] Hne]; auto.
Qed.

Lemma list_find_unique (cmp : nat -> bool) (l : list nat) (p : nat) :
  p ∈ l -> cmp p = true ->
  (forall q, q ∈ l -> cmp q = true -> q = p) ->
  list_find cmp l = Some p.
Proof.
  induction l as [|x r IH]; simpl; intros Hp Hc Hu.
  - apply elem_of_nil in Hp. done.
  - destruct (cmp x) eqn:Hx.
    + f_equal. apply Hu; [left | done].
    + apply IH; [|done|].
      * apply elem_of_cons in Hp as [-> | Hp]; [congruence | done].
      * intros q Hq. apply Hu. right. done.
Qed.


Lemma cache_inv_brk (m : gmap nat vfs_vnode) l k k' :
  cache_inv m l k -> (k <= k')%nat -> cache_inv m l k'.
Proof.
  intros [Hc Hd Hk Hn Hf] Hle. split; try done.
  intros q Hq. specialize (Hf q Hq). lia.
Qed.



Section VnodeCache.

Variable B : backend.

Lemma call_vnode_fn_spec f sbp p c s r s' :
  call_vnode_fn B f sbp p c s = Done r s' ->
  exists a b n,
    f = Some a /\ sb_mem s !! sbp = Some b /\ vn_mem s !! p = Some n /\
    r = (vnode_fn B a b n).1 /\
    s' = log_call c
           (with_vn_mem (<[p := (vnode_fn B a b n).2.2]> (vn_mem s))
              (with_sb_mem (<[sbp := (vnode_fn B a b n).2.1]> (sb_mem s)) s)).
Proof.
  unfold call_vnode_fn, load_sb, load_vnode, store_sb, store_vnode.
  vfs_unfold. intros H.
  destruct f as [a|]; simpl in H; [|done].
  destruct (sb_mem s !! sbp) as [b|] eqn:Hb; simpl in H; [|done].
  destruct (vn_mem s !! p) as [n|] eqn:Hn; simpl in H; [|done].
  destruct (vnode_fn B a b n) as [r0 [b' n']] eqn:Hcb.
  rewrite Hb in H. st_simpl. rewrite Hn in H.
  injection H as <- <-.
  exists a, b, n. rewrite Hcb. done.
Qed.

(** [vfs_vnode_dealloc] either frees the block, after unlinking it from
    the cache if it was there, or finds another vnode under the same key
    and fails. *)
Lemma vfs_vnode_dealloc_spec p s r s' :
  vfs_vnode_dealloc p s = Done r s' ->
  exists n, vn_mem s !! p = Some n /\
    let cmp := vfs_vnodes_cmp s (v_sb n) (v_no n) in
    let found := list_find cmp (vfs_vnodes s) in
    let l' := (list_find_del cmp (vfs_vnodes s)).2 in
    (r = 0 /\ (found = None \/ found = Some p) /\
     s' = with_vn_mem (delete p (vn_mem s)) (with_vnodes l' s)) \/
    (r = -1 /\ found <> None /\ found <> Some p /\
     s' = set_errno E_CORRUPT (with_vnodes l' s)).
Proof.
  unfold vfs_vnode_dealloc, load_vnode. vfs_unfold. intros H.
  destruct (vn_mem s !! p) as [n|] eqn:Hn; simpl in H; [|done].
  exists n. split; [done|]. simpl.
  rewrite <- list_find_del_fst.
  destruct (list_find_del (vfs_vnodes_cmp s (v_sb n) (v_no n)) (vfs_vnodes s))
    as [found l'] eqn:Hdel.
  simpl in *.
  destruct (bool_decide (found <> None) && bool_decide (found <> Some p))
    eqn:Hc; injection H as <- <-.
  - right. apply andb_true_iff in Hc as [H1 H2].
    apply bool_decide_eq_true in H1. apply bool_decide_eq_true in H2. done.
  - left. split; [done|]. split; [|done].
    apply andb_false_iff in Hc as [H1 | H1];
      apply bool_decide_eq_false in H1.
    + left. destruct found; [exfalso; apply H1; done | done].
    + right. destruct (decide (found = Some p)); [done|]. done.
Qed.

Lemma vfs_bind_inv {A C : Type} (m : vfs A) (f : A -> vfs C) s r s' :
  (m ≫= f) s = Done r s' ->
  exists a s1, m s = Done a s1 /\ f a s1 = Done r s'.
Proof.
  unfold mbind, vfs_bind. destruct (m s) as [a s1|]; [|done]. eauto.
Qed.

(** The two ways through [vfs_vnode_release]: the count stays at least 1,
    or the destroy callback is called, once, and the vnode is deallocated
    if the callback did not fail. *)
Lemma vfs_vnode_release_spec p s r s' :
  vfs_vnode_release B p s = Done r s' ->
  exists n, vn_mem s !! p = Some n /\
    let n1 := set_v_count (int_decr (v_count n)) n in
    (1 <= int_decr (v_count n) /\ r = 0 /\
     s' = with_vn_mem (<[p := n1]> (vn_mem s)) s) \/
    (int_decr (v_count n) < 1 /\
     exists sbp b a,
       v_sb n = Some sbp /\ sb_mem s !! sbp = Some b /\
       op_destroy_vnode (sb_ops b) = Some a /\
       let res := vnode_fn B a b n1 in
       let s2 := log_call (CallDestroyVnode sbp p)
                   (with_vn_mem (<[p := res.2.2]> (vn_mem s))
                      (with_sb_mem (<[sbp := res.2.1]> (sb_mem s)) s)) in
       (res.1 = -1 /\ r = -1 /\ s' = set_errno E_IO s2) \/
       (res.1 <> -1 /\ vfs_vnode_dealloc p s2 = Done r s')).
Proof.
  unfold vfs_vnode_release. intros H.
  apply vfs_bind_inv in H as (n & s1 & Hn & H).
  unfold load_vnode in Hn. vfs_unfold.
  destruct (vn_mem s !! p) as [n0|] eqn:Hp; simpl in Hn; [|done].
  injection Hn as -> <-. exists n. split; [done|]. simpl.
  unfold store_vnode, load_vnode in H. rewrite Hp in H. st_simpl.
  rewrite lookup_insert_eq in H. simpl in H.
  destruct (bool_decide (int_decr (v_count n) < 1)) eqn:Hlt.
  - apply bool_decide_eq_true in Hlt. right. split; [done|].
    destruct (v_sb n) as [sbp|] eqn:Hsb; simpl in H; [|done].
    unfold load_sb in H. simpl in H.
    destruct (sb_mem s !! sbp) as [b|] eqn:Hb; simpl in H; [|done].
    match type of H with
    | match ?c ?st with _ => _ end = _ =>
        destruct (c st) as [r1 s2|] eqn:Hcall; [|done]
    end.
    apply call_vnode_fn_spec in Hcall
      as (a & b0 & n2 & Hop & Hb0 & Hn2 & Hr1 & Hs2).
    st_simpl. rewrite Hb in Hb0. injection Hb0 as <-.
    rewrite lookup_insert_eq in Hn2. injection Hn2 as <-.
    rewrite insert_insert_eq in Hs2.
    exists sbp, b, a. split; [done|]. split; [done|]. split; [done|].
    unfold failed in H. subst r1 s2.
    destruct (bool_decide
                ((vnode_fn B a b (set_v_count (int_decr (v_count n)) n)).1
                           = -1)) eqn:Hf.
    + apply bool_decide_eq_true in Hf. left. injection H as <- <-. done.
    + apply bool_decide_eq_false in Hf. right. done.
  - apply bool_decide_eq_false in Hlt. left. injection H as <- <-.
    split; [lia|]. done.
Qed.

Hypothesis Hkeep : vnode_fn_keeps_identity B.






Lemma vfs_vnode_acquire_spec p s r s' :
  vfs_vnode_acquire p s = Done r s' ->
  exists n, vn_mem s !! p = Some n /\ r = 0 /\
    s' = with_vn_mem
           (<[p := set_v_count (int_incr (v_count n)) n]> (vn_mem s)) s.
Proof.
  unfold vfs_vnode_acquire, load_vnode, store_vnode. vfs_unfold.
  destruct (vn_mem s !! p) as [n|] eqn:Hp; simpl; [|done].
  rewrite Hp. intros [= <- <-]. eauto.
Qed.

(** Deallocation of a vnode that is not in the cache and whose key no
    cached vnode has: the block is freed and nothing else changes. *)
Lemma vfs_vnode_dealloc_uncached p s r s' m0 n k :
  cache_inv m0 (vfs_vnodes s) k ->
  vn_mem s = <[p := n]> m0 ->
  m0 !! p = None ->
  (forall q nq, q ∈ vfs_vnodes s -> m0 !! q = Some nq ->
                ~ (v_no nq = v_no n /\ v_sb nq = v_sb n)) ->
  vfs_vnode_dealloc p s = Done r s' ->
  vn_mem s' = m0 /\ vfs_vnodes s' = vfs_vnodes s /\ brk s' = brk s.
Proof.
  intros Hinv Hmem Hp Hmiss Hd.
  apply vfs_vnode_dealloc_spec in Hd as (n' & Hn' & Hd).
  rewrite Hmem, lookup_insert_eq in Hn'. injection Hn' as <-.
  simpl in Hd.
  assert (Hnone : list_find (vfs_vnodes_cmp s (v_sb n) (v_no n))
                    (vfs_vnodes s) = None).
  { apply list_find_none. intros q Hq.
    destruct (inv_cached _ _ _ Hinv q Hq) as (nq & Hnq & _).
    assert (p <> q) by (intros ->; congruence).
    unfold vfs_vnodes_cmp. rewrite Hmem, lookup_insert_ne by done.
    rewrite Hnq. apply andb_false_iff.
    destruct (decide (v_no nq = v_no n)) as [Hno|Hno].
    - right. apply bool_decide_eq_false. intros Hsb.
      apply (Hmiss q nq); done.
    - left. apply bool_decide_eq_false. done. }
  destruct Hd as [(_ & _ & ->) | (_ & Hfound & _)]; [|done].
  st_simpl. rewrite list_find_del_none by done.
  rewrite Hmem, delete_insert_eq, delete_id by done. done.
Qed.

(** Small inversions, in terms of what the vnode cache sees of a state:
    the blocks, the cache list and the allocation counter. *)
Lemma load_vnode_inv p s n s' :
  load_vnode p s = Done n s' -> vn_mem s !! p = Some n /\ s' = s.
Proof.
  unfold load_vnode. vfs_unfold.
  destruct (vn_mem s !! p); simpl; [|done]. intros [= -> ->]. done.
Qed.

Lemma load_sb_inv p s b s' :
  load_sb p s = Done b s' -> sb_mem s !! p = Some b /\ s' = s.
Proof.
  unfold load_sb. vfs_unfold.
  destruct (sb_mem s !! p); simpl; [|done]. intros [= -> ->]. done.
Qed.

Lemma deref_inv {A : Type} (o : option A) s a s' :
  deref o s = Done a s' -> o = Some a /\ s' = s.
Proof. destruct o; simpl; [|done]. intros [= -> ->]. done. Qed.

Lemma store_vnode_inv p n s r s' :
  store_vnode p n s = Done r s' ->
  vn_mem s' = <[p := n]> (vn_mem s) /\ vfs_vnodes s' = vfs_vnodes s /\
  brk s' = brk s /\ sb_mem s' = sb_mem s.
Proof.
  unfold store_vnode. destruct (vn_mem s !! p); [|done].
  intros [= _ <-]. done.
Qed.

Lemma call_vnode_fn_inv f sbp p c s r s' :
  call_vnode_fn B f sbp p c s = Done r s' ->
  exists a b n,
    sb_mem s !! sbp = Some b /\ vn_mem s !! p = Some n /\
    vn_mem s' = <[p := (vnode_fn B a b n).2.2]> (vn_mem s) /\
    vfs_vnodes s' = vfs_vnodes s /\ brk s' = brk s /\
    is_Some (sb_mem s' !! sbp).
Proof.
  intros H. apply call_vnode_fn_spec in H
    as (a & b & n & _ & Hb & Hn & _ & ->).
  exists a, b, n. split; [done|]. split; [done|].
  split; [done|]. split; [done|]. split; [done|].
  simpl. rewrite lookup_insert_eq. eauto.
Qed.

Lemma vfs_vnode_prealloc_inv sb s r s' :
  vfs_vnode_prealloc B sb s = Done r s' ->
  vfs_vnodes s' = vfs_vnodes s /\ brk s' = S (brk s) /\
  sb_mem s' = sb_mem s /\
  ((r = None /\ vn_mem s' = vn_mem s) \/
   (r = Some (brk s) /\
    exists n, vn_mem s' = <[brk s := n]> (vn_mem s) /\
              v_sb n = sb /\ v_count n = 0)).
Proof.
  unfold vfs_vnode_prealloc, kalloc. vfs_unfold.
  destruct (kalloc_ok B (brk s)); intros [= <- <-].
  - split; [done|]. split; [done|]. split; [done|]. right.
    split; [done|]. eexists. split; [reflexivity|]. done.
  - split; [done|]. split; [done|]. split; [done|]. left. done.
Qed.

Lemma vfs_vnode_alloc_inv p s r s' :
  vfs_vnode_alloc B p s = Done r s' ->
  vn_mem s' = vn_mem s /\ brk s' = S (brk s) /\ sb_mem s' = sb_mem s /\
  ((r = -1 /\ vfs_vnodes s' = vfs_vnodes s) \/
   (r = 0 /\ vfs_vnodes s' = vfs_vnodes s ++ [p])).
Proof.
  unfold vfs_vnode_alloc, list_add, kalloc. vfs_unfold.
  destruct (kalloc_ok B (brk s)); intros [= <- <-].
  - split; [done|]. split; [done|]. split; [done|]. right. done.
  - split; [done|]. split; [done|]. split; [done|]. left. done.
Qed.

Lemma vfs_vnode_acquire_inv p s r s' :
  vfs_vnode_acquire p s = Done r s' ->
  exists n, vn_mem s !! p = Some n /\
    vn_mem s' = <[p := set_v_count (int_incr (v_count n)) n]> (vn_mem s) /\
    vfs_vnodes s' = vfs_vnodes s /\ brk s' = brk s.
Proof.
  intros H. apply vfs_vnode_acquire_spec in H as (n & Hn & _ & ->).
  exists n. done.
Qed.


End VnodeCache.


Lemma example_keeps_identity (mark : bool) (oom bad : nat -> bool) :
  vnode_fn_keeps_identity (example_backend mark oom bad).
Proof.
  intros a b n. simpl. unfold example_vnode_fn.
  destruct (bad a); [done|].
  destruct (bool_decide (a = fn_read)); done.
Qed.



Lemma refcount_inv_rooted : refcount_inv rooted.
Proof.
  split.
  - intros p Hp. vm_compute in Hp. apply elem_of_nil in Hp. done.
  - intros p n Hp. exfalso. revert Hp.
    change (vn_mem rooted) with (∅ : gmap nat vfs_vnode).
    rewrite lookup_empty. done.
  - intros p q n n' Hp. vm_compute in Hp. apply elem_of_nil in Hp. done.
  - apply NoDup_nil. done.
  - intros p [n Hp]. exfalso. revert Hp.
    change (vn_mem rooted) with (∅ : gmap nat vfs_vnode).
    rewrite lookup_empty. done.
Qed.


(** * Further properties of the code *)

(** ** The dentry cache *)

(** The scan returns the first slot that holds the wanted dentry. *)
Lemma dentry_scan_first_match parent name (slots : list vfs_dentry) :
  forall i li lc k d,
    slots !! k = Some d -> matches parent name d ->
    (forall j e, (j < k)%nat -> slots !! j = Some e ->
                 ~ matches parent name e) ->
    dentry_scan parent name slots i li lc = Hit (i + k).
Proof.
  induction slots as [|e rest IH]; intros i li lc k d Hk Hm Hfirst; [done|].
  destruct k as [|k]; simpl in *.
  - injection Hk as ->. destruct Hm as [Hn Hp]. rewrite Hn.
    rewrite !bool_decide_eq_true_2 by done. simpl. f_equal. lia.
  - assert (He : ~ matches parent name e).
    { apply (Hfirst 0%nat); [lia | done]. }
    assert (Hrest : forall l c,
      dentry_scan parent name rest (S i) l c = Hit (i + S k)).
    { intros l c. replace (i + S k)%nat with (S i + k)%nat by lia.
      apply (IH (S i) l c k d); [done | done |].
      intros j e' Hj He'. apply (Hfirst (S j)); [lia | done]. }
    destruct (d_name e) as [n|] eqn:Hn; [|apply Hrest].
    destruct (bool_decide (d_parent e = parent) && bool_decide (n = name))
      eqn:Hmatch.
    { exfalso. apply He. apply andb_true_iff in Hmatch as [Hp Hnm].
      apply bool_decide_eq_true in Hp. apply bool_decide_eq_true in Hnm.
      split; congruence. }
    destruct (bool_decide (d_mnt_sb e <> None)); [apply Hrest|].
    destruct (bool_decide (li = None) || bool_decide (d_count e < lc));
      apply Hrest.
Qed.

(** No slot before a hit holds the wanted dentry. *)
Lemma dentry_scan_hit_first parent name (slots : list vfs_dentry) :
  forall i li lc k,
    dentry_scan parent name slots i li lc = Hit (i + k) ->
    forall j e, (j < k)%nat -> slots !! j = Some e ->
                ~ matches parent name e.
Proof.
  induction slots as [|e0 rest IH]; intros i li lc k Hscan j e Hj He;
    [done|].
  simpl in Hscan.
  assert (Hbound : forall l c,
    dentry_scan parent name rest (S i) l c = Hit (i + k) -> (0 < k)%nat).
  { intros l c Hs. destruct k; [|lia]. exfalso.
    replace (i + 0)%nat with i in Hs by lia.
    assert (G : forall (r : list vfs_dentry) a l' c',
      match dentry_scan parent name r a l' c' with
      | Hit h => (a <= h)%nat
      | Miss _ _ => True
      end).
    { induction r as [|x r IHr]; intros a l' c'; simpl; [done|].
      assert (Hn : forall l2 c2,
        match dentry_scan parent name r (S a) l2 c2 with
        | Hit h => (a <= h)%nat
        | Miss _ _ => True
        end).
      { intros l2 c2. specialize (IHr (S a) l2 c2).
        destruct (dentry_scan parent name r (S a) l2 c2); [lia | done]. }
      destruct (d_name x) as [n|]; [|apply Hn].
      destruct (bool_decide (d_parent x = parent) && bool_decide (n = name));
        [lia|].
      destruct (bool_decide (d_mnt_sb x <> None)); [apply Hn|].
      destruct (bool_decide (l' = None) || bool_decide (d_count x < c'));
        apply Hn. }
    specialize (G rest (S i) l c). rewrite Hs in G. lia. }
  assert (Hrest : forall l c,
    dentry_scan parent name rest (S i) l c = Hit (i + k) ->
    ~ matches parent name e0 -> ~ matches parent name e).
  { intros l c Hs He0.
    pose proof (Hbound l c Hs) as Hk.
    destruct j as [|j]; simpl in He.
    - injection He as <-. done.
    - replace (i + k)%nat with (S i + (k - 1))%nat in Hs by lia.
      apply (IH (S i) l c (k - 1)%nat Hs j e); [lia | done]. }
  destruct (d_name e0) as [n|] eqn:Hn.
  - destruct (bool_decide (d_parent e0 = parent) && bool_decide (n = name))
      eqn:Hmatch.
    + injection Hscan as Hik. lia.
    + assert (He0 : ~ matches parent name e0).
      { intros [Hn' Hp]. rewrite Hn in Hn'. injection Hn' as ->.
        rewrite !bool_decide_eq_true_2 in Hmatch by done. done. }
      destruct (bool_decide (d_mnt_sb e0 <> None)); [eauto|].
      destruct (bool_decide (li = None) || bool_decide (d_count e0 < lc));
        eauto.
  - assert (He0 : ~ matches parent name e0).
    { intros [Hn' _]. congruence. }
    eauto.
Qed.

Lemma dentry_scan_hit_at parent name (t : list vfs_dentry) i d :
  t !! i = Some d -> matches parent name d ->
  (forall j e, (j < i)%nat -> t !! j = Some e -> ~ matches parent name e) ->
  dentry_scan parent name t 0 None 0 = Hit i.
Proof.
  intros Hi Hm Hfirst.
  apply (dentry_scan_first_match parent name t 0 None 0 i d); done.
Qed.

(** X1.  A dentry that [vfs_dentry_get] has just returned is found again
    by the next call for the same parent and name: the call returns the
    same slot, increments its counter as a C [int] (one more, and
    [INT_MIN] after [INT_MAX]), and changes nothing else (no allocation,
    no eviction, whatever the allocator would answer). *)
Theorem vfs_dentry_get_again (B B' : backend) (parent : option nat)
    (name : string) (s s1 : vfs_state) (i : nat) :
  vfs_dentry_get B parent name s = Done (Some i) s1 ->
  exists d, vfs_dentries s1 !! i = Some d /\
    matches parent name d /\
    vfs_dentry_get B' parent name s1 =
      Done (Some i)
        (with_dentries
           (<[i := set_d_count (int_incr (d_count d)) d]>
              (vfs_dentries s1)) s1).
Proof.
  intros Hget.
  assert (Hscan1 : dentry_scan parent name (vfs_dentries s1) 0 None 0 = Hit i).
  { destruct (dentry_scan parent name (vfs_dentries s) 0 None 0)
      as [i0 | [v|] c] eqn:Hscan.
    - destruct (vfs_dentry_get_hit B parent name s i0 Hscan)
        as (d & Hd & Hn & Hp & Heq).
      rewrite Heq in Hget. injection Hget as -> <-. simpl.
      assert (Hlt : (i < length (vfs_dentries s))%nat)
        by (eapply lookup_lt_Some; done).
      apply (dentry_scan_hit_at parent name _ i
               (set_d_count (int_incr (d_count d)) d)).
      + apply list_lookup_insert_eq. done.
      + split; done.
      + intros j e Hj He. rewrite list_lookup_insert_ne in He by lia.
        apply (dentry_scan_hit_first parent name (vfs_dentries s) 0 None 0 i
                 Hscan j e); done.
    - destruct (kalloc_ok B (brk s)) eqn:Hok.
      + destruct (vfs_dentry_get_new B parent name s v c _ s1 Hscan Hok Hget)
          as ([= <-] & sb & Heq).
        rewrite Heq.
        assert (Hlt : (i < length (vfs_dentries s))%nat)
          by (eapply dentry_scan_victim_bound; done).
        apply (dentry_scan_hit_at parent name _ i
                 (mk_dentry (Some name) 0 parent 1 sb None)).
        * apply list_lookup_insert_eq. done.
        * split; done.
        * intros j e Hj He. rewrite list_lookup_insert_ne in He by lia.
          intros [Hn Hp].
          apply (dentry_scan_miss_no_match parent name (vfs_dentries s)
                   0 None 0 (Some i) c Hscan e).
          -- apply list_elem_of_lookup. eauto.
          -- done.
      + rewrite (vfs_dentry_get_oom B parent name s v c Hscan Hok) in Hget.
        discriminate.
    - rewrite (vfs_dentry_get_full B parent name s c Hscan) in Hget.
      discriminate. }
  destruct (vfs_dentry_get_hit B' parent name s1 i Hscan1)
    as (d & Hd & Hn & Hp & Heq).
  exists d. split; [done|]. split; [split; done | done].
Qed.

Lemma vfs_dentry_get_again_witness :
  let B := example_backend false never never in
  let s1 := with_brk 1%nat (with_dentries
              [mk_dentry (Some "a"%string) 5 None 3 None None;
               mk_dentry (Some "c"%string) 0 None 1 None None] two_slots) in
  exists d, vfs_dentries s1 !! 1%nat = Some d /\
    matches None "c" d /\
    vfs_dentry_get B None "c" s1 =
      Done (Some 1%nat)
        (with_dentries
           (<[1%nat := set_d_count (int_incr (d_count d)) d]>
              (vfs_dentries s1)) s1).
Proof.
  intros B s1.
  apply (vfs_dentry_get_again B B None "c" two_slots s1 1%nat).
  reflexivity.
Defined.

(** The state after [vfs_dentry_get] has created a dentry. *)
Lemma vfs_dentry_get_new_state (B : backend) (parent : option nat)
    (name : string) (s : vfs_state) (v : nat) (c : Z) :
  dentry_scan parent name (vfs_dentries s) 0 None 0 = Miss (Some v) c ->
  kalloc_ok B (brk s) = true ->
  vfs_dentry_get B parent name s =
    match parent with
    | None =>
        Done (Some v)
          (with_dentries
             (<[v := mk_dentry (Some name) 0 None 1 None None]>
                (vfs_dentries s)) (with_brk (S (brk s)) s))
    | Some p =>
        if decide (p = v) then
          Done (Some v)
            (with_dentries
               (<[v := mk_dentry (Some name) 0 (Some v) 1 None None]>
                  (vfs_dentries s)) (with_brk (S (brk s)) s))
        else
          match vfs_dentries s !! p with
          | Some pd =>
              Done (Some v)
                (with_dentries
                   (<[v := mk_dentry (Some name) 0 (Some p) 1
                             (inherited_sb pd) None]>
                      (vfs_dentries s)) (with_brk (S (brk s)) s))
          | None => Fault
          end
    end.
Proof.
  intros Hscan Hok.
  pose proof (dentry_scan_victim_bound _ _ _ _ _ Hscan) as Hv.
  unfold vfs_dentry_get, vfs_dentry_reset, kalloc. vfs_unfold.
  rewrite Hscan. rewrite store_dentry_ok by done. simpl.
  rewrite Hok.
  set (t := vfs_dentries s) in *.
  assert (Hl : forall (l : list vfs_dentry) x,
    length l = length t -> <[v := x]> l !! v = Some x).
  { intros l x Hlen. apply list_lookup_insert_eq. lia. }
  unfold load_dentry at 1. simpl. rewrite Hl by done. simpl.
  rewrite store_dentry_ok by (simpl; rewrite length_insert; done). simpl.
  rewrite list_insert_insert_eq.
  destruct parent as [p|].
  - unfold load_dentry at 1. simpl.
    destruct (decide (p = v)) as [->|Hne].
    + rewrite Hl by done. simpl.
      unfold load_dentry at 1. simpl. rewrite Hl by done. simpl.
      rewrite store_dentry_ok by (simpl; rewrite length_insert; done). simpl.
      rewrite list_insert_insert_eq.
      unfold load_dentry at 1. simpl. rewrite Hl by done. simpl.
      rewrite store_dentry_ok by (simpl; rewrite length_insert; done). simpl.
      rewrite list_insert_insert_eq. reflexivity.
    + rewrite list_lookup_insert_ne by done.
      destruct (t !! p) as [pd|] eqn:Hpd; simpl; [|done].
      unfold load_dentry at 1. simpl. rewrite Hl by done. simpl.
      unfold inherited_sb.
      destruct (d_mnt_sb pd) as [m|].
      * rewrite store_dentry_ok by (simpl; rewrite length_insert; done).
        simpl. rewrite list_insert_insert_eq.
        unfold load_dentry at 1. simpl. rewrite Hl by done. simpl.
        rewrite store_dentry_ok by (simpl; rewrite length_insert; done).
        simpl. rewrite list_insert_insert_eq. reflexivity.
      * rewrite store_dentry_ok by (simpl; rewrite length_insert; done).
        simpl. rewrite list_insert_insert_eq.
        unfold load_dentry at 1. simpl. rewrite Hl by done. simpl.
        rewrite store_dentry_ok by (simpl; rewrite length_insert; done).
        simpl. rewrite list_insert_insert_eq. reflexivity.
  - unfold load_dentry at 1. simpl. rewrite Hl by done. simpl.
    rewrite store_dentry_ok by (simpl; rewrite length_insert; done). simpl.
    rewrite list_insert_insert_eq.
    unfold load_dentry at 1. simpl. rewrite Hl by done. simpl.
    rewrite store_dentry_ok by (simpl; rewrite length_insert; done). simpl.
    rewrite list_insert_insert_eq. reflexivity.
Qed.

(** X2.  The dentry that [vfs_dentry_get] creates in the victim slot [v]:
    it has the wanted name and parent, vnode number 0, counter 1 and is no
    mount point.  Its superblock is [NULL] for a dentry without parent;
    otherwise it is the superblock mounted on the parent, or else the
    superblock of the parent, read from the parent slot as it is after the
    reset of the victim: when the victim is the parent slot itself, the
    new dentry is its own parent and has no superblock.  A parent pointer
    outside the table is a fault. *)
Theorem vfs_dentry_get_creates (B : backend) (parent : option nat)
    (name : string) (s : vfs_state) (v : nat) (c : Z) :
  dentry_scan parent name (vfs_dentries s) 0 None 0 = Miss (Some v) c ->
  kalloc_ok B (brk s) = true ->
  vfs_dentry_get B parent name s =
    match parent with
    | None =>
        Done (Some v)
          (with_dentries
             (<[v := mk_dentry (Some name) 0 None 1 None None]>
                (vfs_dentries s)) (with_brk (S (brk s)) s))
    | Some p =>
        if decide (p = v) then
          Done (Some v)
            (with_dentries
               (<[v := mk_dentry (Some name) 0 (Some v) 1 None None]>
                  (vfs_dentries s)) (with_brk (S (brk s)) s))
        else
          match vfs_dentries s !! p with
          | Some pd =>
              Done (Some v)
                (with_dentries
                   (<[v := mk_dentry (Some name) 0 (Some p) 1
                             (inherited_sb pd) None]>
                      (vfs_dentries s)) (with_brk (S (brk s)) s))
          | None => Fault
          end
    end.
Proof. apply vfs_dentry_get_new_state. Qed.

Lemma vfs_dentry_get_creates_witness :
  vfs_dentry_get (example_backend true never never) (Some 99%nat) "etc" marked
  = Done (Some 98%nat)
      (with_dentries
         (<[98%nat := mk_dentry (Some "etc"%string) 0 (Some 99%nat) 1
                        (Some 1%nat) None]> (vfs_dentries marked))
         (with_brk (S (brk marked)) marked)).
Proof.
  assert (H := vfs_dentry_get_creates (example_backend true never never)
                 (Some 99%nat) "etc" marked 98 0).
  assert (Hp : vfs_dentries marked !! 99%nat
               = Some (mk_dentry (Some "/"%string) 0 None 1 None
                         (Some 1%nat))).
  { vm_compute. reflexivity. }
  cbv beta iota in H.
  destruct (decide (99%nat = 98%nat)) as [E|_]; [discriminate E|].
  rewrite Hp in H. apply H.
  - vm_compute. reflexivity.
  - reflexivity.
Defined.

Lemma dentry_scan_all_pinned parent name (slots : list vfs_dentry) :
  forall i li lc,
    (forall d, d ∈ slots ->
               occupied d /\ mountpoint d /\ ~ matches parent name d) ->
    dentry_scan parent name slots i li lc = Miss li lc.
Proof.
  induction slots as [|d rest IH]; intros i li lc Hall; simpl; [done|].
  destruct (Hall d) as (Ho & Hm & Hn); [left|].
  assert (Hrest : dentry_scan parent name rest (S i) li lc = Miss li lc).
  { apply IH. intros e He. apply Hall. right. done. }
  destruct (d_name d) as [n|] eqn:Hname; [|exfalso; apply Ho; done].
  destruct (bool_decide (d_parent d = parent) && bool_decide (n = name))
    eqn:Hmatch.
  { exfalso. apply Hn. apply andb_true_iff in Hmatch as [Hp Hnm].
    apply bool_decide_eq_true in Hp. apply bool_decide_eq_true in Hnm.
    split; congruence. }
  rewrite bool_decide_eq_true_2 by done. done.
Qed.

Lemma dentry_scan_candidate_stays parent name (slots : list vfs_dentry) :
  forall i u lc c, dentry_scan parent name slots i (Some u) lc <> Miss None c.
Proof.
  induction slots as [|d rest IH]; intros i u lc c; simpl; [done|].
  destruct (d_name d) as [n|]; [|apply IH].
  destruct (bool_decide (d_parent d = parent) && bool_decide (n = name));
    [done|].
  destruct (bool_decide (d_mnt_sb d <> None)); [apply IH|].
  simpl. destruct (bool_decide (d_count d < lc)); apply IH.
Qed.

Lemma dentry_scan_none_pinned parent name (slots : list vfs_dentry) :
  forall i lc c,
    dentry_scan parent name slots i None lc = Miss None c ->
    forall d, d ∈ slots -> occupied d /\ mountpoint d.
Proof.
  induction slots as [|e rest IH]; intros i lc c Hscan d Hd.
  - apply elem_of_nil in Hd. done.
  - simpl in Hscan.
    destruct (d_name e) as [n|] eqn:Hn.
    + destruct (bool_decide (d_parent e = parent) && bool_decide (n = name));
        [done|].
      destruct (bool_decide (d_mnt_sb e <> None)) eqn:Hm.
      * apply bool_decide_eq_true in Hm.
        apply elem_of_cons in Hd as [-> | Hd].
        -- split; [unfold occupied; congruence | done].
        -- eapply IH; done.
      * simpl in Hscan. exfalso.
        eapply dentry_scan_candidate_stays. done.
    + exfalso. eapply dentry_scan_candidate_stays. done.
Qed.

(** X3.  [vfs_dentry_get] fails with [E_LIMIT], changing nothing but
    errno, exactly when every slot of the table holds a mount point and
    none of them is the wanted dentry. *)
Theorem vfs_dentry_get_limit (B : backend) (parent : option nat)
    (name : string) (s : vfs_state) :
  vfs_dentry_get B parent name s = Done None (set_errno E_LIMIT s) <->
  (forall d, d ∈ vfs_dentries s ->
             occupied d /\ mountpoint d /\ ~ matches parent name d).
Proof.
  split.
  - intros Hget d Hd.
    destruct (dentry_scan parent name (vfs_dentries s) 0 None 0)
      as [i | [v|] c] eqn:Hscan.
    + destruct (vfs_dentry_get_hit B parent name s i Hscan)
        as (e & _ & _ & _ & Heq).
      rewrite Heq in Hget. discriminate.
    + destruct (kalloc_ok B (brk s)) eqn:Hok.
      * destruct (vfs_dentry_get_new B parent name s v c _ _ Hscan Hok Hget)
          as [Hr _]. discriminate.
      * rewrite (vfs_dentry_get_oom B parent name s v c Hscan Hok) in Hget.
        apply (f_equal (fun o => errno (state_of o s))) in Hget.
        simpl in Hget. discriminate.
    + destruct (dentry_scan_none_pinned parent name _ 0 0 c Hscan d Hd)
        as [Ho Hm].
      split; [done|]. split; [done|].
      apply (dentry_scan_miss_no_match parent name _ 0 None 0 None c Hscan).
      done.
  - intros Hall.
    apply (vfs_dentry_get_full B parent name s 0).
    apply dentry_scan_all_pinned. done.
Qed.

Lemma unmounted_table_elem sb (t : list vfs_dentry) d :
  d ∈ map (fun d => if dentry_owned sb d then empty_dentry else d) t ->
  dentry_owned sb d = false.
Proof.
  induction t as [|e t IH]; simpl; intros Hd.
  - apply elem_of_nil in Hd. done.
  - apply elem_of_cons in Hd as [-> | Hd]; [|auto].
    destruct (dentry_owned sb e) eqn:He; done.
Qed.

Lemma unmounted_table_fixed sb (t : list vfs_dentry) :
  (forall d, d ∈ t -> dentry_owned sb d = false) ->
  map (fun d => if dentry_owned sb d then empty_dentry else d) t = t.
Proof.
  induction t as [|e t IH]; simpl; intros Hall; [done|].
  rewrite (Hall e) by left. f_equal. apply IH.
  intros d Hd. apply Hall. right. done.
Qed.

(** X4.  [vfs_dentry_unmount_sb] either finds a named mount point that
    belongs to the superblock, returns -1 and changes nothing; or returns
    0 after emptying exactly the named slots of the superblock: every
    other slot is as before, no dentry of the superblock is left, and a
    second call returns 0 and changes nothing. *)
Theorem vfs_dentry_unmount_sb_effect (s : vfs_state) (sb : nat) :
  (nested_mount s sb /\ vfs_dentry_unmount_sb sb s = Done (-1) s) \/
  (~ nested_mount s sb /\
   exists s',
     vfs_dentry_unmount_sb sb s = Done 0 s' /\
     (forall j d, vfs_dentries s !! j = Some d -> owned_by sb d ->
                  vfs_dentries s' !! j = Some empty_dentry) /\
     (forall j d, vfs_dentries s !! j = Some d -> ~ owned_by sb d ->
                  vfs_dentries s' !! j = Some d) /\
     (forall d, d ∈ vfs_dentries s' -> ~ owned_by sb d) /\
     vfs_dentry_unmount_sb sb s' = Done 0 s').
Proof.
  destruct (existsb (dentry_pins sb) (vfs_dentries s)) eqn:Hpin.
  - left. apply nested_mount_existsb in Hpin. split; [done|].
    apply vfs_dentry_unmount_sb_busy. done.
  - right.
    assert (Hno : ~ nested_mount s sb).
    { intros H. apply nested_mount_existsb in H. congruence. }
    split; [done|]. eexists. split.
    { apply vfs_dentry_unmount_sb_free. done. }
    simpl. split; [|split; [|split]].
    + intros j d Hd Hown. rewrite (unmounted_table_lookup sb _ j d Hd).
      apply dentry_owned_spec in Hown. rewrite Hown. done.
    + intros j d Hd Hown. rewrite (unmounted_table_lookup sb _ j d Hd).
      destruct (dentry_owned sb d) eqn:Ho; [|done].
      exfalso. apply Hown. apply dentry_owned_spec. done.
    + intros d Hd Hown. apply unmounted_table_elem in Hd.
      apply dentry_owned_spec in Hown. congruence.
    + unfold vfs_dentry_unmount_sb. simpl.
      assert (Hex : existsb (dentry_pins sb)
                (map (fun d => if dentry_owned sb d then empty_dentry else d)
                     (vfs_dentries s)) = false).
      { apply not_true_is_false. intros E.
        apply existsb_exists in E as (d & Hd & Hp).
        apply list_elem_of_In in Hd. apply unmounted_table_elem in Hd.
        apply dentry_pins_spec in Hp as (Ho & _ & Hsb).
        assert (dentry_owned sb d = true)
          by (apply dentry_owned_spec; split; done).
        congruence. }
      rewrite Hex. unfold with_dentries. simpl.
      rewrite unmounted_table_fixed; [done|].
      intros d Hd. eapply unmounted_table_elem. done.
Qed.

Lemma dentries_unique_update (t : list vfs_dentry) i d d' :
  dentries_unique t -> t !! i = Some d ->
  d_name d' = d_name d -> d_parent d' = d_parent d ->
  dentries_unique (<[i := d']> t).
Proof.
  intros Hu Hi Hn Hp.
  assert (G : forall k x, <[i := d']> t !! k = Some x ->
    exists y, t !! k = Some y /\ d_name y = d_name x /\
              d_parent y = d_parent x).
  { intros k x Hk. destruct (decide (i = k)) as [->|Hne].
    - rewrite list_lookup_insert_eq in Hk by (eapply lookup_lt_Some; done).
      injection Hk as <-. eauto.
    - rewrite list_lookup_insert_ne in Hk by done. eauto. }
  intros i1 j1 d1 e1 H1 H2 Ho Hnm Hpa.
  destruct (G _ _ H1) as (y1 & Hy1 & En1 & Ep1).
  destruct (G _ _ H2) as (y2 & Hy2 & En2 & Ep2).
  apply (Hu i1 j1 y1 y2); try done; unfold occupied in *; congruence.
Qed.

Lemma dentries_unique_replace (t : list vfs_dentry) v d' :
  dentries_unique t ->
  (occupied d' -> forall e, e ∈ t ->
     ~ (d_name e = d_name d' /\ d_parent e = d_parent d')) ->
  dentries_unique (<[v := d']> t).
Proof.
  intros Hu Hnew i1 j1 d1 e1 H1 H2 Ho Hnm Hpa.
  destruct (decide (v < length t)%nat) as [Hlt|Hge].
  - destruct (decide (i1 = v)) as [Ei|Hi];
      destruct (decide (j1 = v)) as [Ej|Hj].
    + congruence.
    + subst i1. rewrite list_lookup_insert_eq in H1 by done.
      injection H1 as <-.
      rewrite list_lookup_insert_ne in H2 by done.
      exfalso. apply (Hnew Ho e1); [|split; done].
      apply list_elem_of_lookup. eauto.
    + subst j1. rewrite list_lookup_insert_eq in H2 by done.
      injection H2 as <-.
      rewrite list_lookup_insert_ne in H1 by done.
      assert (Ho' : occupied d') by (unfold occupied in *; congruence).
      exfalso. apply (Hnew Ho' d1); [|split; done].
      apply list_elem_of_lookup. eauto.
    + rewrite list_lookup_insert_ne in H1 by done.
      rewrite list_lookup_insert_ne in H2 by done. eauto.
  - rewrite list_insert_ge in H1, H2 by lia. eauto.
Qed.

(** X5.  [vfs_dentry_get] keeps the dentries of the table distinct: if no
    two named slots hold the same parent and name before a call, none do
    after it. *)
Theorem vfs_dentry_get_unique (B : backend) (parent : option nat)
    (name : string) (s : vfs_state) (r : option nat) (s' : vfs_state) :
  dentries_unique (vfs_dentries s) ->
  vfs_dentry_get B parent name s = Done r s' ->
  dentries_unique (vfs_dentries s').
Proof.
  intros Hu Hget.
  destruct (vfs_dentry_get_table B parent name s r s' Hget)
    as [(i & d & _ & Hd & ->) | [(c & _ & ->) |
        (v & c & d & Hscan & Hd & ->)]].
  - apply (dentries_unique_update _ i d); done.
  - done.
  - apply dentries_unique_replace; [done|].
    intros Ho e He [Hn Hp].
    destruct Hd as [-> | (sb & ->)]; [apply Ho; done|]. simpl in *.
    apply (dentry_scan_miss_no_match parent name _ 0 None 0 (Some v) c
             Hscan e He). done.
Qed.

Lemma vfs_dentry_get_unique_witness :
  dentries_unique
    [mk_dentry (Some "a"%string) 5 None 3 None None;
     mk_dentry (Some "c"%string) 0 None 1 None None].
Proof.
  apply (vfs_dentry_get_unique (example_backend false never never) None "c"
           two_slots (Some 1%nat)
           (with_brk 1%nat (with_dentries
              [mk_dentry (Some "a"%string) 5 None 3 None None;
               mk_dentry (Some "c"%string) 0 None 1 None None] two_slots))).
  - intros i j d e Hi Hj _ Hn _.
    destruct i as [|[|i]]; destruct j as [|[|j]]; simpl in *;
      try done; try (injection Hi as <-; injection Hj as <-; done).
  - reflexivity.
Defined.




(** ** The superblock registry *)

Lemma vfs_sb_lookup_none (s : vfs_state) (devid : Z) :
  vfs_sb_lookup devid s = Done None s <->
  (forall p b, p ∈ vfs_sbs s -> sb_mem s !! p = Some b ->
               sb_devid b <> devid).
Proof.
  unfold vfs_sb_lookup. vfs_unfold. split.
  - intros H p b Hp Hb Hd.
    destruct (list_find (vfs_sb_cmp s devid) (vfs_sbs s)) eqn:Hf; [done|].
    rewrite list_find_none in Hf. specialize (Hf p Hp).
    unfold vfs_sb_cmp in Hf. rewrite Hb in Hf.
    apply bool_decide_eq_false in Hf. done.
  - intros H.
    destruct (list_find (vfs_sb_cmp s devid) (vfs_sbs s)) as [p|] eqn:Hf;
      [|done].
    exfalso. apply list_find_some in Hf as [Hp Hc].
    unfold vfs_sb_cmp in Hc.
    destruct (sb_mem s !! p) as [b|] eqn:Hb; [|done].
    apply bool_decide_eq_true in Hc. apply (H p b); done.
Qed.

(** The three ways out of [vfs_sb_alloc]. *)
Lemma vfs_sb_alloc_spec (B : backend) (devid : Z) (s : vfs_state) :
  vfs_sb_alloc B devid s =
    if kalloc_ok B (brk s) then
      if kalloc_ok B (S (brk s)) then
        Done (Some (brk s))
          (with_sb_mem (<[brk s := blank_sb B (brk s) devid]> (sb_mem s))
             (with_sbs (vfs_sbs s ++ [brk s])
                (with_brk (S (S (brk s))) s)))
      else Done None (with_brk (S (S (brk s))) s)
    else Done None (with_brk (S (brk s)) s).
Proof.
  unfold vfs_sb_alloc, list_add, kalloc. vfs_unfold.
  destruct (kalloc_ok B (brk s)); [|done]. simpl.
  destruct (kalloc_ok B (S (brk s))); done.
Qed.




Lemma sb_registry_ok_remove (s s' : vfs_state) (p : nat) :
  sb_registry_ok s ->
  sb_mem s' = delete p (sb_mem s) ->
  NoDup (vfs_sbs s') ->
  (forall q, q ∈ vfs_sbs s' <-> q ∈ vfs_sbs s /\ q <> p) ->
  brk s' = brk s ->
  sb_registry_ok s'.
Proof.
  intros [Hnd Hmem Hdev Hfresh] Hm Hnd' Hl Hk. split.
  - done.
  - intros q. rewrite Hl, Hm. destruct (decide (p = q)) as [->|Hne].
    + rewrite lookup_delete_eq. split; [intros [_ H]; done|].
      intros [x Hx]. done.
    + rewrite lookup_delete_ne by done. rewrite Hmem.
      split; [intros [H _]; done | intros H; split; [done | congruence]].
  - intros q1 q2 b1 b2. rewrite Hm. intros H1 H2.
    destruct (decide (p = q1)) as [->|Hn1];
      [rewrite lookup_delete_eq in H1; done|].
    destruct (decide (p = q2)) as [->|Hn2];
      [rewrite lookup_delete_eq in H2; done|].
    rewrite lookup_delete_ne in H1 by done.
    rewrite lookup_delete_ne in H2 by done. eauto.
  - intros q. rewrite Hm, Hk. intros Hq. apply Hfresh.
    destruct (decide (p = q)) as [->|Hne].
    + rewrite lookup_delete_eq in Hq. destruct Hq. done.
    + rewrite lookup_delete_ne in Hq by done. done.
Qed.

(** X8.  [vfs_sb_dealloc] of a registered superblock that is linked to
    its filesystem type, on a consistent registry and with a release
    callback that leaves the device id alone.  If the callback fails, the
    function returns -1 with errno [E_IO] and the superblock, as the
    callback left it, stays registered.  Otherwise (also when the type
    has no release callback) it returns 0, the superblock is unlinked and
    freed, the other superblocks stay registered, [vfs_sb_lookup] no
    longer finds the device, and the registry is still consistent. *)
Theorem vfs_sb_dealloc_effect (B : backend) (p : nat) (s : vfs_state)
    (b : vfs_sb) (ti : nat) (t : vfs_fs_type) :
  sb_registry_ok s ->
  sb_mem s !! p = Some b ->
  sb_fs_type b = Some ti ->
  vfs_fs_types s !! ti = Some t ->
  sb_devid (match ft_kill_sb t with
            | Some a => sb_fn B a b
            | None => (0, b)
            end).2 = sb_devid b ->
  let res := match ft_kill_sb t with
             | Some a => sb_fn B a b
             | None => (0, b)
             end in
  exists s',
    vfs_sb_dealloc B p s = Done (if failed res.1 then -1 else 0) s' /\
    (res.1 = -1 ->
     errno s' = E_IO /\ vfs_sbs s' = vfs_sbs s /\
     sb_mem s' = <[p := res.2]> (sb_mem s)) /\
    (res.1 <> -1 ->
     sb_registry_ok s' /\
     sb_mem s' = delete p (sb_mem s) /\
     (forall q, q ∈ vfs_sbs s' <-> q ∈ vfs_sbs s /\ q <> p) /\
     vfs_sb_lookup (sb_devid b) s' = Done None s' /\
     errno s' = errno s).
Proof.
  intros Hok Hb Hti Ht Hdev res.
  assert (Hpin : p ∈ vfs_sbs s) by (apply (reg_mem s Hok); eauto).
  (* the state after the release callback, whatever it returned *)
  assert (Hcall : exists s1,
    (match ft_kill_sb t with
     | Some _ => call_sb_fn B (ft_kill_sb t) p (CallKillSb p)
     | None => mret 0
     end) s = Done res.1 s1 /\
    sb_mem s1 = <[p := res.2]> (sb_mem s) /\
    vfs_sbs s1 = vfs_sbs s /\ brk s1 = brk s /\ errno s1 = errno s).
  { subst res. destruct (ft_kill_sb t) as [a|] eqn:Hk.
    - unfold call_sb_fn, load_sb, store_sb. vfs_unfold. simpl.
      rewrite Hb. simpl.
      destruct (sb_fn B a b) as [r b'] eqn:Hcb. rewrite Hb. simpl.
      eexists. split; [reflexivity|]. done.
    - eexists. split; [reflexivity|]. simpl.
      rewrite insert_id by done. done. }
  destruct Hcall as (s1 & Hrun & Hm1 & Hl1 & Hk1 & He1).
  unfold vfs_sb_dealloc, load_sb, load_fs_type. vfs_unfold.
  rewrite Hb. simpl. rewrite Hti. simpl. rewrite Ht. simpl.
  rewrite Hrun.
  destruct (failed res.1) eqn:Hf.
  - eexists. split; [reflexivity|]. split.
    + intros _. simpl. done.
    + intros Hne. unfold failed in Hf. apply bool_decide_eq_true in Hf. done.
  - assert (Hp1 : sb_mem s1 !! p = Some res.2).
    { rewrite Hm1. apply lookup_insert_eq. }
    rewrite Hp1. simpl.
    eexists. split; [reflexivity|]. split.
    + intros Hr. unfold failed in Hf. apply bool_decide_eq_false in Hf. done.
    + intros _.
      assert (Hfind : list_find (vfs_sb_cmp s1 (sb_devid res.2)) (vfs_sbs s1)
                      = Some p).
      { apply list_find_unique.
        - rewrite Hl1. done.
        - unfold vfs_sb_cmp. rewrite Hp1. apply bool_decide_eq_true. done.
        - intros q Hq Hc. unfold vfs_sb_cmp in Hc.
          destruct (decide (p = q)) as [->|Hne]; [done|].
          rewrite Hm1, lookup_insert_ne in Hc by done.
          destruct (sb_mem s !! q) as [c|] eqn:Hc'; [|done].
          apply bool_decide_eq_true in Hc.
          symmetry. apply (reg_devid s Hok p q b c); try done.
          fold res in Hdev. congruence. }
      assert (Hnd1 : NoDup (vfs_sbs s1)).
      { rewrite Hl1. apply (reg_nodup s Hok). }
      destruct (list_find_del_some _ _ _ Hnd1 Hfind) as [Hnd' Hin0].
      assert (Hin' : forall q,
        q ∈ (list_find_del (vfs_sb_cmp s1 (sb_devid res.2)) (vfs_sbs s1)).2
        <-> q ∈ vfs_sbs s /\ q <> p).
      { intros q. rewrite Hin0, Hl1. done. }
      assert (Hm' : delete p (sb_mem s1) = delete p (sb_mem s)).
      { rewrite Hm1. apply delete_insert_eq. }
      assert (Hok' : sb_registry_ok
        (with_sb_mem (delete p (sb_mem s1))
           (with_sbs (list_find_del (vfs_sb_cmp s1 (sb_devid res.2))
                        (vfs_sbs s1)).2 s1))).
      { apply (sb_registry_ok_remove s _ p); simpl; try done. }
      split; [exact Hok'|]. simpl. split; [done|]. split; [done|].
      split; [|done].
      apply vfs_sb_lookup_none. simpl. intros q c Hq Hc Hd.
      apply Hin' in Hq as [Hq Hne].
      rewrite Hm', lookup_delete_ne in Hc by done.
      apply Hne. symmetry. apply (reg_devid s Hok p q b c); done.
Qed.

Lemma sb_registry_ok_single (s : vfs_state) (p : nat) (b : vfs_sb) :
  vfs_sbs s = [p] -> sb_mem s = {[p := b]} -> (p < brk s)%nat ->
  sb_registry_ok s.
Proof.
  intros Hl Hm Hk. split.
  - rewrite Hl. apply NoDup_singleton.
  - intros q. rewrite Hl, Hm, list_elem_of_singleton. split.
    + intros ->. rewrite lookup_singleton_eq. eauto.
    + intros [x Hx]. apply lookup_singleton_Some in Hx as [-> _]. done.
  - intros q1 q2 b1 b2. rewrite Hm. intros H1 H2 _.
    apply lookup_singleton_Some in H1 as [<- _].
    apply lookup_singleton_Some in H2 as [<- _]. done.
  - intros q [x Hx]. rewrite Hm in Hx.
    apply lookup_singleton_Some in Hx as [<- _]. done.
Qed.

Lemma vfs_sb_dealloc_effect_witness :
  let B := example_backend false never never in
  exists s',
    vfs_sb_dealloc B 0 one_sb = Done 0 s' /\
    (0 = -1 ->
     errno s' = E_IO /\ vfs_sbs s' = vfs_sbs one_sb /\
     sb_mem s' = <[0%nat := set_sb_private (sb_ops probed_sb) 1 0 probed_sb]>
                   (sb_mem one_sb)) /\
    (0 <> -1 ->
     sb_registry_ok s' /\
     sb_mem s' = delete 0%nat (sb_mem one_sb) /\
     (forall q, q ∈ vfs_sbs s' <-> q ∈ vfs_sbs one_sb /\ q <> 0%nat) /\
     vfs_sb_lookup 5 s' = Done None s' /\
     errno s' = errno one_sb).
Proof.
  intros B.
  apply (vfs_sb_dealloc_effect B 0 one_sb probed_sb 0
           (mk_fs_type "rootfs" (Some fn_probe) (Some fn_kill))).
  - apply (sb_registry_ok_single one_sb 0 probed_sb); [done | done |].
    simpl. lia.
  - reflexivity.
  - reflexivity.
  - reflexivity.
  - reflexivity.
Defined.

(** ** The vnode cache, continued *)

Section VnodeEffects.

Variable B : backend.
Hypothesis Hkeep : vnode_fn_keeps_identity B.

Lemma store_vnode_trace p n s r s' :
  store_vnode p n s = Done r s' -> trace s' = trace s.
Proof.
  unfold store_vnode. destruct (vn_mem s !! p); [|done].
  intros [= _ <-]. done.
Qed.

Lemma call_vnode_fn_trace f sbp p c s r s' :
  call_vnode_fn B f sbp p c s = Done r s' -> trace s' = trace s ++ [c].
Proof.
  intros H. apply call_vnode_fn_spec in H
    as (a & b & n & _ & _ & _ & _ & ->). done.
Qed.

Lemma vfs_vnode_prealloc_trace sb s r s' :
  vfs_vnode_prealloc B sb s = Done r s' -> trace s' = trace s.
Proof.
  unfold vfs_vnode_prealloc, kalloc. vfs_unfold.
  destruct (kalloc_ok B (brk s)); intros [= <- <-]; done.
Qed.

Lemma vfs_vnode_alloc_trace p s r s' :
  vfs_vnode_alloc B p s = Done r s' -> trace s' = trace s.
Proof.
  unfold vfs_vnode_alloc, list_add, kalloc. vfs_unfold.
  destruct (kalloc_ok B (brk s)); intros [= <- <-]; done.
Qed.

Lemma vfs_vnode_acquire_trace p s r s' :
  vfs_vnode_acquire p s = Done r s' -> trace s' = trace s.
Proof.
  intros H. apply vfs_vnode_acquire_spec in H as (n & _ & _ & ->). done.
Qed.

Lemma vfs_vnode_dealloc_trace p s r s' :
  vfs_vnode_dealloc p s = Done r s' -> trace s' = trace s.
Proof.
  intros H. apply vfs_vnode_dealloc_spec in H as (n & _ & H). simpl in H.
  destruct H as [(_ & _ & ->) | (_ & _ & _ & ->)]; done.
Qed.

(** The cases of [vfs_vnode_get_or_read]. *)
Lemma vfs_vnode_get_or_read_cases sb vno s r s' :
  refcount_inv s ->
  vfs_vnode_get_or_read B sb vno s = Done r s' ->
  (r = None -> vn_mem s' = vn_mem s /\ vfs_vnodes s' = vfs_vnodes s) /\
  (forall p, r = Some p ->
     p ∈ vfs_vnodes s' /\
     exists n, vn_mem s' = <[p := n]> (vn_mem s) /\
       v_no n = vno /\ v_sb n = sb /\
       ((exists n0, vn_mem s !! p = Some n0 /\
                    n = set_v_count (int_incr (v_count n0)) n0 /\
                    vfs_vnodes s' = vfs_vnodes s /\ trace s' = trace s) \/
        (vn_mem s !! p = None /\ v_count n = 1 /\
         vfs_vnodes s' = vfs_vnodes s ++ [p] /\
         exists sbp, sb = Some sbp /\
                     trace s' = trace s ++ [CallReadVnode sbp p]))).
Proof.
  intros Hinv H. unfold vfs_vnode_get_or_read in H.
  apply vfs_bind_inv in H as (hit & s0 & Hlook & H).
  unfold vfs_vnode_lookup in Hlook. vfs_unfold.
  injection Hlook as <- <-.
  destruct (list_find (vfs_vnodes_cmp s sb vno) (vfs_vnodes s)) as [p|]
    eqn:Hfind.
  - (* the vnode is cached *)
    apply vfs_bind_inv in H as (r0 & s1 & Hacq & H).
    injection H as <- <-.
    pose proof (vfs_vnode_acquire_trace _ _ _ _ Hacq) as Ht.
    apply vfs_vnode_acquire_inv in Hacq as (n & Hn & Hm & Hl & Hk).
    apply list_find_some in Hfind as [Hin Hc].
    unfold vfs_vnodes_cmp in Hc. rewrite Hn in Hc.
    apply andb_true_iff in Hc as [Hno Hsb].
    apply bool_decide_eq_true in Hno. apply bool_decide_eq_true in Hsb.
    split; [done|]. intros q [= <-]. rewrite Hl. split; [done|].
    exists (set_v_count (int_incr (v_count n)) n).
    split; [done|]. split; [done|]. split; [done|].
    left. exists n. done.
  - (* the vnode is read from the superblock *)
    assert (Hfresh : vn_mem s !! brk s = None).
    { destruct (vn_mem s !! brk s) eqn:E; [|done].
      pose proof (inv_fresh _ _ _ Hinv (brk s) (mk_is_Some _ _ E)). lia. }
    assert (Hmiss : forall n', v_no n' = vno -> v_sb n' = sb ->
      forall q nq, q ∈ vfs_vnodes s -> vn_mem s !! q = Some nq ->
                   ~ (v_no nq = v_no n' /\ v_sb nq = v_sb n')).
    { intros n' E1 E2 q nq Hq Hnq [Hno Hsb]. rewrite list_find_none in Hfind.
      specialize (Hfind q Hq). unfold vfs_vnodes_cmp in Hfind.
      rewrite Hnq in Hfind.
      rewrite !bool_decide_eq_true_2 in Hfind; [done | congruence..]. }
    assert (Hbase : forall k, (brk s <= k)%nat ->
              cache_inv (vn_mem s) (vfs_vnodes s) k).
    { intros k Hk. apply (cache_inv_brk _ _ (brk s)); done. }
    apply vfs_bind_inv in H as (blk & s1 & Hpre & H).
    pose proof (vfs_vnode_prealloc_trace _ _ _ _ Hpre) as Ht1.
    apply vfs_vnode_prealloc_inv in Hpre as (Hl1 & Hk1 & Hs1 & Hpre).
    destruct Hpre as [(-> & Hm1) | (-> & n0 & Hm1 & Hsb0 & Hc0)].
    { injection H as <- <-. split; [done|]. intros q [=]. }
    set (p := brk s) in *.
    apply vfs_bind_inv in H as (n0' & s1' & Hld & H).
    apply load_vnode_inv in Hld as [Hn0' ->].
    rewrite Hm1, lookup_insert_eq in Hn0'. injection Hn0' as <-.
    apply vfs_bind_inv in H as (u & s2 & Hst & H).
    pose proof (store_vnode_trace _ _ _ _ _ Hst) as Ht2.
    apply store_vnode_inv in Hst as (Hm2 & Hl2 & Hk2 & Hs2).
    rewrite Hm1, insert_insert_eq in Hm2.
    apply vfs_bind_inv in H as (sbp & s2' & Hde & H).
    apply deref_inv in Hde as [-> ->].
    apply vfs_bind_inv in H as (b & s2' & Hlb & H).
    apply load_sb_inv in Hlb as [Hb ->].
    apply vfs_bind_inv in H as (r1 & s3 & Hcall & H).
    pose proof (call_vnode_fn_trace _ _ _ _ _ _ _ Hcall) as Ht3.
    apply call_vnode_fn_inv in Hcall
      as (a & b1 & n1 & _ & Hn1 & Hm3 & Hl3 & Hk3 & Hb3).
    rewrite Hm2, lookup_insert_eq in Hn1. injection Hn1 as <-.
    rewrite Hm2, insert_insert_eq in Hm3.
    destruct (Hkeep a b1 (set_v_key vno (Some sbp) n0)) as (Hno & Hsb & Hcnt).
    simpl in Hno, Hsb, Hcnt.
    set (n1 := (vnode_fn B a b1 (set_v_key vno (Some sbp) n0)).2.2) in *.
    destruct (failed r1).
    + (* read_vnode failed *)
      apply vfs_bind_inv in H as (r2 & s4 & Hd & H).
      injection H as <- <-.
      apply (vfs_vnode_dealloc_uncached p s3 r2 s4 (vn_mem s) n1 (S p))
        in Hd as (E1 & E2 & E3).
      * split; [|intros q [=]]. intros _.
        rewrite E1, E2, Hl3, Hl2, Hl1. done.
      * rewrite Hl3, Hl2, Hl1. apply Hbase. lia.
      * done.
      * done.
      * rewrite Hl3, Hl2, Hl1. apply Hmiss; done.
    + (* read_vnode succeeded: registration in the cache *)
      apply vfs_bind_inv in H as (ra & s4 & Hal & H).
      pose proof (vfs_vnode_alloc_trace _ _ _ _ Hal) as Ht4.
      apply vfs_vnode_alloc_inv in Hal as (Hm4 & Hk4 & Hs4 & Hal).
      destruct Hal as [(-> & Hl4) | (-> & Hl4)].
      * (* no room in the cache: destroy and free *)
        change (failed (-1)) with true in H. cbv iota in H.
        apply vfs_bind_inv in H as (b2 & s4' & Hlb2 & H).
        apply load_sb_inv in Hlb2 as [Hb2 ->].
        apply vfs_bind_inv in H as (r3 & s5 & Hcall2 & H).
        apply call_vnode_fn_inv in Hcall2
          as (a2 & b3 & n2 & _ & Hn2 & Hm5 & Hl5 & Hk5 & _).
        rewrite Hm4, Hm3, lookup_insert_eq in Hn2. injection Hn2 as <-.
        rewrite Hm4, Hm3, insert_insert_eq in Hm5.
        destruct (Hkeep a2 b3 n1) as (Hno2 & Hsb2 & _).
        apply vfs_bind_inv in H as (r4 & s6 & Hd & H).
        injection H as <- <-.
        apply (vfs_vnode_dealloc_uncached p s5 r4 s6 (vn_mem s)
                 (vnode_fn B a2 b3 n1).2.2 (S (S p)))
          in Hd as (E1 & E2 & E3).
        -- split; [|intros q [=]]. intros _.
           rewrite E1, E2, Hl5, Hl4, Hl3, Hl2, Hl1. done.
        -- rewrite Hl5, Hl4, Hl3, Hl2, Hl1. apply Hbase. lia.
        -- done.
        -- done.
        -- rewrite Hl5, Hl4, Hl3, Hl2, Hl1. apply Hmiss; congruence.
      * (* registered and acquired *)
        change (failed 0) with false in H. cbv iota in H.
        apply vfs_bind_inv in H as (r5 & s5 & Hacq & H).
        injection H as <- <-.
        pose proof (vfs_vnode_acquire_trace _ _ _ _ Hacq) as Ht5.
        apply vfs_vnode_acquire_inv in Hacq as (n2 & Hn2 & Hm5 & Hl5 & Hk5).
        rewrite Hm4, Hm3, lookup_insert_eq in Hn2. injection Hn2 as <-.
        rewrite Hm4, Hm3, insert_insert_eq in Hm5.
        split; [done|]. intros q [= <-].
        rewrite Hl5, Hl4, Hl3, Hl2, Hl1. split.
        { apply elem_of_app. right. apply list_elem_of_singleton. done. }
        exists (set_v_count (int_incr (v_count n1)) n1).
        split; [done|].
        split; [done|]. split; [done|]. right.
        split; [done|]. split; [simpl; int_arith|]. split; [done|].
        exists sbp. split; [done|].
        rewrite Ht5, Ht4, Ht3, Ht2, Ht1. done.
Qed.

(** X9.  What [vfs_vnode_get_or_read] does to a vnode cache that follows
    the reference-count discipline.  When it returns [NULL] the cache is
    exactly as before: the blank vnode and whatever the backend loaded
    are gone.  When it returns a vnode, the vnode is in the cache under
    the wanted superblock and number and no other block has changed; it
    either was there, and then its count was incremented as a C [int]
    (one more, and [INT_MIN] after [INT_MAX]) and no callback was called,
    or it is new, with count 1, at the end of the cache, after exactly
    one call of [read_vnode]. *)
Theorem vfs_vnode_get_or_read_effect sb vno s r s' :
  refcount_inv s ->
  vfs_vnode_get_or_read B sb vno s = Done r s' ->
  (r = None -> vn_mem s' = vn_mem s /\ vfs_vnodes s' = vfs_vnodes s) /\
  (forall p, r = Some p ->
     p ∈ vfs_vnodes s' /\
     exists n, vn_mem s' = <[p := n]> (vn_mem s) /\
       v_no n = vno /\ v_sb n = sb /\
       ((exists n0, vn_mem s !! p = Some n0 /\
                    n = set_v_count (int_incr (v_count n0)) n0 /\
                    vfs_vnodes s' = vfs_vnodes s /\ trace s' = trace s) \/
        (vn_mem s !! p = None /\ v_count n = 1 /\
         vfs_vnodes s' = vfs_vnodes s ++ [p] /\
         exists sbp, sb = Some sbp /\
                     trace s' = trace s ++ [CallReadVnode sbp p]))).
Proof. apply vfs_vnode_get_or_read_cases. Qed.

End VnodeEffects.

Lemma vfs_vnode_get_or_read_effect_witness :
  (Some 3%nat = None ->
   vn_mem held = vn_mem rooted /\ vfs_vnodes held = vfs_vnodes rooted) /\
  (forall p, Some 3%nat = Some p ->
     p ∈ vfs_vnodes held /\
     exists n, vn_mem held = <[p := n]> (vn_mem rooted) /\ v_no n = 1 /\
       v_sb n = Some 1%nat /\
       ((exists n0, vn_mem rooted !! p = Some n0 /\
                    n = set_v_count (int_incr (v_count n0)) n0 /\
                    vfs_vnodes held = vfs_vnodes rooted /\
                    trace held = trace rooted) \/
        (vn_mem rooted !! p = None /\ v_count n = 1 /\
         vfs_vnodes held = vfs_vnodes rooted ++ [p] /\
         exists sbp, Some 1%nat = Some sbp /\
                     trace held = trace rooted ++ [CallReadVnode sbp p]))).
Proof.
  apply (vfs_vnode_get_or_read_effect (example_backend false never never)
           (example_keeps_identity false never never)
           (Some 1%nat) 1 rooted (Some 3%nat) held).
  - apply refcount_inv_rooted.
  - vm_compute. reflexivity.
Defined.

Lemma list_find_del_last (cmp : nat -> bool) (l : list nat) (p : nat) :
  p ∉ l -> list_find cmp (l ++ [p]) = Some p ->
  (list_find_del cmp (l ++ [p])).2 = l.
Proof.
  induction l as [|x l IH]; simpl; intros Hp Hf.
  - destruct (cmp p); [done|]. simpl in Hf. done.
  - destruct (cmp x) eqn:Hx.
    + injection Hf as ->. exfalso. apply Hp. left.
    + rewrite not_elem_of_cons in Hp. destruct Hp as [_ Hp].
      specialize (IH Hp Hf).
      destruct (list_find_del cmp (l ++ [p])) as [o l']. simpl in *.
      congruence.
Qed.

(** From a count of at least 1, an increment and a decrement give the
    count back, also when the increment wraps around. *)
Lemma set_v_count_undo (n : vfs_vnode) :
  1 <= v_count n ->
  set_v_count (int_decr (int_incr (v_count n)))
    (set_v_count (int_incr (v_count n)) n) = n.
Proof.
  destruct n. unfold set_v_count. simpl. intros Hc. f_equal. int_arith.
Qed.

(** X10.  Acquire, then release: on a vnode cache that follows the
    reference-count discipline, a vnode returned by
    [vfs_vnode_get_or_read] and then released with result 0 leaves the
    blocks and the cache list exactly as they were before the
    acquisition, whether the vnode was already cached or was loaded and
    is destroyed again. *)
Theorem vnode_acquire_release_round_trip (B : backend)
    (sb : option nat) (vno : Z) (s s1 s2 : vfs_state) (p : nat) :
  vnode_fn_keeps_identity B ->
  refcount_inv s ->
  vfs_vnode_get_or_read B sb vno s = Done (Some p) s1 ->
  vfs_vnode_release B p s1 = Done 0 s2 ->
  vn_mem s2 = vn_mem s /\ vfs_vnodes s2 = vfs_vnodes s.
Proof.
  intros Hkeep Hinv Hget Hrel.
  destruct (vfs_vnode_get_or_read_cases B Hkeep sb vno s _ s1 Hinv Hget)
    as [_ Heff].
  destruct (Heff p eq_refl) as (Hin & n & Hm1 & Hno & Hsb & Hcase).
  apply vfs_vnode_release_spec in Hrel as (n' & Hn' & Hrel).
  rewrite Hm1, lookup_insert_eq in Hn'. injection Hn' as <-.
  simpl in Hrel.
  destruct Hcase as [(n0 & Hn0 & -> & Hl1 & _) |
                     (Hnone & Hc1 & Hl1 & _)].
  - (* it was cached: the count is back *)
    assert (Hc0 : 1 <= v_count n0).
    { rewrite Hl1 in Hin.
      destruct (inv_cached _ _ _ Hinv p Hin) as (x & Hx & Hc).
      rewrite Hn0 in Hx. injection Hx as <-. done. }
    destruct Hrel as [(_ & _ & ->) | (Hlt & _)];
      [|simpl in Hlt; int_arith].
    simpl. split; [|done].
    rewrite Hm1, insert_insert_eq, set_v_count_undo by done.
    apply insert_id. done.
  - (* it was loaded: it is destroyed and freed *)
    destruct Hrel as [(Hge & _) | (_ & sbp & b & a & _ & _ & _ & Hrel)];
      [int_arith|].
    destruct Hrel as [(_ & Hr & _) | (_ & Hd)]; [done|].
    apply vfs_vnode_dealloc_spec in Hd as (x & Hx & Hd). simpl in Hd, Hx.
    rewrite lookup_insert_eq in Hx. injection Hx as <-.
    destruct Hd as [(_ & Hfound & ->) | (Hr & _)]; [|done].
    assert (Hpl : p ∉ vfs_vnodes s).
    { intros Hp. destruct (inv_cached _ _ _ Hinv p Hp) as (y & Hy & _).
      congruence. }
    simpl. split.
    + rewrite Hm1, insert_insert_eq, delete_insert_eq.
      apply delete_id. done.
    + rewrite Hl1 in Hfound |- *.
      apply list_find_del_last; [done|].
      destruct Hfound as [Hf | Hf]; [|exact Hf].
      exfalso. rewrite list_find_none in Hf.
      assert (Hp : p ∈ vfs_vnodes s ++ [p]).
      { apply elem_of_app. right. apply list_elem_of_singleton. done. }
      specialize (Hf p Hp).
      unfold vfs_vnodes_cmp in Hf. simpl in Hf.
      rewrite lookup_insert_eq in Hf.
      rewrite !bool_decide_eq_true_2 in Hf; done.
Qed.

Lemma vnode_acquire_release_round_trip_witness :
  let B := example_backend false never never in
  let s2 := state_of (vfs_vnode_release B 3 held) held in
  vn_mem s2 = vn_mem rooted /\ vfs_vnodes s2 = vfs_vnodes rooted.
Proof.
  intros B s2.
  apply (vnode_acquire_release_round_trip B (Some 1%nat) 1 rooted held s2
           3 (example_keeps_identity false never never)
           refcount_inv_rooted).
  - vm_compute. reflexivity.
  - vm_compute. reflexivity.
Defined.

(** X18.  The reference count overflows.  An acquisition of a cached
    vnode whose count is [INT_MAX] returns the vnode with its count at
    [INT_MIN] and changes nothing else: the vnode is still in the cache,
    with a count below 1, so the cache no longer follows the
    reference-count discipline (and its next release takes the count
    back to [INT_MAX]). *)
Theorem vnode_count_overflow (B : backend) (sb : option nat) (vno : Z)
    (s : vfs_state) (p : nat) (n : vfs_vnode) :
  list_find (vfs_vnodes_cmp s sb vno) (vfs_vnodes s) = Some p ->
  vn_mem s !! p = Some n ->
  v_count n = INT_MAX ->
  let s' := with_vn_mem (<[p := set_v_count INT_MIN n]> (vn_mem s)) s in
  vfs_vnode_get_or_read B sb vno s = Done (Some p) s' /\
  p ∈ vfs_vnodes s' /\
  ~ refcount_inv s' /\
  exists s2,
    vfs_vnode_release B p s' = Done 0 s2 /\ vn_mem s2 = vn_mem s /\
    vfs_vnodes s2 = vfs_vnodes s.
Proof.
  intros Hfind Hn Hc s'.
  assert (Hin : p ∈ vfs_vnodes s).
  { apply list_find_some in Hfind as [Hin _]. exact Hin. }
  split.
  { unfold vfs_vnode_get_or_read, vfs_vnode_lookup. vfs_unfold.
    rewrite Hfind. simpl.
    unfold vfs_vnode_acquire, load_vnode, store_vnode. vfs_unfold.
    rewrite Hn. simpl. rewrite Hn. rewrite Hc.
    change (int_incr INT_MAX) with INT_MIN. reflexivity. }
  split; [exact Hin|].
  split.
  { intros Hinv.
    destruct (inv_cached _ _ _ Hinv p Hin) as (x & Hx & Hcx).
    unfold s' in Hx. simpl in Hx. rewrite lookup_insert_eq in Hx.
    injection Hx as <-. simpl in Hcx. unfold INT_MIN in Hcx. lia. }
  exists (with_vn_mem (<[p := n]> (vn_mem s')) s').
  split.
  { unfold vfs_vnode_release, load_vnode, store_vnode. vfs_unfold.
    unfold s'. simpl. rewrite lookup_insert_eq. simpl.
    rewrite lookup_insert_eq. simpl. rewrite lookup_insert_eq. simpl.
    change (int_decr INT_MIN) with INT_MAX.
    assert (Hback : set_v_count INT_MAX (set_v_count INT_MIN n) = n).
    { rewrite <- Hc. destruct n. reflexivity. }
    rewrite Hback. reflexivity. }
  split; [|reflexivity].
  unfold s'. simpl. rewrite insert_insert_eq. apply insert_id. exact Hn.
Qed.

Lemma vnode_count_overflow_witness :
  let B := example_backend false never never in
  exists n s',
    vn_mem held_max !! 3%nat = Some n /\ v_count n = INT_MAX /\
    vfs_vnode_get_or_read B (Some 1%nat) 1 held_max = Done (Some 3%nat) s' /\
    3%nat ∈ vfs_vnodes s' /\ ~ refcount_inv s'.
Proof.
  intros B.
  destruct (vn_mem held_max !! 3%nat) as [n|] eqn:Hn;
    [|vm_compute in Hn; discriminate Hn].
  assert (Hc : v_count n = INT_MAX).
  { vm_compute in Hn. injection Hn as <-. reflexivity. }
  destruct (vnode_count_overflow B (Some 1%nat) 1 held_max 3 n)
    as (Hrun & Hin & Hbad & _).
  - vm_compute. reflexivity.
  - exact Hn.
  - exact Hc.
  - exists n. eexists. split; [reflexivity|]. split; [exact Hc|].
    split; [exact Hrun|]. split; [exact Hin | exact Hbad].
Defined.

(** ** Unmount, continued *)

Lemma same_registry_refl (s : vfs_state) : same_registry s s.
Proof. repeat split; done. Qed.

Lemma same_registry_trans (s1 s2 s3 : vfs_state) :
  same_registry s1 s2 -> same_registry s2 s3 -> same_registry s1 s3.
Proof.
  intros (A1 & A2 & A3 & A4 & A5 & A6) (B1 & B2 & B3 & B4 & B5 & B6).
  repeat split; try congruence.
  - intros H. apply A2, B2. done.
  - intros H. apply B2, A2. done.
Qed.

Lemma store_sb_registry p b s r s' :
  store_sb p b s = Done r s' -> same_registry s s'.
Proof.
  unfold store_sb. destruct (sb_mem s !! p) eqn:Hp; [|done].
  intros [= _ <-]. repeat split; try done; simpl.
  - destruct (decide (p = p0)) as [<-|Hne].
    + eauto.
    + rewrite lookup_insert_ne by done. done.
  - destruct (decide (p = p0)) as [<-|Hne].
    + rewrite lookup_insert_eq. eauto.
    + rewrite lookup_insert_ne by done. done.
Qed.

Lemma store_dentry_registry i d s r s' :
  store_dentry i d s = Done r s' -> same_registry s s'.
Proof.
  unfold store_dentry. destruct (decide _); [|done].
  intros [= _ <-]. repeat split; done.
Qed.

Lemma call_sb_fn_registry (B : backend) f p c s r s' :
  call_sb_fn B f p c s = Done r s' -> same_registry s s'.
Proof.
  unfold call_sb_fn, load_sb. vfs_unfold. intros H.
  destruct f as [a|]; simpl in H; [|done].
  destruct (sb_mem s !! p) as [b|] eqn:Hb; simpl in H; [|done].
  destruct (sb_fn B a b) as [r0 b'].
  destruct (store_sb p b' s) as [u s1|] eqn:Hst; [|done].
  injection H as <- <-.
  apply store_sb_registry in Hst.
  destruct Hst as (A1 & A2 & A3 & A4 & A5 & A6). repeat split; try done.
  - intros H. apply A2. done.
  - intros H. apply A2. done.
Qed.

(** X11.  [vfs_sb_unmount] never unregisters anything: whatever it
    returns, the superblock registry, the set of allocated superblocks,
    the filesystem types, the vnode cache and the root dentry pointer are
    as before.  In particular a superblock that was unmounted stays
    registered for its device, and the root dentry pointer stays set
    after the root filesystem is unmounted. *)
Theorem vfs_sb_unmount_keeps_registry (B : backend) (sb : nat)
    (s : vfs_state) (r : Z) (s' : vfs_state) :
  vfs_sb_unmount B sb s = Done r s' -> same_registry s s'.
Proof.
  intros H. unfold vfs_sb_unmount in H.
  apply vfs_bind_inv in H as (b & s0 & Hb & H).
  apply load_sb_inv in Hb as [Hb ->].
  destruct (negb (VFS_SB_IS_MOUNTED b)).
  { unfold fail_with in H. vfs_unfold. injection H as <- <-.
    repeat split; done. }
  apply vfs_bind_inv in H as (r1 & s1 & Hv & H).
  assert (s1 = s) as ->.
  { unfold vfs_vnode_unmount_sb in Hv. vfs_unfold.
    destruct (list_find _ _); injection Hv as <- <-; done. }
  destruct (failed r1).
  { unfold fail_with in H. vfs_unfold. injection H as <- <-.
    repeat split; done. }
  apply vfs_bind_inv in H as (r2 & s2 & Hd & H).
  assert (H2 : same_registry s s2).
  { unfold vfs_dentry_unmount_sb in Hd.
    destruct (existsb _ _); injection Hd as <- <-; repeat split; done. }
  destruct (failed r2).
  { unfold fail_with in H. vfs_unfold. injection H as <- <-. exact H2. }
  apply vfs_bind_inv in H as (b2 & s2' & Hb2 & H).
  apply load_sb_inv in Hb2 as [Hb2 ->].
  apply vfs_bind_inv in H as (r3 & s3 & Hc & H).
  apply call_sb_fn_registry in Hc.
  assert (H3 : same_registry s s3) by (eapply same_registry_trans; done).
  destruct (failed r3).
  { unfold fail_with in H. vfs_unfold. injection H as <- <-. exact H3. }
  apply vfs_bind_inv in H as (b3 & s3' & Hb3 & H).
  apply load_sb_inv in Hb3 as [Hb3 ->].
  apply vfs_bind_inv in H as (mp & s3' & Hmp & H).
  apply deref_inv in Hmp as [Hmp ->].
  apply vfs_bind_inv in H as (d & s3' & Hld & H).
  unfold load_dentry in Hld. apply deref_inv in Hld as [Hld ->].
  apply vfs_bind_inv in H as (u & s4 & Hst & H).
  apply store_dentry_registry in Hst.
  apply vfs_bind_inv in H as (b4 & s4' & Hb4 & H).
  apply load_sb_inv in Hb4 as [Hb4 ->].
  apply vfs_bind_inv in H as (u2 & s5 & Hst2 & H).
  apply store_sb_registry in Hst2.
  apply vfs_bind_inv in H as (b5 & s5' & Hb5 & H).
  apply load_sb_inv in Hb5 as [Hb5 ->].
  apply vfs_bind_inv in H as (u3 & s6 & Hst3 & H).
  apply store_sb_registry in Hst3.
  injection H as <- <-.
  eapply same_registry_trans; [|exact Hst3].
  eapply same_registry_trans; [|exact Hst2].
  eapply same_registry_trans; [|exact Hst]. done.
Qed.

Lemma vfs_sb_unmount_keeps_registry_witness :
  let B := example_backend true never never in
  same_registry linked_child (state_of (vfs_sb_unmount B 1 linked_child)
                                linked_child).
Proof.
  intros B.
  apply (vfs_sb_unmount_keeps_registry B 1 linked_child 0).
  vm_compute. reflexivity.
Defined.

(** ** Mount, continued *)

Lemma vfs_lookup_done (B : backend) (path : string) (s : vfs_state)
    (r : option nat) (s' : vfs_state) :
  vfs_lookup B path s = Done r s' -> r = None.
Proof.
  unfold vfs_lookup, kalloc. vfs_unfold.
  destruct (kalloc_ok B (brk s)); [|intros [= <- _]; done].
  destruct (lookup_walk B _ _ _) as [[o|] s1|]; [| |done];
    intros [= <- _]; done.
Qed.

(** X12.  Once a root dentry is recorded, [vfs_mount] never succeeds: for
    the path "/" it fails with [E_NOTIMP] and changes nothing but errno,
    and for every other path it fails with [E_NOENT], because the lookup
    of the mount point never returns a dentry. *)
Theorem vfs_mount_after_root (B : backend) (devid : Z) (path fs : string)
    (s : vfs_state) (r : Z) (s' : vfs_state) :
  vfs_root_dentry s <> None ->
  vfs_mount B devid path fs s = Done r s' ->
  r = -1 /\
  (path = "/"%string -> s' = set_errno E_NOTIMP s) /\
  (path <> "/"%string -> errno s' = E_NOENT).
Proof.
  intros Hroot H. unfold vfs_mount in H.
  apply vfs_bind_inv in H as (mp & s1 & Hmp & H).
  unfold mount_point in Hmp. vfs_unfold.
  destruct (vfs_root_dentry s) as [rd|] eqn:Hr; [|done].
  destruct (bool_decide (path <> "/"%string)) eqn:Hp.
  - apply bool_decide_eq_true in Hp.
    destruct (vfs_lookup B path s) as [d s2|] eqn:Hl; [|done].
    apply vfs_lookup_done in Hl as ->.
    injection Hmp as <- <-. injection H as <- <-.
    split; [done|]. split; [done|]. done.
  - apply bool_decide_eq_false in Hp.
    injection Hmp as <- <-. injection H as <- <-.
    split; [done|]. split; [done|]. intros Hne. exfalso. apply Hp. done.
Qed.

Lemma vfs_mount_after_root_witness :
  let B := example_backend false never never in
  let s' := state_of (vfs_mount B 6 "/mnt" "rootfs" rooted) rooted in
  -1 = -1 /\
  ("/mnt"%string = "/"%string -> s' = set_errno E_NOTIMP rooted) /\
  ("/mnt"%string <> "/"%string -> errno s' = E_NOENT).
Proof.
  intros B s'.
  apply (vfs_mount_after_root B 6 "/mnt" "rootfs" rooted (-1) s').
  - vm_compute. discriminate.
  - vm_compute. reflexivity.
Defined.

Lemma vfs_dentry_undo (B : backend) (s : vfs_state) (v : nat) (c : Z) :
  dentry_scan None "/"%string (vfs_dentries s) 0 None 0 = Miss (Some v) c ->
  vfs_dentries s !! v = Some empty_dentry ->
  kalloc_ok B (brk s) = true ->
  exists s1,
    vfs_dentry_get B None "/" s = Done (Some v) s1 /\
    vfs_fs_types s1 = vfs_fs_types s /\ sb_mem s1 = sb_mem s /\
    vfs_sbs s1 = vfs_sbs s /\ brk s1 = S (brk s) /\
    forall e, (vfs_dentry_reset v ;; fail_with e (-1)) s1
              = Done (-1) (set_errno e (with_brk (S (brk s)) s)).
Proof.
  intros Hscan Hv Hok.
  pose proof (vfs_dentry_get_new_state B None "/" s v c Hscan Hok) as Hget.
  simpl in Hget. eexists. split; [exact Hget|].
  split; [done|]. split; [done|]. split; [done|]. split; [done|].
  intros e. unfold vfs_dentry_reset, fail_with, store_dentry. vfs_unfold.
  simpl. rewrite length_insert.
  rewrite decide_True by (eapply lookup_lt_Some; done).
  simpl. rewrite list_insert_insert_eq, list_insert_id by done.
  destruct s. reflexivity.
Qed.

(** X13.  A first mount on "/" that fails before the probe leaves no
    trace.  With no root recorded, a blank slot for the root dentry and
    the name allocated: if the filesystem type is unknown ([E_NOKOBJ]),
    or the device already has a superblock ([E_MOUNTED]), or the
    superblock cannot be allocated ([E_NOMEM]), [vfs_mount] returns -1 and
    the state is as before the call but for errno and the count of
    allocation requests; the dentry it had taken is given back. *)
Theorem vfs_mount_root_rollback (B : backend) (devid : Z) (fs : string)
    (s : vfs_state) (v : nat) (c : Z) :
  vfs_root_dentry s = None ->
  dentry_scan None "/"%string (vfs_dentries s) 0 None 0 = Miss (Some v) c ->
  vfs_dentries s !! v = Some empty_dentry ->
  kalloc_ok B (brk s) = true ->
  (fs_type_find fs (vfs_fs_types s) 0 = None ->
   vfs_mount B devid "/" fs s
     = Done (-1) (set_errno E_NOKOBJ (with_brk (S (brk s)) s))) /\
  (fs_type_find fs (vfs_fs_types s) 0 <> None ->
   list_find (vfs_sb_cmp s devid) (vfs_sbs s) <> None ->
   vfs_mount B devid "/" fs s
     = Done (-1) (set_errno E_MOUNTED (with_brk (S (brk s)) s))) /\
  (fs_type_find fs (vfs_fs_types s) 0 <> None ->
   list_find (vfs_sb_cmp s devid) (vfs_sbs s) = None ->
   (kalloc_ok B (S (brk s)) = false ->
    vfs_mount B devid "/" fs s
      = Done (-1) (set_errno E_NOMEM (with_brk (S (S (brk s))) s))) /\
   (kalloc_ok B (S (brk s)) = true ->
    kalloc_ok B (S (S (brk s))) = false ->
    vfs_mount B devid "/" fs s
      = Done (-1) (set_errno E_NOMEM (with_brk (S (S (S (brk s)))) s)))).
Proof.
  intros Hroot Hscan Hv Hok.
  destruct (vfs_dentry_undo B s v c Hscan Hv Hok)
    as (s1 & Hget & Hft & Hmem & Hsbs & Hbrk & Hundo).
  assert (Hmp : mount_point B "/" s = Done (Some v) s1).
  { unfold mount_point. vfs_unfold. rewrite Hroot.
    rewrite bool_decide_eq_false_2 by (intros H; apply H; done).
    rewrite Hget. done. }
  assert (Hcmp : vfs_sb_cmp s1 devid = vfs_sb_cmp s devid).
  { unfold vfs_sb_cmp. rewrite Hmem. done. }
  split; [|split].
  - intros Hnone. unfold vfs_mount. unfold mbind at 1. unfold vfs_bind.
    rewrite Hmp. unfold vfs_fs_type_lookup. vfs_unfold.
    rewrite Hft, Hnone. apply (Hundo E_NOKOBJ).
  - intros Hsome Hfound. unfold vfs_mount. unfold mbind at 1.
    unfold vfs_bind. rewrite Hmp. unfold vfs_fs_type_lookup, vfs_sb_lookup.
    vfs_unfold. rewrite Hft.
    destruct (fs_type_find fs (vfs_fs_types s) 0) as [ti|]; [|done].
    cbv beta. rewrite Hcmp, Hsbs.
    destruct (list_find (vfs_sb_cmp s devid) (vfs_sbs s)); [|done].
    apply (Hundo E_MOUNTED).
  - intros Hsome Hfree.
    assert (Hstart : forall k,
      (vfs_dentry_reset v ;; fail_with E_NOMEM (-1)) (with_brk k s1)
      = Done (-1) (set_errno E_NOMEM (with_brk k s))).
    { intros k. specialize (Hundo E_NOMEM). revert Hundo.
      unfold vfs_dentry_reset, fail_with, store_dentry. vfs_unfold. simpl.
      destruct (decide _); [|done]. intros Hinj.
      injection Hinj as Ea Eb Ec Ed Ee Ef Eg Eh Ei. f_equal.
      unfold set_errno, with_dentries, with_brk. simpl.
      f_equal; assumption. }
    split.
    + intros Hk1. unfold vfs_mount. unfold mbind at 1. unfold vfs_bind.
      rewrite Hmp. unfold vfs_fs_type_lookup, vfs_sb_lookup.
      vfs_unfold. rewrite Hft.
      destruct (fs_type_find fs (vfs_fs_types s) 0) as [ti|]; [|done].
      cbv beta. rewrite Hcmp, Hsbs, Hfree.
      rewrite vfs_sb_alloc_spec, Hbrk, Hk1.
      rewrite <- Hbrk. apply (Hstart (S (brk s1))).
    + intros Hk1 Hk2. unfold vfs_mount. unfold mbind at 1. unfold vfs_bind.
      rewrite Hmp. unfold vfs_fs_type_lookup, vfs_sb_lookup.
      vfs_unfold. rewrite Hft.
      destruct (fs_type_find fs (vfs_fs_types s) 0) as [ti|]; [|done].
      cbv beta. rewrite Hcmp, Hsbs, Hfree.
      rewrite vfs_sb_alloc_spec, Hbrk, Hk1, Hk2.
      rewrite <- Hbrk. apply (Hstart (S (S (brk s1)))).
Qed.

Lemma vfs_mount_root_rollback_witness :
  let B := example_backend false never never in
  (fs_type_find "minix" (vfs_fs_types booted) 0 = None ->
   vfs_mount B 5 "/" "minix" booted
     = Done (-1) (set_errno E_NOKOBJ (with_brk (S (brk booted)) booted))) /\
  (fs_type_find "minix" (vfs_fs_types booted) 0 <> None ->
   list_find (vfs_sb_cmp booted 5) (vfs_sbs booted) <> None ->
   vfs_mount B 5 "/" "minix" booted
     = Done (-1) (set_errno E_MOUNTED (with_brk (S (brk booted)) booted))) /\
  (fs_type_find "minix" (vfs_fs_types booted) 0 <> None ->
   list_find (vfs_sb_cmp booted 5) (vfs_sbs booted) = None ->
   (kalloc_ok B (S (brk booted)) = false ->
    vfs_mount B 5 "/" "minix" booted
      = Done (-1)
          (set_errno E_NOMEM (with_brk (S (S (brk booted))) booted))) /\
   (kalloc_ok B (S (brk booted)) = true ->
    kalloc_ok B (S (S (brk booted))) = false ->
    vfs_mount B 5 "/" "minix" booted
      = Done (-1)
          (set_errno E_NOMEM (with_brk (S (S (S (brk booted)))) booted)))).
Proof.
  intros B.
  apply (vfs_mount_root_rollback B 5 "minix" booted 99 0).
  - reflexivity.
  - vm_compute. reflexivity.
  - reflexivity.
  - reflexivity.
Defined.

(** What [vfs_dentry_get] leaves alone, and the slot it returns. *)
Lemma vfs_dentry_get_some (B : backend) parent name s i s1 :
  vfs_dentry_get B parent name s = Done (Some i) s1 ->
  (exists d, vfs_dentries s1 !! i = Some d /\ matches parent name d) /\
  sb_mem s1 = sb_mem s /\ vfs_sbs s1 = vfs_sbs s /\
  vfs_fs_types s1 = vfs_fs_types s /\ trace s1 = trace s /\
  vfs_root_dentry s1 = vfs_root_dentry s /\
  vn_mem s1 = vn_mem s /\ vfs_vnodes s1 = vfs_vnodes s.
Proof.
  intros Hget.
  destruct (dentry_scan parent name (vfs_dentries s) 0 None 0)
    as [i0 | [v|] c] eqn:Hscan.
  - destruct (vfs_dentry_get_hit B parent name s i0 Hscan)
      as (d & Hd & Hn & Hp & Heq).
    rewrite Heq in Hget. injection Hget as -> <-. simpl.
    split; [|done].
    exists (set_d_count (int_incr (d_count d)) d).
    rewrite list_lookup_insert_eq by (eapply lookup_lt_Some; done).
    split; [done | split; done].
  - destruct (kalloc_ok B (brk s)) eqn:Hok.
    + pose proof (vfs_dentry_get_new_state B parent name s v c Hscan Hok)
        as Heq.
      rewrite Heq in Hget.
      assert (Hlt : (v < length (vfs_dentries s))%nat)
        by (eapply dentry_scan_victim_bound; done).
      destruct parent as [p|].
      * destruct (decide (p = v)) as [->|Hne].
        -- injection Hget as <- <-. simpl. split; [|done].
           eexists. rewrite list_lookup_insert_eq by done.
           split; [reflexivity | split; done].
        -- destruct (vfs_dentries s !! p) as [pd|]; [|done].
           injection Hget as <- <-. simpl. split; [|done].
           eexists. rewrite list_lookup_insert_eq by done.
           split; [reflexivity | split; done].
      * injection Hget as <- <-. simpl. split; [|done].
        eexists. rewrite list_lookup_insert_eq by done.
        split; [reflexivity | split; done].
    + rewrite (vfs_dentry_get_oom B parent name s v c Hscan Hok) in Hget.
      discriminate.
  - rewrite (vfs_dentry_get_full B parent name s c Hscan) in Hget.
    discriminate.
Qed.

Lemma call_sb_fn_spec (B : backend) f p c s r s' :
  call_sb_fn B f p c s = Done r s' ->
  exists a b,
    f = Some a /\ sb_mem s !! p = Some b /\ r = (sb_fn B a b).1 /\
    s' = log_call c (with_sb_mem (<[p := (sb_fn B a b).2]> (sb_mem s)) s).
Proof.
  unfold call_sb_fn, load_sb, store_sb. vfs_unfold. intros H.
  destruct f as [a|]; simpl in H; [|done].
  destruct (sb_mem s !! p) as [b|] eqn:Hb; simpl in H; [|done].
  destruct (sb_fn B a b) as [r0 b'] eqn:Hcb.
  rewrite Hb in H. injection H as <- <-.
  exists a, b. rewrite Hcb. done.
Qed.

(** The only way [mount_point] returns a dentry. *)
Lemma mount_point_some (B : backend) path s d s1 :
  mount_point B path s = Done (Some d) s1 ->
  vfs_root_dentry s = None /\ path = "/"%string /\
  vfs_dentry_get B None "/" s = Done (Some d) s1.
Proof.
  unfold mount_point. vfs_unfold. intros H.
  destruct (vfs_root_dentry s) as [rd|].
  - exfalso. destruct (bool_decide (path <> "/"%string)); [|done].
    destruct (vfs_lookup B path s) as [r s2|] eqn:Hl; [|done].
    apply vfs_lookup_done in Hl as ->. done.
  - split; [done|].
    destruct (bool_decide (path <> "/"%string)) eqn:Hp; [done|].
    apply bool_decide_eq_false in Hp.
    assert (path = "/"%string) as ->.
    { destruct (decide (path = "/"%string)); [done|]. exfalso. auto. }
    split; [done|].
    destruct (vfs_dentry_get B None "/" s) as [[d0|] s2|]; [|done|done].
    injection H as <- <-. done.
Qed.

(** X14.  What a successful [vfs_mount] has done.  It can only have been
    the mount of the root: there was no root dentry and the path is "/".
    The new root dentry is named "/", has no parent and points to a new
    superblock, which was appended to the registry; the device was not
    registered before; the probe callback of the named type and then the
    mount callback the probe installed were each called once, in this
    order, and neither returned -1; the superblock holds what the mount
    callback left of the probed block linked to its type. *)
Theorem vfs_mount_success (B : backend) (devid : Z) (path fs : string)
    (s s' : vfs_state) (r : Z) :
  vfs_mount B devid path fs s = Done r s' ->
  r <> -1 ->
  r = 0 /\ vfs_root_dentry s = None /\ path = "/"%string /\
  exists d dd sb ti t ag am,
    let probed := sb_fn B ag (blank_sb B sb devid) in
    let linked := set_sb_fs_type (Some ti) probed.2 in
    let mounted := sb_fn B am linked in
    vfs_root_dentry s' = Some d /\
    vfs_dentries s' !! d = Some dd /\
    matches None "/" dd /\
    d_mnt_sb dd = Some sb /\
    fs_type_find fs (vfs_fs_types s) 0 = Some ti /\
    vfs_fs_types s !! ti = Some t /\
    ft_get_sb t = Some ag /\
    op_mount (sb_ops linked) = Some am /\
    probed.1 <> -1 /\ mounted.1 <> -1 /\
    list_find (vfs_sb_cmp s devid) (vfs_sbs s) = None /\
    vfs_sbs s' = vfs_sbs s ++ [sb] /\
    sb_mem s' = <[sb := mounted.2]> (sb_mem s) /\
    trace s' = trace s ++ [CallGetSb sb; CallMount sb].
Proof.
  intros H Hr. unfold vfs_mount in H.
  apply vfs_bind_inv in H as (mp & s1 & Hmp & H).
  destruct mp as [d|]; [|injection H as <- _; done].
  apply mount_point_some in Hmp as (Hroot & -> & Hget).
  apply vfs_dentry_get_some in Hget
    as ((dd0 & Hdd0 & Hmatch) & Hm1 & Hl1 & Hf1 & Ht1 & Hr1 & _ & _).
  apply vfs_bind_inv in H as (ft & s1' & Hft & H).
  unfold vfs_fs_type_lookup in Hft. vfs_unfold. injection Hft as <- <-.
  rewrite Hf1 in H.
  destruct (fs_type_find fs (vfs_fs_types s) 0) as [ti|] eqn:Hti; cbv beta iota in H.
  2:{ exfalso. unfold fail_with, vfs_dentry_reset in H. vfs_unfold.
      destruct (store_dentry d empty_dentry s1); [|done].
      injection H as <- _. done. }
  apply vfs_bind_inv in H as (old & s1' & Hold & H).
  unfold vfs_sb_lookup in Hold. vfs_unfold. injection Hold as <- <-.
  assert (Hcmp : list_find (vfs_sb_cmp s1 devid) (vfs_sbs s1)
                 = list_find (vfs_sb_cmp s devid) (vfs_sbs s)).
  { rewrite Hl1. unfold vfs_sb_cmp. rewrite Hm1. done. }
  rewrite Hcmp in H.
  destruct (list_find (vfs_sb_cmp s devid) (vfs_sbs s)) as [o|] eqn:Hnone;
    cbv beta iota in H.
  { exfalso. unfold fail_with, vfs_dentry_reset in H. vfs_unfold.
    destruct (store_dentry d empty_dentry s1); [|done].
    injection H as <- _. done. }
  apply vfs_bind_inv in H as (new & s2 & Hnew & H).
  rewrite vfs_sb_alloc_spec in Hnew.
  destruct new as [sb|].
  2:{ exfalso. unfold fail_with, vfs_dentry_reset in H. vfs_unfold.
      destruct (store_dentry d empty_dentry s2); [|done].
      injection H as <- _. done. }
  destruct (kalloc_ok B (brk s1)); [|done].
  destruct (kalloc_ok B (S (brk s1))); [|done].
  injection Hnew as <- <-.
  set (sb := brk s1) in *.
  apply vfs_bind_inv in H as (t & s2' & Ht & H).
  unfold load_fs_type in Ht. apply deref_inv in Ht as (Ht & ->).
  apply vfs_bind_inv in H as (r1 & s3 & Hc1 & H).
  apply call_sb_fn_spec in Hc1 as (ag & b0 & Hag & Hb0 & -> & ->).
  simpl in Hb0. rewrite lookup_insert_eq in Hb0. injection Hb0 as <-.
  destruct (failed (sb_fn B ag (blank_sb B sb devid)).1) eqn:Hfail1.
  { exfalso. unfold fail_with, vfs_dentry_reset in H. vfs_unfold.
    match type of H with
    | match ?m with _ => _ end = _ => destruct m as [? s9|]; [|done]
    end.
    destruct (store_dentry d empty_dentry s9); [|done].
    injection H as <- _. done. }
  apply vfs_bind_inv in H as (b1 & s3' & Hb1 & H).
  apply load_sb_inv in Hb1 as (Hb1 & ->).
  simpl in Hb1. rewrite lookup_insert_eq in Hb1. injection Hb1 as <-.
  apply vfs_bind_inv in H as ([] & s4 & Hst & H).
  unfold store_sb in Hst. simpl in Hst. rewrite lookup_insert_eq in Hst.
  injection Hst as <-.
  apply vfs_bind_inv in H as (b2 & s4' & Hb2 & H).
  apply load_sb_inv in Hb2 as (Hb2 & ->).
  simpl in Hb2. rewrite lookup_insert_eq in Hb2. injection Hb2 as <-.
  apply vfs_bind_inv in H as (r2 & s5 & Hc2 & H).
  apply call_sb_fn_spec in Hc2 as (am & b3 & Ham & Hb3 & -> & ->).
  simpl in Hb3. rewrite lookup_insert_eq in Hb3. injection Hb3 as <-.
  match type of H with
  | (if failed ?x then _ else _) _ = _ => destruct (failed x) eqn:Hfail2
  end.
  { exfalso. unfold fail_with, vfs_dentry_reset in H. vfs_unfold.
    match type of H with
    | match ?m with _ => _ end = _ => destruct m as [? s8|]; [|done]
    end.
    match type of H with
    | match ?m with _ => _ end = _ => destruct m as [? s9|]; [|done]
    end.
    destruct (store_dentry d empty_dentry s9); [|done].
    injection H as <- _. done. }
  apply vfs_bind_inv in H as (dd1 & s5' & Hld & H).
  unfold load_dentry in Hld. apply deref_inv in Hld as (Hld & ->).
  simpl in Hld. rewrite Hdd0 in Hld. injection Hld as <-.
  apply vfs_bind_inv in H as ([] & s6 & Hsd & H).
  rewrite store_dentry_ok in Hsd
    by (simpl; eapply lookup_lt_Some; exact Hdd0).
  injection Hsd as <-.
  apply vfs_bind_inv in H as (dd2 & s6' & Hld & H).
  unfold load_dentry in Hld. apply deref_inv in Hld as (Hld & ->).
  simpl in Hld. rewrite list_lookup_insert_eq in Hld
    by (eapply lookup_lt_Some; exact Hdd0).
  injection Hld as <-.
  destruct Hmatch as (Hname & Hparent).
  simpl in H. rewrite Hparent in H.
  injection H as <- <-.
  unfold failed in Hfail1, Hfail2.
  apply bool_decide_eq_false in Hfail1, Hfail2.
  split; [done|]. split; [done|]. split; [done|].
  exists d, (set_d_mnt_sb (Some sb) dd0), sb, ti, t, ag, am.
  cbv zeta.
  split; [done|].
  split.
  { simpl. apply list_lookup_insert_eq. eapply lookup_lt_Some; exact Hdd0. }
  split; [split; simpl; done|].
  split; [done|]. split; [done|].
  split; [rewrite <- Hf1; exact Ht|].
  split; [done|]. split; [done|]. split; [done|]. split; [done|].
  split; [done|].
  split; [simpl; rewrite Hl1; done|].
  split.
  { simpl. rewrite !insert_insert_eq. rewrite Hm1. done. }
  simpl. rewrite Ht1. rewrite <- app_assoc. done.
Qed.

Lemma vfs_mount_success_witness :
  let B := example_backend false never never in
  exists s',
    vfs_mount B 5 "/" "rootfs" booted = Done 0 s' /\
    vfs_root_dentry booted = None /\
    exists d dd sb,
      vfs_root_dentry s' = Some d /\
      vfs_dentries s' !! d = Some dd /\
      d_mnt_sb dd = Some sb /\
      vfs_sbs s' = vfs_sbs booted ++ [sb] /\
      trace s' = trace booted ++ [CallGetSb sb; CallMount sb].
Proof.
  intros B.
  destruct (vfs_mount B 5 "/" "rootfs" booted) as [r s'|] eqn:Hrun;
    [|vm_compute in Hrun; discriminate Hrun].
  assert (Hr : r = 0).
  { vm_compute in Hrun. injection Hrun as <- _. reflexivity. }
  subst r. exists s'. split; [reflexivity|].
  destruct (vfs_mount_success B 5 "/" "rootfs" booted s' 0 Hrun)
    as (_ & Hroot & _ & d & dd & sb & ti & t & ag & am & H); [lia|].
  cbv zeta in H.
  destruct H as (H1 & H2 & _ & H4 & _ & _ & _ & _ & _ & _ & _ & H12 & _ & H14).
  split; [exact Hroot|].
  exists d, dd, sb.
  split; [exact H1|]. split; [exact H2|]. split; [exact H4|].
  split; [exact H12|]. exact H14.
Defined.

(** ** Lookup in a directory *)

(** X15.  A name that is in the dentry cache with a vnode number is
    answered from the cache: [vfs_lookup_in_dentry] returns the first slot
    holding the name under the directory and increments its counter as a
    C [int] (one more, and [INT_MIN] after [INT_MAX]); no vnode is read,
    no callback of the filesystem is called, and errno is left as it
    was. *)
Theorem vfs_lookup_in_dentry_cached (B : backend) (dir : option nat)
    (name : string) (s : vfs_state) (i : nat) (d : vfs_dentry) :
  vfs_dentries s !! i = Some d ->
  matches dir name d ->
  d_vno d <> 0 ->
  (forall j e, (j < i)%nat -> vfs_dentries s !! j = Some e ->
               ~ matches dir name e) ->
  vfs_lookup_in_dentry B dir name s =
    Done (Some i)
      (with_dentries
         (<[i := set_d_count (int_incr (d_count d)) d]> (vfs_dentries s)) s).
Proof.
  intros Hd Hm Hvno Hfirst.
  pose proof (dentry_scan_hit_at dir name _ i d Hd Hm Hfirst) as Hscan.
  destruct (vfs_dentry_get_hit B dir name s i Hscan)
    as (d0 & Hd0 & _ & _ & Hget).
  rewrite Hd in Hd0. injection Hd0 as <-.
  unfold vfs_lookup_in_dentry. unfold mbind at 1. unfold vfs_bind.
  rewrite Hget. unfold load_dentry. vfs_unfold. simpl.
  rewrite list_lookup_insert_eq by (eapply lookup_lt_Some; exact Hd).
  simpl. rewrite bool_decide_eq_true_2 by done. done.
Qed.

Lemma vfs_lookup_in_dentry_cached_witness :
  vfs_lookup_in_dentry (example_backend false never never) None "b"
    two_slots =
    Done (Some 1%nat)
      (with_dentries
         [mk_dentry (Some "a"%string) 5 None 3 None None;
          mk_dentry (Some "b"%string) 6 None 2 None None] two_slots).
Proof.
  apply (vfs_lookup_in_dentry_cached (example_backend false never never)
           None "b" two_slots 1 (mk_dentry (Some "b"%string) 6 None 1 None None)).
  - reflexivity.
  - split; reflexivity.
  - simpl. lia.
  - intros j e Hj He [Hn _].
    destruct j as [|j]; [|lia]. injection He as <-. discriminate Hn.
Defined.

Section LookupFrame.

Variable B : backend.

(** The vnode cache functions do not touch the dentry table. *)
Lemma vfs_vnode_dealloc_dentries p s r s' :
  vfs_vnode_dealloc p s = Done r s' -> vfs_dentries s' = vfs_dentries s.
Proof.
  intros H. apply vfs_vnode_dealloc_spec in H as (n & _ & H). simpl in H.
  destruct H as [(_ & _ & ->) | (_ & _ & _ & ->)]; done.
Qed.

Lemma call_vnode_fn_dentries f sbp p c s r s' :
  call_vnode_fn B f sbp p c s = Done r s' ->
  vfs_dentries s' = vfs_dentries s.
Proof.
  intros H. apply call_vnode_fn_spec in H
    as (a & b & n & _ & _ & _ & _ & ->). done.
Qed.

Lemma vfs_vnode_release_dentries p s r s' :
  vfs_vnode_release B p s = Done r s' -> vfs_dentries s' = vfs_dentries s.
Proof.
  intros H. apply vfs_vnode_release_spec in H as (n & Hn & H).
  cbv zeta in H.
  destruct H as [(_ & _ & ->) | (_ & sbp & b & a & _ & _ & _ & H)]; [done|].
  destruct H as [(_ & _ & ->) | (_ & H)]; [done|].
  apply vfs_vnode_dealloc_dentries in H. rewrite H. done.
Qed.

Lemma store_vnode_dentries p n s r s' :
  store_vnode p n s = Done r s' -> vfs_dentries s' = vfs_dentries s.
Proof.
  unfold store_vnode. destruct (vn_mem s !! p); [|done].
  intros [= _ <-]. done.
Qed.

Lemma vfs_vnode_get_or_read_dentries sb vno s r s' :
  vfs_vnode_get_or_read B sb vno s = Done r s' ->
  vfs_dentries s' = vfs_dentries s.
Proof.
  intros H. unfold vfs_vnode_get_or_read in H.
  apply vfs_bind_inv in H as (hit & s0 & Hlook & H).
  unfold vfs_vnode_lookup in Hlook. vfs_unfold.
  injection Hlook as <- <-.
  destruct (list_find (vfs_vnodes_cmp s sb vno) (vfs_vnodes s)) as [p|].
  - apply vfs_bind_inv in H as (r0 & s1 & Hacq & H).
    injection H as <- <-.
    apply vfs_vnode_acquire_spec in Hacq as (n & _ & _ & ->). done.
  - apply vfs_bind_inv in H as (blk & s1 & Hpre & H).
    assert (E1 : vfs_dentries s1 = vfs_dentries s).
    { revert Hpre. unfold vfs_vnode_prealloc, kalloc. vfs_unfold.
      destruct (kalloc_ok B (brk s)); intros [= <- <-]; done. }
    destruct blk as [p|]; [|injection H as <- <-; done].
    apply vfs_bind_inv in H as (n0 & s1' & Hld & H).
    apply load_vnode_inv in Hld as [_ ->].
    apply vfs_bind_inv in H as (u & s2 & Hst & H).
    apply store_vnode_dentries in Hst as E2.
    apply vfs_bind_inv in H as (sbp & s2' & Hde & H).
    apply deref_inv in Hde as [-> ->].
    apply vfs_bind_inv in H as (b & s2' & Hlb & H).
    apply load_sb_inv in Hlb as [_ ->].
    apply vfs_bind_inv in H as (r1 & s3 & Hcall & H).
    apply call_vnode_fn_dentries in Hcall as E3.
    destruct (failed r1).
    + apply vfs_bind_inv in H as (r2 & s4 & Hd & H).
      injection H as <- <-.
      apply vfs_vnode_dealloc_dentries in Hd. congruence.
    + apply vfs_bind_inv in H as (a & s4 & Hal & H).
      assert (E4 : vfs_dentries s4 = vfs_dentries s3).
      { revert Hal. unfold vfs_vnode_alloc, list_add, kalloc. vfs_unfold.
        destruct (kalloc_ok B (brk s3)); intros [= <- <-]; done. }
      destruct (failed a).
      * apply vfs_bind_inv in H as (b2 & s4' & Hlb & H).
        apply load_sb_inv in Hlb as [_ ->].
        apply vfs_bind_inv in H as (r2 & s5 & Hc2 & H).
        apply call_vnode_fn_dentries in Hc2 as E5.
        apply vfs_bind_inv in H as (r3 & s6 & Hd & H).
        injection H as <- <-.
        apply vfs_vnode_dealloc_dentries in Hd. congruence.
      * apply vfs_bind_inv in H as (r2 & s5 & Hacq & H).
        injection H as <- <-.
        apply vfs_vnode_acquire_spec in Hacq as (n & _ & _ & ->).
        simpl. congruence.
Qed.

(** The lookup callback writes the dentry it was given and no other. *)
Lemma call_lookup_fn_dentries f np o s r s' :
  call_lookup_fn B f np o s = Done r s' ->
  exists d', vfs_dentries s' = <[o := d']> (vfs_dentries s).
Proof.
  intros H. unfold call_lookup_fn in H.
  apply vfs_bind_inv in H as (a & s0 & Hde & H).
  apply deref_inv in Hde as [-> ->].
  apply vfs_bind_inv in H as (n & s0 & Hld & H).
  apply load_vnode_inv in Hld as [Hn ->].
  apply vfs_bind_inv in H as (d & s0 & Hld & H).
  unfold load_dentry in Hld. apply deref_inv in Hld as [Hd ->].
  apply vfs_bind_inv in H as (s0 & s0' & Hg & H).
  unfold get_state in Hg. injection Hg as <- <-.
  destruct (lookup_fn B a n d (errno s)) as [r0 [[n' d'] e]].
  apply vfs_bind_inv in H as (u & s1 & Hst & H).
  apply store_vnode_dentries in Hst as E1.
  apply vfs_bind_inv in H as (u2 & s2 & Hsd & H).
  rewrite store_dentry_ok in Hsd
    by (rewrite E1; eapply lookup_lt_Some; exact Hd).
  injection Hsd as Hs2. subst s2.
  vfs_unfold. injection H as _ <-. exists d'.
  unfold log_call, set_errno, with_dentries; simpl. rewrite E1. done.
Qed.

(** What [vfs_dentry_get] leaves in the table for the wanted name: nothing
    when it returns [NULL], and only the returned slot when the table held
    no duplicates. *)
Lemma vfs_dentry_get_none_unnamed parent name s s1 :
  vfs_dentry_get B parent name s = Done None s1 ->
  forall e, e ∈ vfs_dentries s1 -> ~ matches parent name e.
Proof.
  intros Hget e He Hm.
  destruct (vfs_dentry_get_table B parent name s None s1 Hget)
    as [(i & d & Hscan & Hd & Ht) | [(c & Hscan & Ht) |
        (v & c & d & Hscan & Hd & Ht)]].
  - destruct (vfs_dentry_get_hit B parent name s i Hscan)
      as (d0 & _ & _ & _ & Heq).
    rewrite Heq in Hget. done.
  - rewrite Ht in He.
    apply (dentry_scan_miss_no_match parent name _ 0 None 0 None c
             Hscan e He). exact Hm.
  - rewrite Ht in He. apply list_elem_of_lookup in He as (j & Hj).
    destruct (decide (j = v)) as [->|Hne].
    + assert (Hlt : (v < length (vfs_dentries s))%nat).
      { apply lookup_lt_Some in Hj. rewrite length_insert in Hj. done. }
      rewrite list_lookup_insert_eq in Hj by done. injection Hj as <-.
      destruct Hd as [-> | (sb & ->)].
      * destruct Hm as [Hn _]. done.
      * destruct (kalloc_ok B (brk s)) eqn:Hk.
        -- destruct (vfs_dentry_get_new B parent name s v c None s1
                       Hscan Hk Hget) as [Hr _]. done.
        -- rewrite (vfs_dentry_get_oom B parent name s v c Hscan Hk) in Hget.
           injection Hget as <-. simpl in Ht.
           assert (Hv : <[v := empty_dentry]> (vfs_dentries s) !! v
                        = Some (mk_dentry (Some name) 0 parent 1 sb None)).
           { rewrite Ht. apply list_lookup_insert_eq. done. }
           rewrite list_lookup_insert_eq in Hv by done. done.
    + rewrite list_lookup_insert_ne in Hj by done.
      apply (dentry_scan_miss_no_match parent name _ 0 None 0 (Some v) c
               Hscan e); [|exact Hm].
      apply list_elem_of_lookup. eauto.
Qed.

Lemma vfs_dentry_get_only parent name s o s1 :
  dentries_unique (vfs_dentries s) ->
  vfs_dentry_get B parent name s = Done (Some o) s1 ->
  forall j e, vfs_dentries s1 !! j = Some e -> matches parent name e ->
              j = o.
Proof.
  intros Hu Hget j e Hj Hm.
  destruct (decide (j = o)) as [|Hne]; [done|]. exfalso.
  destruct (vfs_dentry_get_table B parent name s (Some o) s1 Hget)
    as [(i & d & Hscan & Hd & Ht) | [(c & Hscan & Ht) |
        (v & c & d & Hscan & Hd & Ht)]].
  - destruct (vfs_dentry_get_hit B parent name s i Hscan)
      as (d0 & Hd0 & Hn0 & Hp0 & Heq).
    rewrite Heq in Hget. injection Hget as Hio _. subst i.
    rewrite Ht, list_lookup_insert_ne in Hj by done.
    destruct Hm as [Hn Hp].
    apply Hne. apply (Hu j o e d0 Hj Hd0); [|congruence..].
    unfold occupied. rewrite Hn. done.
  - rewrite (vfs_dentry_get_full B parent name s c Hscan) in Hget. done.
  - destruct (kalloc_ok B (brk s)) eqn:Hk.
    + destruct (vfs_dentry_get_new B parent name s v c (Some o) s1
                  Hscan Hk Hget) as [[= ->] _].
      rewrite Ht, list_lookup_insert_ne in Hj by done.
      apply (dentry_scan_miss_no_match parent name _ 0 None 0 (Some v) c
               Hscan e); [|exact Hm].
      apply list_elem_of_lookup. eauto.
    + rewrite (vfs_dentry_get_oom B parent name s v c Hscan Hk) in Hget.
      done.
Qed.

End LookupFrame.

(** X16.  A lookup that fails is not cached.  On a table without
    duplicates, when [vfs_lookup_in_dentry] returns [NULL], whatever the
    reason (no slot, no memory, no vnode for the directory, the directory
    vnode is not a directory, the lookup callback failed), no slot of the
    dentry table holds the name under the directory afterwards. *)
Theorem vfs_lookup_in_dentry_failure_uncached (B : backend)
    (dir : option nat) (name : string) (s s' : vfs_state) :
  dentries_unique (vfs_dentries s) ->
  vfs_lookup_in_dentry B dir name s = Done None s' ->
  forall i d, vfs_dentries s' !! i = Some d -> ~ matches dir name d.
Proof.
  intros Hu H. unfold vfs_lookup_in_dentry in H.
  apply vfs_bind_inv in H as (obj & s1 & Hget & H).
  destruct obj as [o|].
  2:{ vfs_unfold. injection H as <-. intros i d Hi.
      apply (vfs_dentry_get_none_unnamed B dir name s s1 Hget).
      apply list_elem_of_lookup. exists i. exact Hi. }
  pose proof (vfs_dentry_get_only B dir name s o s1 Hu Hget) as Honly.
  assert (Hlt : (o < length (vfs_dentries s1))%nat).
  { apply vfs_dentry_get_some in Hget as ((d0 & Hd0 & _) & _).
    eapply lookup_lt_Some. exact Hd0. }
  assert (Hend : forall t, length t = length (vfs_dentries s1) ->
            (forall j, j <> o -> t !! j = vfs_dentries s1 !! j) ->
            vfs_dentries s' = <[o := empty_dentry]> t ->
            forall i d, vfs_dentries s' !! i = Some d -> ~ matches dir name d).
  { intros t Hlen Hsame Ht i d Hi Hm. rewrite Ht in Hi.
    destruct (decide (i = o)) as [->|Hne].
    - rewrite list_lookup_insert_eq in Hi by lia. injection Hi as <-.
      destruct Hm as [Hn _]. done.
    - rewrite list_lookup_insert_ne in Hi by done.
      rewrite Hsame in Hi by done. apply Hne. eapply Honly; done. }
  assert (Hreset : forall s2 u s3,
            vfs_dentry_reset o s2 = Done u s3 ->
            vfs_dentries s3 = <[o := empty_dentry]> (vfs_dentries s2)).
  { intros s2 u s3. unfold vfs_dentry_reset, store_dentry.
    destruct (decide _); [|done]. intros [= _ <-]. done. }
  apply vfs_bind_inv in H as (od & s1' & Hld & H).
  unfold load_dentry in Hld. apply deref_inv in Hld as [Hod ->].
  destruct (bool_decide (d_vno od <> 0)); [done|].
  apply vfs_bind_inv in H as (dp & s1' & Hde & H).
  apply deref_inv in Hde as [-> ->].
  apply vfs_bind_inv in H as (dd & s1' & Hld & H).
  unfold load_dentry in Hld. apply deref_inv in Hld as [Hdd ->].
  apply vfs_bind_inv in H as (dir_node & s2 & Hnode & H).
  assert (E2 : vfs_dentries s2 = vfs_dentries s1).
  { destruct (d_mnt_sb dd) as [m|].
    - apply vfs_bind_inv in Hnode as (mb & s1' & Hlb & Hnode).
      apply load_sb_inv in Hlb as [_ ->].
      apply vfs_vnode_get_or_read_dentries in Hnode. done.
    - apply vfs_vnode_get_or_read_dentries in Hnode. done. }
  destruct dir_node as [np|].
  2:{ apply vfs_bind_inv in H as (u & s3 & Hrs & H).
      apply Hreset in Hrs. vfs_unfold. injection H as <-.
      apply (Hend (vfs_dentries s2)); [congruence | | done].
      intros j _. rewrite E2. done. }
  apply vfs_bind_inv in H as (n & s2' & Hld & H).
  apply load_vnode_inv in Hld as [_ ->].
  destruct (bool_decide (FILE_TYPE B (v_mode n) <> FILE_TYPE_DIRECTORY B)).
  { apply vfs_bind_inv in H as (u & s3 & Hrs & H).
    apply Hreset in Hrs.
    apply vfs_bind_inv in H as (r1 & s4 & Hrel & H).
    apply vfs_vnode_release_dentries in Hrel.
    vfs_unfold. injection H as <-.
    apply (Hend (vfs_dentries s2)); [congruence | | simpl; congruence].
    intros j _. rewrite E2. done. }
  apply vfs_bind_inv in H as (r & s3 & Hcall & H).
  apply call_lookup_fn_dentries in Hcall as (d' & E3).
  destruct (failed r).
  2:{ apply vfs_bind_inv in H as (r1 & s4 & _ & H). done. }
  apply vfs_bind_inv in H as (s3' & s3'' & Hg & H).
  unfold get_state in Hg. injection Hg as <- <-.
  apply vfs_bind_inv in H as (u & s4 & Hrs & H).
  apply Hreset in Hrs.
  apply vfs_bind_inv in H as (r1 & s5 & Hrel & H).
  apply vfs_vnode_release_dentries in Hrel.
  vfs_unfold. injection H as <-.
  apply (Hend (vfs_dentries s3)).
  - rewrite E3, length_insert. congruence.
  - intros j Hj. rewrite E3, list_lookup_insert_ne by done.
    rewrite E2. done.
  - simpl. congruence.
Qed.

Lemma dentries_unique_blank (k : nat) :
  dentries_unique (replicate k empty_dentry).
Proof.
  intros i j d e Hi _ Ho. apply lookup_replicate in Hi as [-> _].
  exfalso. apply Ho. reflexivity.
Qed.

Lemma vfs_lookup_in_dentry_failure_uncached_witness :
  let B := example_backend false never (only fn_lookup) in
  exists s',
    vfs_lookup_in_dentry B (Some 99%nat) "etc" rooted = Done None s' /\
    forall i d, vfs_dentries s' !! i = Some d ->
                ~ matches (Some 99%nat) "etc" d.
Proof.
  intros B.
  destruct (vfs_lookup_in_dentry B (Some 99%nat) "etc" rooted)
    as [[o|] s'|] eqn:Hrun;
    [vm_compute in Hrun; discriminate Hrun | |
     vm_compute in Hrun; discriminate Hrun].
  exists s'. split; [reflexivity|].
  apply (vfs_lookup_in_dentry_failure_uncached B (Some 99%nat) "etc"
           rooted s'); [|exact Hrun].
  replace (vfs_dentries rooted)
    with (<[99%nat := mk_dentry (Some "/"%string) 0 None 1 None (Some 1%nat)]>
            (replicate 100 empty_dentry))
    by (vm_compute; reflexivity).
  apply dentries_unique_replace; [apply dentries_unique_blank|].
  intros _ e He [Hn _]. apply elem_of_replicate in He as [-> _].
  discriminate Hn.
Defined.

(** X17.  With no root mounted, a mount that names a filesystem type
    that is not registered always returns -1, with errno [E_NOROOT] for a
    path other than "/" (nothing else changes), and with [E_NOKOBJ], or
    [E_NOMEM] when no dentry could be had, for "/".  No superblock is
    created, no callback is called, and there is still no root. *)
Theorem vfs_mount_unknown_type (B : backend) (devid : Z) (path fs : string)
    (s : vfs_state) :
  vfs_root_dentry s = None ->
  fs_type_find fs (vfs_fs_types s) 0 = None ->
  exists s',
    vfs_mount B devid path fs s = Done (-1) s' /\
    (path <> "/"%string -> s' = set_errno E_NOROOT s) /\
    (path = "/"%string -> errno s' = E_NOKOBJ \/ errno s' = E_NOMEM) /\
    vfs_root_dentry s' = None /\
    sb_mem s' = sb_mem s /\ vfs_sbs s' = vfs_sbs s /\ trace s' = trace s.
Proof.
  intros Hroot Hfs.
  destruct (decide (path = "/"%string)) as [->|Hne].
  2:{ exists (set_errno E_NOROOT s). split.
      - unfold vfs_mount, mount_point, fail_with. vfs_unfold.
        rewrite Hroot. rewrite bool_decide_eq_true_2 by done. done.
      - split; [done|]. split; [done|]. done. }
  assert (Hmp : forall r s1, vfs_dentry_get B None "/" s = Done r s1 ->
    mount_point B "/" s =
      match r with
      | Some _ => Done r s1
      | None => Done None (set_errno E_NOMEM s1)
      end).
  { intros r s1 Hget. unfold mount_point, fail_with. vfs_unfold.
    rewrite Hroot. rewrite bool_decide_eq_false_2 by (intros H; apply H; done).
    rewrite Hget. destruct r; done. }
  assert (Hnone : forall s1,
    vfs_dentry_get B None "/" s = Done None s1 ->
    vfs_root_dentry s1 = None -> sb_mem s1 = sb_mem s ->
    vfs_sbs s1 = vfs_sbs s -> trace s1 = trace s ->
    exists s',
      vfs_mount B devid "/" fs s = Done (-1) s' /\
      ("/"%string <> "/"%string -> s' = set_errno E_NOROOT s) /\
      ("/"%string = "/"%string -> errno s' = E_NOKOBJ \/ errno s' = E_NOMEM) /\
      vfs_root_dentry s' = None /\
      sb_mem s' = sb_mem s /\ vfs_sbs s' = vfs_sbs s /\ trace s' = trace s).
  { intros s1 Hget H1 H2 H3 H4. exists (set_errno E_NOMEM s1). split.
    - unfold vfs_mount. unfold mbind at 1. unfold vfs_bind.
      rewrite (Hmp _ _ Hget). done.
    - split; [done|]. split; [right; done|]. done. }
  assert (Hsome : forall i s1,
    vfs_dentry_get B None "/" s = Done (Some i) s1 ->
    exists s',
      vfs_mount B devid "/" fs s = Done (-1) s' /\
      ("/"%string <> "/"%string -> s' = set_errno E_NOROOT s) /\
      ("/"%string = "/"%string -> errno s' = E_NOKOBJ \/ errno s' = E_NOMEM) /\
      vfs_root_dentry s' = None /\
      sb_mem s' = sb_mem s /\ vfs_sbs s' = vfs_sbs s /\ trace s' = trace s).
  { intros i s1 Hget.
    pose proof (Hmp _ _ Hget) as Hmp1. cbv beta iota in Hmp1.
    apply vfs_dentry_get_some in Hget
      as ((d & Hd & _) & Hm1 & Hl1 & Hf1 & Ht1 & Hr1 & _ & _).
    exists (set_errno E_NOKOBJ
              (with_dentries (<[i := empty_dentry]> (vfs_dentries s1)) s1)).
    split.
    - unfold vfs_mount. unfold mbind at 1. unfold vfs_bind.
      rewrite Hmp1. unfold vfs_fs_type_lookup. vfs_unfold.
      rewrite Hf1, Hfs. unfold vfs_dentry_reset, fail_with. vfs_unfold.
      rewrite store_dentry_ok by (eapply lookup_lt_Some; exact Hd). done.
    - split; [done|]. split; [left; done|]. simpl.
      rewrite Hroot in Hr1. done. }
  destruct (dentry_scan None "/"%string (vfs_dentries s) 0 None 0)
    as [i | [v|] c] eqn:Hscan.
  - destruct (vfs_dentry_get_hit B None "/" s i Hscan)
      as (d & _ & _ & _ & Hget).
    apply (Hsome _ _ Hget).
  - destruct (kalloc_ok B (brk s)) eqn:Hk.
    + pose proof (vfs_dentry_get_new_state B None "/" s v c Hscan Hk) as Hget.
      cbv beta iota in Hget. apply (Hsome _ _ Hget).
    + pose proof (vfs_dentry_get_oom B None "/" s v c Hscan Hk) as Hget.
      apply (Hnone _ Hget); done.
  - pose proof (vfs_dentry_get_full B None "/" s c Hscan) as Hget.
    apply (Hnone _ Hget); done.
Qed.

Lemma vfs_mount_unknown_type_witness :
  exists s',
    vfs_mount (example_backend false never never) 5 "/" "rootfs" vfs_init
      = Done (-1) s' /\
    errno s' = E_NOKOBJ /\ vfs_root_dentry s' = None /\ vfs_sbs s' = [] /\
    trace s' = [].
Proof.
  destruct (vfs_mount_unknown_type (example_backend false never never) 5
              "/" "rootfs" vfs_init)
    as (s' & Hrun & _ & Herr & Hroot & _ & Hsbs & Htr);
    [reflexivity | reflexivity |].
  exists s'. split; [exact Hrun|].
  split.
  - assert (Hc : vfs_mount (example_backend false never never) 5 "/"
                   "rootfs" vfs_init
                 = Done (-1) (with_brk 1%nat (set_errno E_NOKOBJ vfs_init)))
      by (vm_compute; reflexivity).
    rewrite Hc in Hrun. injection Hrun as <-. reflexivity.
  - split; [exact Hroot|]. split; [exact Hsbs | exact Htr].
Defined.
